(** * Daylio / How-We-Feel interconnector: a shallow embedding of [process.py]

    The development follows the source file top to bottom: the Python
    run-time notions the program relies on (exceptions, insertion-ordered
    dictionaries, decoded JSON values, the [str] methods it calls), then
    [Entry], [DaylioJournal], [import_how_we_feel_csv] and [merge_journals],
    and finally the properties of the natural-language specification.

    Scope of the model.
    - Text is ASCII: a Python [str] is a Rocq [string], and [str.lower],
      [str.strip] act on the ASCII range.
    - A decoded JSON number is an integer ([JInt]); floats do not occur in
      the documents the program handles (ids, time components, epoch
      milliseconds).
    - Files, [json.load]/[json.dump] and [csv.reader] are the environment:
      [merge_journals] starts from the decoded primary document and from the
      rows the CSV reader yields, and ends with the document handed to
      [json.dump].
    - [datetime.strptime], the host's local time zone (used by
      [datetime.timestamp] on a naive value) and the iteration order of a
      [set] are parameters, gathered in the record [Host]. *)

From Stdlib Require Import List String Ascii ZArith Bool Lia Arith.
From Stdlib Require Import DecimalString.
From Stdlib Require Import Permutation.
Import ListNotations.

#[local] Open Scope string_scope.
#[local] Open Scope list_scope.
#[local] Open Scope Z_scope.

Set Implicit Arguments.

(* ================================================================== *)
(** ** Python run-time notions *)

Module Py.

(** The exceptions the program can let escape. *)
Inductive exn : Type :=
| KeyError (key : string)
| TypeError
| AttributeError
| StopIteration
| OverflowError.

Inductive result (A : Type) : Type :=
| Ok (a : A)
| Raise (e : exn).

Arguments Ok {A} a.
Arguments Raise {A} e.

Definition bind {A B : Type} (c : result A) (k : A -> result B) : result B :=
  match c with
  | Ok a => k a
  | Raise e => Raise e
  end.

(** [mapM f l]: a comprehension whose element expression may raise. *)
Fixpoint mapM {A B : Type} (f : A -> result B) (l : list A) : result (list B) :=
  match l with
  | [] => Ok []
  | a :: l' =>
      match f a with
      | Raise e => Raise e
      | Ok b =>
          match mapM f l' with
          | Raise e => Raise e
          | Ok bs => Ok (b :: bs)
          end
      end
  end.

(** *** Insertion-ordered dictionaries

    A [dict] keeps its keys in insertion order; assigning to a key that is
    already present replaces the value and keeps the key (and its place). *)

Section Dict.
Variables K V : Type.
Variable eqb : K -> K -> bool.

Definition dict : Type := list (K * V).

Fixpoint dict_get (k : K) (d : dict) : option V :=
  match d with
  | [] => None
  | (k', v) :: d' => if eqb k k' then Some v else dict_get k d'
  end.

Fixpoint dict_set (k : K) (v : V) (d : dict) : dict :=
  match d with
  | [] => [(k, v)]
  | (k', v') :: d' =>
      if eqb k k' then (k', v) :: d' else (k', v') :: dict_set k v d'
  end.

Definition dict_keys (d : dict) : list K := map fst d.
Definition dict_values (d : dict) : list V := map snd d.

(** [{key: value for ...}]: the pairs are assigned left to right. *)
Definition dict_of_pairs (kvs : list (K * V)) : dict :=
  fold_left (fun d kv => dict_set (fst kv) (snd kv) d) kvs [].
End Dict.

(** *** Decoded JSON values *)

#[warnings="-register-all"]
Inductive json : Type :=
| JNull
| JBool (b : bool)
| JInt (z : Z)
| JStr (s : string)
| JList (l : list json)
| JObj (d : list (string * json)).

(** Truth value of an object ([bool(x)]). *)
Definition truthy (j : json) : bool :=
  match j with
  | JNull => false
  | JBool b => b
  | JInt z => negb (z =? 0)
  | JStr s => negb (s =? "")%string
  | JList l => match l with [] => false | _ => true end
  | JObj d => match d with [] => false | _ => true end
  end.

(** Hashable values, the ones that can be dictionary keys. *)
Inductive key : Type :=
| KNone
| KBool (b : bool)
| KInt (z : Z)
| KStr (s : string).

Definition to_key (j : json) : option key :=
  match j with
  | JNull => Some KNone
  | JBool b => Some (KBool b)
  | JInt z => Some (KInt z)
  | JStr s => Some (KStr s)
  | JList _ | JObj _ => None
  end.

Definition of_key (k : key) : json :=
  match k with
  | KNone => JNull
  | KBool b => JBool b
  | KInt z => JInt z
  | KStr s => JStr s
  end.

(** A [bool] is an [int] in Python: [True == 1] and [False == 0], with equal
    hashes, so they are the same dictionary key. *)
Definition key_int (k : key) : option Z :=
  match k with
  | KInt z => Some z
  | KBool true => Some 1
  | KBool false => Some 0
  | KNone | KStr _ => None
  end.

Definition key_eqb (a b : key) : bool :=
  match a, b with
  | KNone, KNone => true
  | KStr s, KStr t => (s =? t)%string
  | (KInt _ | KBool _), (KInt _ | KBool _) =>
      match key_int a, key_int b with
      | Some x, Some y => x =? y
      | _, _ => false
      end
  | _, _ => false
  end.

(** [str(x)] on a hashable value, as an f-string renders it. *)
Definition str_of_Z (z : Z) : string := NilEmpty.string_of_int (Z.to_int z).

Definition str_of_key (k : key) : string :=
  match k with
  | KNone => "None"
  | KBool true => "True"
  | KBool false => "False"
  | KInt z => str_of_Z z
  | KStr s => s
  end.

(** String-keyed objects. *)
Definition obj : Type := dict string json.
Definition obj_get (k : string) (d : obj) : option json := dict_get String.eqb k d.
Definition obj_set (k : string) (v : json) (d : obj) : obj := dict_set String.eqb k v d.

(** [o.get(k, default)]: only a [dict] has the method. *)
Definition get (o : json) (k : string) (default : json) : result json :=
  match o with
  | JObj d => Ok (match obj_get k d with Some v => v | None => default end)
  | _ => Raise AttributeError
  end.

(** [o[k]] with a string [k]: a [dict] answers or raises [KeyError]; a list,
    a string or a scalar cannot be indexed by a string. *)
Definition getitem (o : json) (k : string) : result json :=
  match o with
  | JObj d => match obj_get k d with Some v => Ok v | None => Raise (KeyError k) end
  | _ => Raise TypeError
  end.

(** [o[k] = v] with a string [k]. *)
Definition setitem (o : json) (k : string) (v : json) : result json :=
  match o with
  | JObj d => Ok (JObj (obj_set k v d))
  | _ => Raise TypeError
  end.

(** [for x in o]: a list yields its elements, a [dict] its keys, a string its
    characters; nothing else is iterable. *)
Fixpoint chars (s : string) : list json :=
  match s with
  | EmptyString => []
  | String c s' => JStr (String c EmptyString) :: chars s'
  end.

Definition iter (o : json) : result (list json) :=
  match o with
  | JList l => Ok l
  | JObj d => Ok (map (fun kv => JStr (fst kv)) d)
  | JStr s => Ok (chars s)
  | JNull | JBool _ | JInt _ => Raise TypeError
  end.

(** *** [str] methods (ASCII) *)

Fixpoint str_map (f : ascii -> ascii) (s : string) : string :=
  match s with
  | EmptyString => EmptyString
  | String c s' => String (f c) (str_map f s')
  end.

Definition lower_char (c : ascii) : ascii :=
  let n := nat_of_ascii c in
  if (Nat.leb 65 n && Nat.leb n 90)%bool then ascii_of_nat (n + 32) else c.

Definition lower : string -> string := str_map lower_char.

(** [s.replace(a, b)] for one-character [a] and [b]. *)
Definition replace_char (a b c : ascii) : ascii := if Ascii.eqb c a then b else c.
Definition replace (a b : ascii) : string -> string := str_map (replace_char a b).

(** [str.isspace] on one ASCII character: tab, line feed, vertical tab, form
    feed, carriage return, the four separators 28..31 and the space. *)
Definition is_space (c : ascii) : bool :=
  let n := nat_of_ascii c in
  ((Nat.leb 9 n && Nat.leb n 13) || (Nat.leb 28 n && Nat.leb n 32))%bool.

Fixpoint lstrip (s : string) : string :=
  match s with
  | EmptyString => EmptyString
  | String c s' => if is_space c then lstrip s' else s
  end.

Fixpoint rstrip (s : string) : string :=
  match s with
  | EmptyString => EmptyString
  | String c s' =>
      match rstrip s' with
      | EmptyString => if is_space c then EmptyString else String c EmptyString
      | r => String c r
      end
  end.

Definition strip (s : string) : string := rstrip (lstrip s).

(** [s.split(sep)] for a one-character separator. *)
Fixpoint split (sep : ascii) (s : string) : list string :=
  match s with
  | EmptyString => [EmptyString]
  | String c s' =>
      if Ascii.eqb c sep then EmptyString :: split sep s'
      else match split sep s' with
           | h :: t => String c h :: t
           | [] => [String c EmptyString]
           end
  end.

Definition nonempty (s : string) : bool := negb (s =? "")%string.

End Py.

Import Py.

Declare Scope py_scope.
Delimit Scope py_scope with py.
Notation "x <- c ;; k" := (bind c (fun x => k))
  (at level 61, c at next level, right associativity) : py_scope.
Notation "' p <- c ;; k" := (bind c (fun p => k))
  (at level 61, p pattern, c at next level, right associativity) : py_scope.
#[local] Open Scope py_scope.

(* ================================================================== *)
(** ** class Entry *)

Module Entry.

(** The attributes [__init__] sets.  The back-reference to the journal is
    not stored: the journal is passed to whoever resolves a name. *)
Record t : Type := mk {
  _data : json;
  id : json;
  minute : json;
  hour : json;
  day : json;
  month : json;
  year : json;
  mood_id : json;
  note : string;
  note_title : string;
  tags : json;
  assets : json;
  is_favorite : json
}.

(** [data.get(k, "").strip()]: only a [str] has [strip]. *)
Definition get_stripped (data : json) (k : string) : result string :=
  v <- get data k (JStr "") ;;
  match v with
  | JStr s => Ok (strip s)
  | _ => Raise AttributeError
  end.

Definition __init__ (data : json) : result t :=
  id <- getitem data "id" ;;
  minute <- getitem data "minute" ;;
  hour <- getitem data "hour" ;;
  day <- getitem data "day" ;;
  month <- getitem data "month" ;;
  year <- getitem data "year" ;;
  mood_id <- getitem data "mood" ;;
  note <- get_stripped data "note" ;;
  note_title <- get_stripped data "note_title" ;;
  tags <- get data "tags" (JList []) ;;
  assets <- get data "assets" (JList []) ;;
  is_favorite <- get data "isFavorite" (JBool false) ;;
  Ok (mk data id minute hour day month year mood_id note note_title
         tags assets is_favorite).

End Entry.

(* ================================================================== *)
(** ** class DaylioJournal *)

Module DaylioJournal.

(** A lookup table [{x["id"]: x for x in ...}]. *)
Definition table : Type := dict key json.

Record t : Type := mk {
  version : json;
  is_reminder_on : json;
  moods : table;
  tags : table;
  entries : list Entry.t
}.

(** The comprehension [{x["id"]: x for x in xs}], started from [d]. *)
Fixpoint by_id (xs : list json) (d : table) : result table :=
  match xs with
  | [] => Ok d
  | x :: xs' =>
      i <- getitem x "id" ;;
      match to_key i with
      | None => Raise TypeError
      | Some k => by_id xs' (dict_set key_eqb k x d)
      end
  end.

Definition __init__ (data : json) : result t :=
  version <- get data "version" JNull ;;
  is_reminder_on <- get data "isReminderOn" (JBool false) ;;
  ms <- get data "customMoods" (JList []) ;;
  ms <- iter ms ;;
  moods <- by_id ms [] ;;
  ts <- get data "tags" (JList []) ;;
  ts <- iter ts ;;
  tags <- by_id ts [] ;;
  es <- get data "dayEntries" (JList []) ;;
  es <- iter es ;;
  entries <- mapM Entry.__init__ es ;;
  Ok (mk version is_reminder_on moods tags entries).

Definition unknown_mood (k : key) : string :=
  "Unknown Mood ID (" ++ str_of_key k ++ ")".

Definition unknown_tag (k : key) : string :=
  "Unknown Tag ID (" ++ str_of_key k ++ ")".

(** [return mood.get("custom_name") if mood and mood.get("custom_name")
     else mood.get("name", f"Unknown Mood ID ({mood_id})")] *)
Definition get_mood_name (self : t) (mood_id : json) : result json :=
  match to_key mood_id with
  | None => Raise TypeError
  | Some k =>
      let mood :=
        match dict_get key_eqb k (moods self) with Some v => v | None => JNull end in
      cond <- (if truthy mood
               then c <- get mood "custom_name" JNull ;; Ok (truthy c)
               else Ok false) ;;
      if (cond : bool)
      then get mood "custom_name" JNull
      else get mood "name" (JStr (unknown_mood k))
  end.

(** [return tag.get("name", f"Unknown Tag ID ({tag_id})") if tag
     else f"Unknown Tag ID ({tag_id})"] *)
Definition get_tag_name (self : t) (tag_id : json) : result json :=
  match to_key tag_id with
  | None => Raise TypeError
  | Some k =>
      let tag :=
        match dict_get key_eqb k (tags self) with Some v => v | None => JNull end in
      if truthy tag
      then get tag "name" (JStr (unknown_tag k))
      else Ok (JStr (unknown_tag k))
  end.

End DaylioJournal.

(* ================================================================== *)
(** ** Naive date-times *)

Module DT.

(** What [strptime] returns for the format of the CSV: a naive date-time
    with second and microsecond zero. *)
Record datetime : Type := mk {
  year : Z;
  month : Z;
  day : Z;
  hour : Z;
  minute : Z
}.

(** Days from 1970-01-01 to the given day of the proleptic Gregorian
    calendar. *)
Definition days_from_civil (y m d : Z) : Z :=
  let y' := if m <=? 2 then y - 1 else y in
  let era := y' / 400 in
  let yoe := y' - era * 400 in
  let mp := if m <=? 2 then m + 9 else m - 3 in
  let doy := (153 * mp + 2) / 5 + d - 1 in
  let doe := yoe * 365 + yoe / 4 - yoe / 100 + doy in
  era * 146097 + doe - 719468.

(** The wall-clock reading as milliseconds from 1970-01-01 00:00, read as if
    it were UTC. *)
Definition wall_ms (dt : datetime) : Z :=
  (((days_from_civil (year dt) (month dt) (day dt)) * 24 + hour dt) * 60
   + minute dt) * 60000.

(** [datetime.min], 0001-01-01 00:00, on the same scale. *)
Definition min_ms : Z := -62135596800000.

(** [dt - timedelta(milliseconds=ms)]: the result must not fall before
    [datetime.min]. *)
Definition sub_ms (dt : datetime) (ms : Z) : result Z :=
  let r := wall_ms dt - ms in
  if r <? min_ms then Raise OverflowError else Ok r.

End DT.

(* ================================================================== *)
(** ** The host

    - [strptime s] is [datetime.strptime(s, "%Y %a %b %d %I:%M %p")]: the
      parsed value, or the message of the [ValueError].
    - [local_utcoffset_ms w] is the UTC offset the host's local time zone
      gives the wall-clock reading [w]: [datetime.timestamp] on a naive
      value reads it as local time of the host.  The timestamp is a whole
      number of seconds far below 2^53, so the float arithmetic of
      [int(dt.timestamp() * 1000)] is exact.
    - [set_order l] is the order in which [list(set(l))] enumerates the
      distinct elements of [l]. *)

Record Host : Type := mkHost {
  strptime : string -> string + DT.datetime;
  local_utcoffset_ms : Z -> Z;
  set_order : list string -> list string
}.

(* ================================================================== *)
(** ** import_how_we_feel_csv *)

Definition DEFAULT_TIMEZONE_OFFSET_MS : Z := 2 * 60 * 60 * 1000.

Definition TAG_COLUMNS : list string :=
  ["Tags (People)"; "Tags (Places)"; "Tags (Events)"; "Exercise"; "Sleep";
   "Menstrual"; "Steps"; "Meditation"; "Weather"].

(** [row_data]: header name to cell. *)
Definition row_dict : Type := dict string string.

(** [{header[i].strip(): value for i, value in enumerate(row)
      if i < len(header)}] *)
Definition make_row_data (header row : list string) : row_dict :=
  dict_of_pairs String.eqb (combine (map strip header) row).

(** [row_data.get(col_name, "")] *)
Definition row_get (row_data : row_dict) (col_name : string) : string :=
  match dict_get String.eqb col_name row_data with
  | Some v => v
  | None => ""
  end.

(** The first loop of [get_tag_ids_from_row]: what one column contributes
    to [non_unique_tags]. *)
Definition column_tags (row_data : row_dict) (col_name : string) : list string :=
  let raw_tag_str := row_get row_data col_name in
  if (col_name =? "Menstrual")%string
  then (if nonempty raw_tag_str then ["Menstrual"] else [])
  else (if nonempty raw_tag_str
        then filter nonempty (map strip (split ";" raw_tag_str))
        else []).

Definition non_unique_tags (row_data : row_dict) : list string :=
  flat_map (column_tags row_data) TAG_COLUMNS.

(** [tag_name.lower().replace(" ", "-").replace("/", "-")] *)
Definition daylio_name (tag_name : string) : string :=
  replace "/" "-" (replace " " "-" (lower tag_name)).

(** What the closure [get_tag_ids_from_row] shares with its caller: the
    journal's tag table, the reverse lookup and the counter. *)
Record tagging : Type := mkTagging {
  journal_tags : DaylioJournal.table;
  tag_name_to_id : dict key key;
  next_tag_id : Z
}.

(** One turn of [for tag_name in unique_tags]. *)
Definition assign_tag (acc : tagging * list json) (tag_name : string)
  : tagging * list json :=
  let (tg, tag_ids) := acc in
  let name := daylio_name tag_name in
  match dict_get key_eqb (KStr name) (tag_name_to_id tg) with
  | None =>
      let i := next_tag_id tg in
      (mkTagging
         (dict_set key_eqb (KInt i)
            (JObj [("id", JInt i); ("name", JStr name)]) (journal_tags tg))
         (dict_set key_eqb (KStr name) (KInt i) (tag_name_to_id tg))
         (i + 1),
       tag_ids ++ [JInt i])
  | Some i => (tg, tag_ids ++ [of_key i])
  end.

(** [{tag['name']: tag_id for tag_id, tag in journal.tags.items()}],
    started from [d]. *)
Fixpoint name_to_id_of (items : list (key * json)) (d : dict key key)
  : result (dict key key) :=
  match items with
  | [] => Ok d
  | (tag_id, tag) :: items' =>
      n <- getitem tag "name" ;;
      match to_key n with
      | None => Raise TypeError
      | Some k => name_to_id_of items' (dict_set key_eqb k tag_id d)
      end
  end.

(** The keys as integers, when all of them are [int] (or [bool]). *)
Fixpoint int_keys (ks : list key) : option (list Z) :=
  match ks with
  | [] => Some []
  | k :: ks' =>
      match key_int k, int_keys ks' with
      | Some z, Some zs => Some (z :: zs)
      | _, _ => None
      end
  end.

(** [max(zs, default=d)] *)
Definition max_default (d : Z) (zs : list Z) : Z :=
  match zs with
  | [] => d
  | z :: zs' => fold_right Z.max z zs'
  end.

(** [max(journal.tags.keys(), default=0) + 1]: with a key that is not a
    number either the comparison inside [max] or the addition raises
    [TypeError]. *)
Definition first_tag_id (ks : list key) : result Z :=
  match int_keys ks with
  | Some zs => Ok (max_default 0 zs + 1)
  | None => Raise TypeError
  end.

(** The state of the loop over the rows. *)
Record importing : Type := mkImporting {
  tagging_of : tagging;
  daylio_entries : list json;
  stdout : list string
}.

Section Importer.
Variable host : Host.

Definition get_tag_ids_from_row (row_data : row_dict) (tg : tagging)
  : tagging * list json :=
  let unique_tags := set_order host (non_unique_tags row_data) in
  fold_left assign_tag unique_tags (tg, []).

(** The body of [for row in reader]. *)
Definition import_row (header : list string) (st : importing)
           (row : list string) : result importing :=
  match row with
  | [] => Ok st
  | _ :: _ =>
      let row_data := make_row_data header row in
      match dict_get String.eqb "Date" row_data with
      | None => Raise (KeyError "Date")
      | Some date_str =>
          match strptime host date_str with
          | inl e =>
              Ok (mkImporting (tagging_of st) (daylio_entries st)
                    (stdout st ++
                     [("Skipping entry due to invalid date format: "
                       ++ date_str ++ ". Error: " ++ e)%string]))
          | inr dt_local =>
              dt_utc <- DT.sub_ms dt_local DEFAULT_TIMEZONE_OFFSET_MS ;;
              let timestamp_ms := dt_utc - local_utcoffset_ms host dt_utc in
              let (tg, tag_ids) :=
                get_tag_ids_from_row row_data (tagging_of st) in
              match dict_get String.eqb "Mood" row_data with
              | None => Raise (KeyError "Mood")
              | Some _ =>
                  let mood_id := 1 in
                  let daylio_entry :=
                    JObj [("id", JInt (Z.of_nat (List.length (daylio_entries st)) + 1));
                          ("minute", JInt (DT.minute dt_local));
                          ("hour", JInt (DT.hour dt_local));
                          ("day", JInt (DT.day dt_local));
                          ("month", JInt (DT.month dt_local - 1));
                          ("year", JInt (DT.year dt_local));
                          ("datetime", JInt timestamp_ms);
                          ("timeZoneOffset", JInt DEFAULT_TIMEZONE_OFFSET_MS);
                          ("mood", JInt mood_id);
                          ("note", JStr (strip (row_get row_data "Notes")));
                          ("note_title", JStr "");
                          ("tags", JList tag_ids);
                          ("assets", JList []);
                          ("isFavorite", JBool false)] in
                  Ok (mkImporting tg (daylio_entries st ++ [daylio_entry])
                        (stdout st))
              end
          end
      end
  end.

Fixpoint import_rows (header : list string) (st : importing)
         (rows : list (list string)) : result importing :=
  match rows with
  | [] => Ok st
  | row :: rows' =>
      st' <- import_row header st row ;;
      import_rows header st' rows'
  end.

(** [csv_rows] is what [csv.reader(StringIO(csv_data))] yields.  The
    result is the returned list, the journal as the call leaves it and
    the lines printed. *)
Definition import_how_we_feel_csv
           (csv_rows : list (list string)) (journal : DaylioJournal.t)
  : result (list json * DaylioJournal.t * list string) :=
  match csv_rows with
  | [] => Raise StopIteration
  | header :: rows =>
      tag_name_to_id <- name_to_id_of (DaylioJournal.tags journal) [] ;;
      next_tag_id <- first_tag_id (dict_keys (DaylioJournal.tags journal)) ;;
      st <- import_rows header
              (mkImporting
                 (mkTagging (DaylioJournal.tags journal) tag_name_to_id next_tag_id)
                 [] [])
              rows ;;
      Ok (daylio_entries st,
          DaylioJournal.mk (DaylioJournal.version journal)
            (DaylioJournal.is_reminder_on journal)
            (DaylioJournal.moods journal)
            (journal_tags (tagging_of st))
            (DaylioJournal.entries journal),
          stdout st)
  end.

(* ================================================================ *)
(** ** merge_journals *)

(** [for i, entry_dict in enumerate(all_entries): entry_dict["id"] = i + 1],
    with [i] counted from [start]. *)
Fixpoint renumber (start : Z) (all_entries : list json) : result (list json) :=
  match all_entries with
  | [] => Ok []
  | entry_dict :: rest =>
      e <- setitem entry_dict "id" (JInt (start + 1)) ;;
      rest' <- renumber (start + 1) rest ;;
      Ok (e :: rest')
  end.

(** [daylio_data.copy()]: only a [dict] reaches this point. *)
Definition copy (daylio_data : json) : result obj :=
  match daylio_data with
  | JObj d => Ok d
  | _ => Raise AttributeError
  end.

(** From the decoded primary document and the CSV rows to the document
    given to [json.dump]. *)
Definition merge_journals (daylio_data : json) (csv_rows : list (list string))
  : result json :=
  journal <- DaylioJournal.__init__ daylio_data ;;
  '(hwf_daylio_dicts, journal', _) <- import_how_we_feel_csv csv_rows journal ;;
  let existing_daylio_dicts := map Entry._data (DaylioJournal.entries journal') in
  let all_entries := existing_daylio_dicts ++ hwf_daylio_dicts in
  all_entries <- renumber 0 all_entries ;;
  merged_data <- copy daylio_data ;;
  let merged_data := obj_set "dayEntries" (JList all_entries) merged_data in
  let merged_data :=
    obj_set "tags" (JList (dict_values (DaylioJournal.tags journal'))) merged_data in
  let merged_data :=
    obj_set "customMoods" (JList (dict_values (DaylioJournal.moods journal')))
      merged_data in
  Ok (JObj merged_data).

End Importer.

(* ================================================================== *)
(** ** Vocabulary of the statements

    The notions the properties below are stated with: canonical keys,
    runs of consecutive ids, the shape of the tag table after an import,
    what it means for a tag reference to resolve, renumbered records, the
    fields a merge writes, and the specification's own wording of the mood
    name resolution. *)

(** The representative of a key among the keys equal to it: a [bool] stands
    for its number. *)
Definition canon (k : key) : key :=
  match k with
  | KBool true => KInt 1
  | KBool false => KInt 0
  | _ => k
  end.

(** What the normalisation of a tag name does to one character. *)
Definition normalize_char (c : ascii) : ascii :=
  replace_char "/" "-" (replace_char " " "-" (lower_char c)).

(** [start], [start + 1], ..., [n] numbers in all. *)
Fixpoint zseq (start : Z) (n : nat) : list Z :=
  match n with
  | O => []
  | S n' => start :: zseq (start + 1) n'
  end.

(** The record the importer stores for a new tag, under its key. *)
Definition new_tag (p : Z * string) : key * json :=
  (KInt (fst p), JObj [("id", JInt (fst p)); ("name", JStr (snd p))]).

(** The tags appended after [first], one id each. *)
Definition new_tags (first : Z) (names : list string) : DaylioJournal.table :=
  map new_tag (combine (zseq first (List.length names)) names).

(** No two keys of the table are equal (as Python compares keys). *)
Definition distinct_keys (V : Type) (d : dict key V) : Prop :=
  NoDup (map canon (dict_keys d)).

(** The item is stored under the record's own id. *)
Definition keyed (kv : key * json) : Prop :=
  exists x kx,
    getitem (snd kv) "id" = Ok x /\ to_key x = Some kx /\
    key_eqb kx (fst kv) = true.

(** The table is the initial one followed by new tags numbered from
    [first], and the counter stands after the last of them. *)
Definition grown (T0 : DaylioJournal.table) (first : Z) (tg : tagging) : Prop :=
  exists names,
    journal_tags tg = T0 ++ new_tags first names /\
    next_tag_id tg = first + Z.of_nat (List.length names).

(** Under key [k] the table holds a record whose id is [k] and whose name
    is [n]. *)
Definition tag_record (tbl : DaylioJournal.table) (k : key) (n : string) : Prop :=
  exists d i ki,
    dict_get key_eqb k tbl = Some (JObj d) /\
    obj_get "id" d = Some i /\ to_key i = Some ki /\ key_eqb ki k = true /\
    obj_get "name" d = Some (JStr n).

(** The value [x] of a 'tags' list is a key of the table, and the record
    there carries that id and a normalised name. *)
Definition resolves (tbl : DaylioJournal.table) (x : json) : Prop :=
  exists k n, to_key x = Some k /\ tag_record tbl k n /\ daylio_name n = n.

(** Every reference of the record's 'tags' list resolves. *)
Definition entry_tags_resolve (tbl : DaylioJournal.table) (e : json) : Prop :=
  forall ids, getitem e "tags" = Ok (JList ids) -> Forall (resolves tbl) ids.

(** Whatever [T] holds under a key, [T'] holds too. *)
Definition extends (T T' : DaylioJournal.table) : Prop :=
  forall k v, dict_get key_eqb k T = Some v -> dict_get key_eqb k T' = Some v.

(** The counter is above every key, and every name of the reverse lookup
    leads to a record of that name. *)
Definition tagging_ok (tg : tagging) : Prop :=
  (exists zs, int_keys (dict_keys (journal_tags tg)) = Some zs /\
              Forall (fun z => z < next_tag_id tg) zs) /\
  (forall n i, dict_get key_eqb (KStr n) (tag_name_to_id tg) = Some i ->
               tag_record (journal_tags tg) i n).

(** The state of the loop: the closure's state is sound and the records
    collected so far refer to tags of the table. *)
Definition importing_ok (st : importing) : Prop :=
  tagging_ok (tagging_of st) /\
  Forall (entry_tags_resolve (journal_tags (tagging_of st))) (daylio_entries st).

(** [dst] is the record [src] with the field 'id' overwritten, and nothing
    else changed. *)
Definition renumbered (src dst : json) : Prop :=
  exists d i, src = JObj d /\ dst = JObj (obj_set "id" (JInt i) d).

(** The 'id' fields of a list of records. *)
Definition ids_of (l : list json) : list (result json) :=
  map (fun e => getitem e "id") l.

(** The ids [start], [start + 1], ..., [n] of them. *)
Definition id_run (start : Z) (n : nat) : list (result json) :=
  map (fun i => Ok (JInt i)) (zseq start n).

(** The row yields a record: it is not empty and its Date cell parses. *)
Definition row_imported (host : Host) (header row : list string) : bool :=
  match row with
  | [] => false
  | _ :: _ =>
      match dict_get String.eqb "Date" (make_row_data header row) with
      | Some date_str =>
          match strptime host date_str with
          | inr _ => true
          | inl _ => false
          end
      | None => false
      end
  end.

(** The three top-level fields the merge writes. *)
Definition written_field (k : string) : bool :=
  ((k =? "dayEntries") || (k =? "tags") || (k =? "customMoods"))%string.

(** The items of a document the merge does not write, in their order. *)
Definition other_fields (d : obj) : obj :=
  filter (fun kv => negb (written_field (fst kv))) d.

(** The ids of a list of records, as dictionary keys. *)
Fixpoint id_keys (xs : list json) : option (list key) :=
  match xs with
  | [] => Some []
  | x :: xs' =>
      match getitem x "id" with
      | Ok i =>
          match to_key i, id_keys xs' with
          | Some k, Some ks => Some (k :: ks)
          | _, _ => None
          end
      | Raise _ => None
      end
  end.

(** The records have ids, no two of them equal. *)
Definition unique_ids (xs : list json) : Prop :=
  exists ks, id_keys xs = Some ks /\ NoDup (map canon ks).

(** resolveMoodName as the specification words it: the custom name if
    non-empty, else the name field, else the placeholder, the placeholder
    also standing for an id that is not in the table and for two empty
    names. *)
Definition resolveMoodName_spec (moods : DaylioJournal.table) (k : key) : json :=
  let placeholder := JStr (DaylioJournal.unknown_mood k) in
  match dict_get key_eqb k moods with
  | Some (JObj d) =>
      match obj_get "custom_name" d with
      | Some (JStr (String c s)) => JStr (String c s)
      | _ =>
          match obj_get "name" d with
          | Some (JStr (String c s)) => JStr (String c s)
          | _ => placeholder
          end
      end
  | _ => placeholder
  end.

(** What the code answers for a record [d] of the table. *)
Definition mood_name_of (d : obj) (k : key) : json :=
  let by_name :=
    match obj_get "name" d with
    | Some n => n
    | None => JStr (DaylioJournal.unknown_mood k)
    end in
  match obj_get "custom_name" d with
  | Some c => if truthy c then c else by_name
  | None => by_name
  end.

(* ================================================================== *)
(** ** Sample inputs

    A host in the zone the source assumes (UTC+2), a primary document and
    CSV rows, used to instantiate the statements below. *)

Definition sample_strptime (s : string) : string + DT.datetime :=
  if (s =? "2025 Sat Oct 4 8:09 PM")%string
  then inr (DT.mk 2025 10 4 20 9)
  else inl ("time data '" ++ s
            ++ "' does not match format '%Y %a %b %d %I:%M %p'")%string.

Definition host_cest : Host :=
  mkHost sample_strptime (fun _ => 7200000) (nodup string_dec).

Definition sample_entry (i : Z) : json :=
  JObj [("id", JInt i); ("minute", JInt 30); ("hour", JInt 7);
        ("day", JInt 1); ("month", JInt 8); ("year", JInt 2025);
        ("datetime", JInt 1756704600000); ("timeZoneOffset", JInt 7200000);
        ("mood", JInt 2); ("note", JStr "walk"); ("tags", JList [JInt 3])].

Definition sample_moods : list json :=
  [JObj [("id", JInt 1); ("custom_name", JStr "rad")];
   JObj [("id", JInt 2); ("custom_name", JStr ""); ("name", JStr "good")]].

Definition sample_tags : list json :=
  [JObj [("id", JInt 3); ("name", JStr "friend-a")]].

Definition sample_fields : obj :=
  [("version", JInt 15);
   ("customMoods", JList sample_moods);
   ("tags", JList sample_tags);
   ("dayEntries", JList [sample_entry 7; sample_entry 9]);
   ("prefs", JList [JStr "dark"])].

Definition sample_doc : json := JObj sample_fields.

Definition sample_header : list string :=
  ["Date"; "Mood"; "Notes"; "Tags (People)"; "Menstrual"].

Definition sample_rows : list (list string) :=
  [sample_header;
   ["2025 Sat Oct 4 8:09 PM"; "Thoughtful"; " quiet evening ";
    "Friend A; Friend B;  "; "x"];
   ["04/10/2025"; "Happy"; ""; ""; ""]].

Definition empty_journal : DaylioJournal.t :=
  DaylioJournal.mk JNull (JBool false) [] [] [].

(** A document with four moods: a custom name, a plain name, two empty
    names, and an empty custom name without a name field. *)
Definition mood_doc_sample : json :=
  JObj [("customMoods",
         JList [JObj [("id", JInt 1); ("custom_name", JStr "rad")];
                JObj [("id", JInt 2); ("custom_name", JStr "");
                      ("name", JStr "good")];
                JObj [("id", JInt 3); ("custom_name", JStr "");
                      ("name", JStr "")];
                JObj [("id", JInt 4); ("custom_name", JStr "")]])].

Definition mood_journal_sample : DaylioJournal.t :=
  Eval vm_compute in
    match DaylioJournal.__init__ mood_doc_sample with
    | Ok j => j
    | Raise _ => empty_journal
    end.

Definition sample_journal : DaylioJournal.t :=
  Eval vm_compute in
    match DaylioJournal.__init__ sample_doc with
    | Ok j => j
    | Raise _ => empty_journal
    end.

Definition sample_records : list json :=
  Eval vm_compute in
    match import_how_we_feel_csv host_cest sample_rows sample_journal with
    | Ok (hs, _, _) => hs
    | Raise _ => []
    end.

Definition sample_journal_after : DaylioJournal.t :=
  Eval vm_compute in
    match import_how_we_feel_csv host_cest sample_rows sample_journal with
    | Ok (_, j, _) => j
    | Raise _ => empty_journal
    end.

Definition sample_stdout : list string :=
  Eval vm_compute in
    match import_how_we_feel_csv host_cest sample_rows sample_journal with
    | Ok (_, _, out) => out
    | Raise _ => []
    end.

Definition sample_merged : json :=
  Eval vm_compute in
    match merge_journals host_cest sample_doc sample_rows with
    | Ok j => j
    | Raise _ => JNull
    end.

Definition sample_round_trip : json :=
  Eval vm_compute in
    match merge_journals host_cest sample_doc [sample_header] with
    | Ok j => j
    | Raise _ => JNull
    end.

(* ================================================================== *)
(** ** The rest of the two classes

    [Entry] is only ever built by the journal's constructor, with
    [journal=self], and a [DaylioJournal] object is truthy: the properties
    that resolve names always take the branch with a journal, which is the
    one modelled, with the journal passed along. *)

Definition newline : string := String (ascii_of_nat 10) EmptyString.

(** [Entry.has_note]: [bool(self.note or self.note_title)] *)
Definition has_note (self : Entry.t) : bool :=
  (nonempty (Entry.note self) || nonempty (Entry.note_title self))%bool.

(** [Entry.get_note_text] *)
Definition get_note_text (self : Entry.t) : string :=
  if (nonempty (Entry.note_title self) && nonempty (Entry.note self))%bool
  then ("[" ++ Entry.note_title self ++ "]" ++ newline ++ Entry.note self)%string
  else if nonempty (Entry.note_title self)
       then ("[" ++ Entry.note_title self ++ "]")%string
       else Entry.note self.

(** [Entry.mood_name]: [self.journal.get_mood_name(self.mood_id)] *)
Definition mood_name (journal : DaylioJournal.t) (self : Entry.t) : result json :=
  DaylioJournal.get_mood_name journal (Entry.mood_id self).

(** [Entry.tag_names]:
    [[self.journal.get_tag_name(tag_id) for tag_id in self.tags]] *)
Definition tag_names (journal : DaylioJournal.t) (self : Entry.t)
  : result (list json) :=
  tag_ids <- iter (Entry.tags self) ;;
  mapM (DaylioJournal.get_tag_name journal) tag_ids.

(** [x.lower()] on a value: only a [str] has the method. *)
Definition lower_of (x : json) : result string :=
  match x with
  | JStr s => Ok (lower s)
  | _ => Raise AttributeError
  end.

(** [[e for e in l if p(e)]] with a condition that may raise. *)
Fixpoint filterM {A : Type} (p : A -> result bool) (l : list A) : result (list A) :=
  match l with
  | [] => Ok []
  | a :: l' =>
      match p a with
      | Raise e => Raise e
      | Ok b =>
          match filterM p l' with
          | Raise e => Raise e
          | Ok r => Ok (if b then a :: r else r)
          end
      end
  end.

(** [DaylioJournal.get_entries_by_mood] *)
Definition get_entries_by_mood (self : DaylioJournal.t) (mood_name_arg : string)
  : result (list Entry.t) :=
  let mood_name_lower := lower mood_name_arg in
  filterM (fun e =>
             n <- mood_name self e ;;
             s <- lower_of n ;;
             Ok (s =? mood_name_lower)%string)
          (DaylioJournal.entries self).

(** [DaylioJournal.get_entries_by_tag] *)
Definition get_entries_by_tag (self : DaylioJournal.t) (tag_name : string)
  : result (list Entry.t) :=
  let tag_name_lower := lower tag_name in
  filterM (fun e =>
             names <- tag_names self e ;;
             lowered <- mapM lower_of names ;;
             Ok (existsb (String.eqb tag_name_lower) lowered))
          (DaylioJournal.entries self).

(** Adding a value to a [set]: it must be hashable. *)
Definition hashed (x : json) : result key :=
  match to_key x with
  | Some k => Ok k
  | None => Raise TypeError
  end.

(** [DaylioJournal.list_moods]:
    [list({self.get_mood_name(mid) for mid in self.moods.keys()})].
    [order] is the order in which the set built from the names, added one
    after the other, enumerates its distinct elements. *)
Definition list_moods (order : list key -> list key) (self : DaylioJournal.t)
  : result (list json) :=
  names <- mapM (fun mid =>
                   n <- DaylioJournal.get_mood_name self (of_key mid) ;;
                   hashed n)
                (dict_keys (DaylioJournal.moods self)) ;;
  Ok (map of_key (order names)).

(** [DaylioJournal.list_tags] *)
Definition list_tags (order : list key -> list key) (self : DaylioJournal.t)
  : result (list json) :=
  names <- mapM (fun tid =>
                   n <- DaylioJournal.get_tag_name self (of_key tid) ;;
                   hashed n)
                (dict_keys (DaylioJournal.tags self)) ;;
  Ok (map of_key (order names)).

(* ================================================================== *)
(** ** Vocabulary of the further statements *)


(** The line printed for a date that does not parse. *)
Definition skip_message (date_str e : string) : string :=
  ("Skipping entry due to invalid date format: " ++ date_str
   ++ ". Error: " ++ e)%string.

(** The fields of an imported record that no cell of the row decides. *)
Definition placeholder_fields (e : json) : Prop :=
  getitem e "mood" = Ok (JInt 1) /\
  getitem e "timeZoneOffset" = Ok (JInt 7200000) /\
  getitem e "note_title" = Ok (JStr "") /\
  getitem e "assets" = Ok (JList []) /\
  getitem e "isFavorite" = Ok (JBool false).

(** No record of the table is named [n]. *)
Definition unused_name (T0 : DaylioJournal.table) (n : string) : Prop :=
  forall k t, In (k, t) T0 -> getitem t "name" <> Ok (JStr n).

(** The closure's state after some rows: the table is the initial one
    followed by new tags named [names], and the reverse lookup knows the
    names of both. *)
Definition fresh_names (T0 : DaylioJournal.table) (first : Z) (tg : tagging)
  : Prop :=
  exists names,
    journal_tags tg = T0 ++ new_tags first names /\
    next_tag_id tg = first + Z.of_nat (List.length names) /\
    NoDup names /\
    Forall (fun n => daylio_name n = n) names /\
    Forall (unused_name T0) names /\
    (forall n, In n names ->
               dict_get key_eqb (KStr n) (tag_name_to_id tg) <> None) /\
    (forall k t n, In (k, t) T0 -> getitem t "name" = Ok (JStr n) ->
                   dict_get key_eqb (KStr n) (tag_name_to_id tg) <> None).

(** The character occurs in the string. *)
Fixpoint has_char (c : ascii) (s : string) : bool :=
  match s with
  | EmptyString => false
  | String a s' => (Ascii.eqb a c || has_char c s')%bool
  end.

(** The string starts with white space. *)
Definition starts_space (s : string) : bool :=
  match s with
  | EmptyString => false
  | String c _ => is_space c
  end.

(** A candidate tag name as the first loop of [get_tag_ids_from_row] leaves
    it: not empty, without white space around it, without a semicolon. *)
Definition clean_tag (t : string) : Prop :=
  t <> EmptyString /\ strip t = t /\ has_char ";" t = false.

(** The cell of the last pair named [k]. *)
Fixpoint last_cell (k : string) (kvs : list (string * string)) : option string :=
  match kvs with
  | [] => None
  | (k', v) :: rest =>
      match last_cell k rest with
      | Some x => Some x
      | None => if (k =? k')%string then Some v else None
      end
  end.

(** The columns the importer looks up by name for their cell. *)
Definition read_columns : list string := "Date" :: "Notes" :: TAG_COLUMNS.

(** Two row mappings agree where the importer looks: on the cells of Date,
    Notes and the nine tag columns, and on whether there is a Mood cell. *)
Definition same_cells (rd rd' : row_dict) : Prop :=
  (forall k, In k read_columns ->
             dict_get String.eqb k rd = dict_get String.eqb k rd') /\
  (dict_get String.eqb "Mood" rd = None <->
   dict_get String.eqb "Mood" rd' = None).

(** Two rows, each under its header, are the same for the importer. *)
Definition same_row (header header' row row' : list string) : Prop :=
  (row = [] <-> row' = []) /\
  same_cells (make_row_data header row) (make_row_data header' row').

(** [row'] under [header'] is [row] under [header] with the columns in
    another order, the names of the columns being distinct. *)
Definition reordered (header header' row row' : list string) : Prop :=
  (row = [] <-> row' = []) /\
  NoDup (map fst (combine (map strip header) row)) /\
  Permutation (combine (map strip header) row)
              (combine (map strip header') row').

(** The reference [x] leads to the tag named after the candidate [c]: it
    is a key of the table, and the record there carries that id and the
    normalised name of [c]. *)
Definition names_tag (tbl : DaylioJournal.table) (c : string) (x : json) : Prop :=
  exists k, to_key x = Some k /\ tag_record tbl k (daylio_name c).

(** The 'tags' list of the record [e] is, element for element, the tags of
    the candidate names of the row, in the order the set of candidates is
    enumerated. *)
Definition tags_of_row (host : Host) (tbl : DaylioJournal.table)
           (header row : list string) (e : json) : Prop :=
  exists ids,
    getitem e "tags" = Ok (JList ids) /\
    Forall2 (names_tag tbl)
            (set_order host (non_unique_tags (make_row_data header row))) ids.

(** What [get_tag_name] answers for a hashable id: the name field of the
    record under that id, the placeholder when the record has none or when
    there is no record. *)
Definition tag_name_of (tbl : DaylioJournal.table) (k : key) : json :=
  match dict_get key_eqb k tbl with
  | Some (JObj d) =>
      match obj_get "name" d with
      | Some n => n
      | None => JStr (DaylioJournal.unknown_tag k)
      end
  | _ => JStr (DaylioJournal.unknown_tag k)
  end.

(** The name of a tag reference, which has to be hashable. *)
Definition resolve_tag (tbl : DaylioJournal.table) (tag_id : json) : result json :=
  match to_key tag_id with
  | Some k => Ok (tag_name_of tbl k)
  | None => Raise TypeError
  end.

(** The id of a record as a dictionary key, when it has one. *)
Definition id_key (x : json) : option key :=
  match getitem x "id" with
  | Ok i => to_key i
  | Raise _ => None
  end.

(** The last record of the list whose id equals [k]. *)
Fixpoint last_with_id (k : key) (xs : list json) : option json :=
  match xs with
  | [] => None
  | x :: rest =>
      match last_with_id k rest with
      | Some y => Some y
      | None =>
          match id_key x with
          | Some k' => if key_eqb k k' then Some x else None
          | None => None
          end
      end
  end.

(** The record has the field. *)
Definition has_field (d : obj) (k : string) : bool :=
  match obj_get k d with
  | Some _ => true
  | None => false
  end.

(** The field is a string, or the record does not have it. *)
Definition text_or_absent (d : obj) (k : string) : bool :=
  match obj_get k d with
  | Some (JStr _) => true
  | Some _ => false
  | None => true
  end.

(** The raw records [Entry.__init__] accepts: the seven time and mood
    fields are there, and 'note' and 'note_title' are strings if there. *)
Definition entry_accepted (d : obj) : bool :=
  (has_field d "id" && has_field d "minute" && has_field d "hour"
   && has_field d "day" && has_field d "month" && has_field d "year"
   && has_field d "mood"
   && text_or_absent d "note" && text_or_absent d "note_title")%bool.

(** The text of a field, empty when the field is missing. *)
Definition text_field (d : obj) (k : string) : string :=
  match obj_get k d with
  | Some (JStr s) => s
  | _ => EmptyString
  end.

(** The exception is one of the two a name resolution can raise. *)
Definition lookup_error (e : exn) : Prop := e = AttributeError \/ e = TypeError.

(** The reference [x] leads to a record of the list [ts] that carries that
    id and a normalised name. *)
Definition listed_tag (ts : list json) (x : json) : Prop :=
  exists k d i ki n,
    to_key x = Some k /\ In (JObj d) ts /\
    obj_get "id" d = Some i /\ to_key i = Some ki /\ key_eqb ki k = true /\
    obj_get "name" d = Some (JStr n) /\ daylio_name n = n.

(** A document one of whose entries names a mood that is not there. *)
Definition stray_mood_doc : json :=
  JObj [("customMoods", JList [JObj [("id", JInt 1); ("custom_name", JStr "rad")]]);
        ("dayEntries", JList [sample_entry 5])].

Definition stray_mood_journal : DaylioJournal.t :=
  Eval vm_compute in
    match DaylioJournal.__init__ stray_mood_doc with
    | Ok j => j
    | Raise _ => empty_journal
    end.

(** The reverse lookup and the counter of the closure are the ones the
    start of an import computes from the table as it stands. *)
Definition tagging_canonical (tg : tagging) : Prop :=
  name_to_id_of (journal_tags tg) [] = Ok (tag_name_to_id tg) /\
  first_tag_id (dict_keys (journal_tags tg)) = Ok (next_tag_id tg).

(** Every name the reverse lookup [m] knows, [m'] knows with the same id. *)
Definition lookup_le (m m' : dict key key) : Prop :=
  forall n i, dict_get key_eqb (KStr n) m = Some i ->
              dict_get key_eqb (KStr n) m' = Some i.

(* ================================================================== *)
(** * Properties *)

(** ** Dictionaries *)

Section DictFacts.
Variables K V : Type.
Variable eqb : K -> K -> bool.
Hypothesis eqb_refl : forall k, eqb k k = true.
Hypothesis eqb_join :
  forall a b c, eqb a c = true -> eqb b c = true -> eqb a b = true.

Lemma dict_get_set_same (k : K) (v : V) (d : dict K V) :
  dict_get eqb k (dict_set eqb k v d) = Some v.
Proof.
  induction d as [|[k' v'] d IH]; simpl.
  - now rewrite eqb_refl.
  - destruct (eqb k k') eqn:E; simpl; rewrite E; auto.
Qed.

Lemma dict_get_set_other (k1 k2 : K) (v : V) (d : dict K V) :
  eqb k1 k2 = false ->
  dict_get eqb k1 (dict_set eqb k2 v d) = dict_get eqb k1 d.
Proof.
  intros Hne. induction d as [|[k' v'] d IH]; simpl.
  - now rewrite Hne.
  - destruct (eqb k2 k') eqn:E2; simpl.
    + destruct (eqb k1 k') eqn:E1; auto.
      rewrite (eqb_join E1 E2) in Hne. discriminate.
    + destruct (eqb k1 k'); auto.
Qed.

Lemma dict_set_absent (k : K) (v : V) (d : dict K V) :
  dict_get eqb k d = None -> dict_set eqb k v d = d ++ [(k, v)].
Proof.
  induction d as [|[k' v'] d IH]; simpl; auto.
  destruct (eqb k k'); [discriminate|].
  intros H. now rewrite IH.
Qed.

Lemma dict_set_same_value (k : K) (v : V) (d : dict K V) :
  dict_get eqb k d = Some v -> dict_set eqb k v d = d.
Proof.
  induction d as [|[k' v'] d IH]; simpl; [discriminate|].
  destruct (eqb k k').
  - now intros [= ->].
  - intros H. now rewrite IH.
Qed.

Lemma dict_get_app_l (k : K) (d d' : dict K V) (v : V) :
  dict_get eqb k d = Some v -> dict_get eqb k (d ++ d') = Some v.
Proof.
  induction d as [|[k' v'] d IH]; simpl; [discriminate|].
  destruct (eqb k k'); auto.
Qed.

Lemma dict_get_none_keys (k : K) (d : dict K V) :
  dict_get eqb k d = None <->
  Forall (fun k' => eqb k k' = false) (dict_keys d).
Proof.
  induction d as [|[k' v'] d IH]; simpl.
  - split; auto.
  - destruct (eqb k k') eqn:E; split; intros H.
    + discriminate.
    + inversion H; subst. simpl in *. congruence.
    + constructor; [exact E | now apply IH].
    + inversion H; subst. now apply IH.
Qed.
End DictFacts.

(** ** Strings as keys *)

Lemma string_eqb_join (a b c : string) :
  (a =? c)%string = true -> (b =? c)%string = true -> (a =? b)%string = true.
Proof.
  rewrite !String.eqb_eq. congruence.
Qed.

Lemma obj_get_set_same (k : string) (v : json) (d : obj) :
  obj_get k (obj_set k v d) = Some v.
Proof.
  apply dict_get_set_same. apply String.eqb_refl.
Qed.

Lemma obj_get_set_other (k1 k2 : string) (v : json) (d : obj) :
  k1 <> k2 -> obj_get k1 (obj_set k2 v d) = obj_get k1 d.
Proof.
  intros H. apply dict_get_set_other.
  - apply string_eqb_join.
  - now apply String.eqb_neq.
Qed.

(** Assigning to a key leaves the other items where they are. *)
Lemma filter_dict_set (p : string -> bool) (k : string) (v : json) (d : obj) :
  p k = false ->
  filter (fun kv => p (fst kv)) (obj_set k v d) = filter (fun kv => p (fst kv)) d.
Proof.
  intros Hp. unfold obj_set.
  induction d as [|[k' v'] d IH]; simpl.
  - now rewrite Hp.
  - destruct (String.eqb_spec k k') as [->|Hne]; simpl.
    + now rewrite Hp.
    + now rewrite IH.
Qed.

(** ** Hashable keys *)

Lemma key_eqb_canon (a b : key) : key_eqb a b = true <-> canon a = canon b.
Proof.
  destruct a as [|[]|x|s], b as [|[]|y|t]; cbn [key_eqb key_int canon];
    rewrite ?Z.eqb_eq, ?String.eqb_eq;
    split; intros H; try discriminate H; try reflexivity;
    try (injection H as H); subst; try reflexivity; try lia.
Qed.

Lemma key_eqb_refl (k : key) : key_eqb k k = true.
Proof. now apply key_eqb_canon. Qed.

Lemma key_eqb_join (a b c : key) :
  key_eqb a c = true -> key_eqb b c = true -> key_eqb a b = true.
Proof.
  rewrite !key_eqb_canon. congruence.
Qed.

Lemma key_eqb_sym (a b : key) : key_eqb a b = key_eqb b a.
Proof.
  destruct (key_eqb a b) eqn:E, (key_eqb b a) eqn:E'; auto.
  - apply key_eqb_canon in E. symmetry in E. apply key_eqb_canon in E. congruence.
  - apply key_eqb_canon in E'. symmetry in E'. apply key_eqb_canon in E'. congruence.
Qed.

Lemma key_eqb_int (a : key) (z : Z) :
  key_eqb a (KInt z) = true <-> key_int a = Some z.
Proof.
  destruct a as [|[]|x|s]; cbn [key_eqb key_int]; rewrite ?Z.eqb_eq;
    split; intros H; try discriminate H; try (injection H as H); subst;
    reflexivity.
Qed.

(** ** Tag-name normalisation *)

Lemma str_map_compose (f g : ascii -> ascii) (s : string) :
  str_map f (str_map g s) = str_map (fun c => f (g c)) s.
Proof.
  induction s as [|c s IH]; simpl; congruence.
Qed.

Lemma daylio_name_by_char (s : string) :
  daylio_name s = str_map normalize_char s.
Proof.
  unfold daylio_name, replace, lower. now rewrite !str_map_compose.
Qed.

Lemma normalize_char_idem (c : ascii) :
  normalize_char (normalize_char c) = normalize_char c.
Proof.
  destruct c as [[] [] [] [] [] [] [] []]; reflexivity.
Qed.

Lemma str_map_idem (f : ascii -> ascii) :
  (forall c, f (f c) = f c) ->
  forall s, str_map f (str_map f s) = str_map f s.
Proof.
  intros Hf s. induction s as [|c s IH]; simpl.
  - reflexivity.
  - now rewrite Hf, IH.
Qed.

(** A name the importer has normalised is a fixed point of the
    normalisation. *)
Lemma normalised_is_fixed (s : string) :
  daylio_name (str_map normalize_char s) = str_map normalize_char s.
Proof.
  rewrite daylio_name_by_char. apply str_map_idem, normalize_char_idem.
Qed.

(** C7.  The normalisation of a tag name (lower case, spaces to hyphens,
    slashes to hyphens) is idempotent: normalising a normalised name gives
    it back unchanged. *)
Theorem daylio_name_idempotent :
  forall s : string, daylio_name (daylio_name s) = daylio_name s.
Proof.
  intros s. rewrite !daylio_name_by_char.
  induction s as [|c s IH]; simpl.
  - reflexivity.
  - now rewrite normalize_char_idem, IH.
Qed.

(** ** The loop over the rows *)

Lemma import_rows_app (host : Host) (header : list string)
      (rs1 rs2 : list (list string)) (st : importing) :
  import_rows host header st (rs1 ++ rs2) =
  (st' <- import_rows host header st rs1 ;; import_rows host header st' rs2).
Proof.
  revert st. induction rs1 as [|r rs1 IH]; intros st; simpl.
  - reflexivity.
  - destruct (import_row host header st r) as [st'|e]; simpl; auto.
Qed.

(** C8.  A data row that is entirely empty (the reader yields no cell for
    it, as it does for a blank line) is skipped silently: with or without
    it, wherever it stands, the importer returns the same records with the
    same ids, leaves the same journal and prints the same lines. *)
Theorem empty_row_skipped :
  forall (host : Host) (header : list string) (rs1 rs2 : list (list string))
         (journal : DaylioJournal.t),
    import_how_we_feel_csv host (header :: rs1 ++ [] :: rs2) journal =
    import_how_we_feel_csv host (header :: rs1 ++ rs2) journal.
Proof.
  intros host header rs1 rs2 journal. unfold import_how_we_feel_csv.
  destruct (name_to_id_of (DaylioJournal.tags journal) []) as [m|e]; simpl; auto.
  destruct (first_tag_id (dict_keys (DaylioJournal.tags journal))) as [n|e];
    simpl; auto.
  rewrite !import_rows_app.
  destruct (import_rows host header _ rs1) as [st|e]; simpl; auto.
Qed.

(** ** Row mappings *)

Lemma dict_of_pairs_none (V : Type) (k : string) (kvs : list (string * V)) :
  ~ In k (map fst kvs) ->
  forall d, dict_get String.eqb k d = None ->
  dict_get String.eqb k
    (fold_left (fun d kv => dict_set String.eqb (fst kv) (snd kv) d) kvs d) = None.
Proof.
  induction kvs as [|[k' v] kvs IH]; simpl; intros Hin d Hd; auto.
  apply IH; [tauto|].
  rewrite dict_get_set_other; auto.
  - apply string_eqb_join.
  - apply String.eqb_neq. intros ->. tauto.
Qed.

Lemma map_fst_combine (A B : Type) (ks : list A) (vs : list B) :
  map fst (combine ks vs) = firstn (List.length vs) ks.
Proof.
  revert vs. induction ks as [|k ks IH]; intros [|v vs]; simpl; auto.
  now rewrite IH.
Qed.

Lemma row_without_date (header row : list string) :
  ~ In "Date" (firstn (List.length row) (map strip header)) ->
  dict_get String.eqb "Date" (make_row_data header row) = None.
Proof.
  intros H. unfold make_row_data, dict_of_pairs.
  apply dict_of_pairs_none; auto.
  now rewrite map_fst_combine.
Qed.

(** C10.  A non-empty data row that ends before the 'Date' column (no header
    cell among its first [length row] ones is named Date) makes the importer
    raise KeyError('Date'): the whole import aborts, wherever the row stands
    and whatever follows it, instead of the row being skipped. *)
Theorem short_row_aborts_import :
  forall (host : Host) (header : list string) (pre : list (list string))
         (row : list string) (rest : list (list string))
         (journal : DaylioJournal.t)
         (r : list json * DaylioJournal.t * list string),
    import_how_we_feel_csv host (header :: pre) journal = Ok r ->
    row <> [] ->
    ~ In "Date" (firstn (List.length row) (map strip header)) ->
    import_how_we_feel_csv host (header :: pre ++ row :: rest) journal =
    Raise (KeyError "Date").
Proof.
  intros host header pre row rest journal r Hpre Hrow Hdate.
  unfold import_how_we_feel_csv in *.
  destruct (name_to_id_of (DaylioJournal.tags journal) []) as [m|e];
    simpl in *; [|discriminate].
  destruct (first_tag_id (dict_keys (DaylioJournal.tags journal))) as [n|e];
    simpl in *; [|discriminate].
  rewrite import_rows_app.
  destruct (import_rows host header _ pre) as [st|e]; simpl in *; [|discriminate].
  destruct row as [|c row]; [congruence|].
  unfold import_row.
  now rewrite (row_without_date header (c :: row) Hdate).
Qed.

Lemma short_row_aborts_import_witness :
  import_how_we_feel_csv host_cest
    (["Mood"; "Notes"; "Date"] :: [["Calm"; "ok"]])
    (DaylioJournal.mk JNull (JBool false) [] [] []) =
  Raise (KeyError "Date").
Proof.
  apply (@short_row_aborts_import host_cest ["Mood"; "Notes"; "Date"] []
           ["Calm"; "ok"] [] (DaylioJournal.mk JNull (JBool false) [] [] [])
           ([], DaylioJournal.mk JNull (JBool false) [] [] [], [])).
  - reflexivity.
  - discriminate.
  - simpl. intros [H|[H|[]]]; discriminate H.
Defined.

(** ** Tag tables *)

Lemma zseq_length (s : Z) (n : nat) : List.length (zseq s n) = n.
Proof.
  revert s. induction n as [|n IH]; intros s; simpl; auto.
Qed.

Lemma zseq_snoc (s : Z) (n : nat) :
  zseq s (S n) = zseq s n ++ [s + Z.of_nat n].
Proof.
  revert s. induction n as [|n IH]; intros s.
  - simpl. now rewrite Z.add_0_r.
  - change (zseq s (S (S n))) with (s :: zseq (s + 1) (S n)).
    rewrite IH. simpl. do 3 f_equal. lia.
Qed.

Lemma zseq_bounds (s : Z) (n : nat) (z : Z) :
  In z (zseq s n) -> s <= z < s + Z.of_nat n.
Proof.
  revert s. induction n as [|n IH]; intros s; simpl; [tauto|].
  intros [<-|H]; [lia|]. apply IH in H. lia.
Qed.

Lemma zseq_NoDup (s : Z) (n : nat) : NoDup (zseq s n).
Proof.
  revert s. induction n as [|n IH]; intros s; simpl; constructor; auto.
  intros H. apply zseq_bounds in H. lia.
Qed.

Lemma combine_app_same (A B : Type) (a a' : list A) (b b' : list B) :
  List.length a = List.length b ->
  combine (a ++ a') (b ++ b') = combine a b ++ combine a' b'.
Proof.
  revert b. induction a as [|x a IH]; intros [|y b]; simpl;
    try discriminate; auto.
  intros [= H]. now rewrite IH.
Qed.

Lemma new_tags_snoc (first : Z) (names : list string) (name : string) :
  new_tags first (names ++ [name]) =
  new_tags first names ++ [new_tag (first + Z.of_nat (List.length names), name)].
Proof.
  unfold new_tags. rewrite length_app, Nat.add_comm. simpl plus.
  rewrite zseq_snoc, combine_app_same by apply zseq_length.
  now rewrite map_app.
Qed.

Lemma new_tags_keys (first : Z) (names : list string) :
  dict_keys (new_tags first names) = map KInt (zseq first (List.length names)).
Proof.
  unfold new_tags, dict_keys. rewrite map_map. simpl.
  rewrite <- (map_map fst KInt). f_equal.
  rewrite map_fst_combine, firstn_all2; auto.
  rewrite zseq_length. lia.
Qed.

Lemma int_keys_app (a b : list key) :
  int_keys (a ++ b) =
  match int_keys a, int_keys b with
  | Some x, Some y => Some (x ++ y)
  | _, _ => None
  end.
Proof.
  induction a as [|k a IH]; simpl.
  - now destruct (int_keys b).
  - rewrite IH. destruct (key_int k), (int_keys a), (int_keys b); auto.
Qed.

Lemma int_keys_KInt (zs : list Z) : int_keys (map KInt zs) = Some zs.
Proof.
  induction zs as [|z zs IH]; simpl; auto. now rewrite IH.
Qed.

Lemma int_keys_canon (ks : list key) (zs : list Z) :
  int_keys ks = Some zs -> map canon ks = map KInt zs.
Proof.
  revert zs. induction ks as [|k ks IH]; simpl; intros zs H.
  - now inversion H.
  - destruct (key_int k) as [z|] eqn:Ek; [|discriminate].
    destruct (int_keys ks) as [zs'|]; [|discriminate].
    inversion H; subst. simpl. rewrite (IH zs' eq_refl). f_equal.
    destruct k as [|[]| |]; simpl in *; congruence.
Qed.

(** A number above every key of the table is not a key of it. *)
Lemma int_key_absent (V : Type) (d : dict key V) (zs : list Z) (z : Z) :
  int_keys (dict_keys d) = Some zs ->
  Forall (fun x => x < z) zs ->
  dict_get key_eqb (KInt z) d = None.
Proof.
  revert zs. induction d as [|[k v] d IH];
    cbn [dict_get dict_keys map fst int_keys]; intros zs H Hlt; auto.
  destruct (key_int k) as [x|] eqn:Ek; [|discriminate].
  fold (dict_keys d) in H.
  destruct (int_keys (dict_keys d)) as [zs'|] eqn:Ed; [|discriminate].
  inversion H; subst. inversion Hlt; subst.
  destruct (key_eqb (KInt z) k) eqn:E.
  - rewrite key_eqb_sym in E. apply key_eqb_int in E. rewrite Ek in E.
    inversion E. lia.
  - now apply (IH zs').
Qed.

Lemma fold_max_ge (z : Z) (zs : list Z) :
  z <= fold_right Z.max z zs /\
  Forall (fun x => x <= fold_right Z.max z zs) zs.
Proof.
  induction zs as [|y zs [IH1 IH2]]; simpl.
  - split; [lia|constructor].
  - split; [lia|]. constructor; [lia|].
    eapply Forall_impl; [|exact IH2]. simpl. intros; lia.
Qed.

Lemma max_default_ge (d : Z) (zs : list Z) :
  Forall (fun z => z <= max_default d zs) zs.
Proof.
  destruct zs as [|z zs]; [constructor|].
  simpl. destruct (fold_max_ge z zs). now constructor.
Qed.

(** ** Sequencing *)

Lemma bind_ok (A B : Type) (c : result A) (k : A -> result B) (b : B) :
  bind c k = Ok b -> exists a, c = Ok a /\ k a = Ok b.
Proof.
  destruct c as [a|e]; simpl; [eauto|discriminate].
Qed.

Ltac bind_inv H :=
  let a := fresh "a" in
  let Ha := fresh "Ha" in
  apply bind_ok in H; destruct H as (a & Ha & H).

(** ** The tables the constructor builds *)

Lemma dict_get_none_canon (V : Type) (k : key) (d : dict key V) :
  dict_get key_eqb k d = None <-> ~ In (canon k) (map canon (dict_keys d)).
Proof.
  rewrite dict_get_none_keys. unfold dict_keys.
  induction d as [|[k' v] d IH]; simpl.
  - split; [tauto|constructor].
  - split.
    + intros H. inversion H as [|? ? Hk Hd]; subst. intros [E|E].
      * symmetry in E. apply key_eqb_canon in E. congruence.
      * now apply IH in Hd.
    + intros H. constructor.
      * destruct (key_eqb k k') eqn:E; auto.
        apply key_eqb_canon in E. exfalso. apply H. now left.
      * apply IH. tauto.
Qed.

Lemma dict_set_present_keys (V : Type) (k : key) (v v0 : V) (d : dict key V) :
  dict_get key_eqb k d = Some v0 ->
  dict_keys (dict_set key_eqb k v d) = dict_keys d.
Proof.
  unfold dict_keys.
  induction d as [|[k' v'] d IH]; cbn [dict_get dict_set map fst]; [discriminate|].
  destruct (key_eqb k k'); cbn [map fst]; auto.
  intros H. now rewrite IH.
Qed.

Lemma distinct_keys_set (V : Type) (k : key) (v : V) (d : dict key V) :
  distinct_keys d -> distinct_keys (dict_set key_eqb k v d).
Proof.
  unfold distinct_keys. intros H.
  destruct (dict_get key_eqb k d) as [v0|] eqn:E.
  - now erewrite dict_set_present_keys by eassumption.
  - erewrite dict_set_absent by eassumption. unfold dict_keys.
    rewrite !map_app. simpl.
    apply dict_get_none_canon in E.
    apply NoDup_app.
    + exact H.
    + constructor; [simpl; tauto|constructor].
    + intros a Ha [<-|[]]. now apply E.
Qed.

Lemma key_eqb_trans (a b c : key) :
  key_eqb a b = true -> key_eqb b c = true -> key_eqb a c = true.
Proof.
  rewrite !key_eqb_canon. congruence.
Qed.

Lemma keyed_set (k : key) (v : json) (d : DaylioJournal.table) :
  Forall keyed d -> keyed (k, v) -> Forall keyed (dict_set key_eqb k v d).
Proof.
  intros Hd (x & kx & Hx & Hk & He).
  induction d as [|[k' v'] d IH]; cbn [dict_set].
  - constructor; [|constructor]. exists x, kx. auto.
  - inversion Hd; subst. destruct (key_eqb k k') eqn:E.
    + constructor; auto. exists x, kx. simpl in *.
      repeat split; auto. eapply key_eqb_trans; eauto.
    + constructor; auto.
Qed.

Lemma by_id_ok (xs : list json) (d d' : DaylioJournal.table) :
  DaylioJournal.by_id xs d = Ok d' ->
  distinct_keys d -> Forall keyed d ->
  distinct_keys d' /\ Forall keyed d'.
Proof.
  revert d. induction xs as [|x xs IH]; simpl; intros d H Hd Hk.
  - inversion H; subst. auto.
  - bind_inv H. destruct (to_key a) as [k|] eqn:Ek; [|discriminate].
    apply IH in H; auto.
    + now apply distinct_keys_set.
    + apply keyed_set; auto. exists a, k. simpl.
      repeat split; auto. apply key_eqb_refl.
Qed.

Lemma init_tables (data : json) (journal : DaylioJournal.t) :
  DaylioJournal.__init__ data = Ok journal ->
  exists ms ts es,
    (l <- get data "customMoods" (JList []) ;; iter l) = Ok ms /\
    DaylioJournal.by_id ms [] = Ok (DaylioJournal.moods journal) /\
    (l <- get data "tags" (JList []) ;; iter l) = Ok ts /\
    DaylioJournal.by_id ts [] = Ok (DaylioJournal.tags journal) /\
    (l <- get data "dayEntries" (JList []) ;; iter l) = Ok es /\
    mapM Entry.__init__ es = Ok (DaylioJournal.entries journal).
Proof.
  unfold DaylioJournal.__init__. intros H.
  bind_inv H. bind_inv H. bind_inv H. bind_inv H. bind_inv H.
  bind_inv H. bind_inv H. bind_inv H. bind_inv H. bind_inv H. bind_inv H.
  inversion H; subst; clear H. simpl.
  exists a2, a5, a8.
  rewrite Ha1, Ha4, Ha7. simpl. auto 10.
Qed.

Lemma init_tags_ok (data : json) (journal : DaylioJournal.t) :
  DaylioJournal.__init__ data = Ok journal ->
  distinct_keys (DaylioJournal.tags journal) /\
  Forall keyed (DaylioJournal.tags journal).
Proof.
  intros H. apply init_tables in H.
  destruct H as (ms & ts & es & _ & _ & _ & Ht & _).
  apply by_id_ok in Ht; auto; constructor.
Qed.

(** ** What the importer does to the tag table *)

Lemma grown_int_keys (T0 : DaylioJournal.table) (zs0 : list Z) (first : Z)
      (names : list string) :
  int_keys (dict_keys T0) = Some zs0 ->
  int_keys (dict_keys (T0 ++ new_tags first names)) =
  Some (zs0 ++ zseq first (List.length names)).
Proof.
  intros H. unfold dict_keys in *. rewrite map_app, int_keys_app, H.
  fold (dict_keys (new_tags first names)).
  now rewrite new_tags_keys, int_keys_KInt.
Qed.

Lemma assign_tag_grown (T0 : DaylioJournal.table) (zs0 : list Z) (first : Z)
      (tg : tagging) (ids : list json) (name : string) :
  int_keys (dict_keys T0) = Some zs0 ->
  Forall (fun z => z < first) zs0 ->
  grown T0 first tg ->
  grown T0 first (fst (assign_tag (tg, ids) name)).
Proof.
  intros H0 Hlt (names & Ht & Hn). unfold assign_tag.
  destruct (dict_get key_eqb (KStr (daylio_name name)) (tag_name_to_id tg)).
  - exists names. auto.
  - exists (names ++ [daylio_name name]). cbn [fst journal_tags next_tag_id].
    rewrite new_tags_snoc, length_app, Ht, Hn, app_assoc. simpl List.length.
    split; [|lia].
    apply dict_set_absent.
    eapply int_key_absent.
    + apply grown_int_keys; eassumption.
    + apply Forall_app. split.
      * eapply Forall_impl; [|exact Hlt]. simpl. intros; lia.
      * apply Forall_forall. intros z Hz. apply zseq_bounds in Hz. lia.
Qed.

Section ImportFacts.
Variable host : Host.

(** A property of the closure's state that every turn of the tag loop
    keeps is kept by the whole import. *)
Variable P : tagging -> Prop.
Hypothesis P_assign :
  forall tg ids name, P tg -> P (fst (assign_tag (tg, ids) name)).

Lemma fold_assign_keeps (names : list string) (acc : tagging * list json) :
  P (fst acc) -> P (fst (fold_left assign_tag names acc)).
Proof.
  revert acc. induction names as [|n names IH]; intros [tg ids] H; simpl; auto.
  apply IH. now apply P_assign.
Qed.

Lemma import_row_keeps (header row : list string) (st st' : importing) :
  P (tagging_of st) ->
  import_row host header st row = Ok st' ->
  P (tagging_of st').
Proof.
  intros HP. unfold import_row.
  destruct row as [|c row]; [now intros [= <-]|].
  destruct (dict_get String.eqb "Date" _) as [date_str|]; [|discriminate].
  destruct (strptime host date_str) as [e|dt]; [now intros [= <-]|].
  destruct (DT.sub_ms dt DEFAULT_TIMEZONE_OFFSET_MS) as [u|e];
    cbn [bind]; [|discriminate].
  destruct (get_tag_ids_from_row host _ (tagging_of st)) as [tg ids] eqn:Eg.
  destruct (dict_get String.eqb "Mood" _); [|discriminate].
  intros [= <-]. cbn [tagging_of].
  change tg with (fst (tg, ids)). rewrite <- Eg.
  unfold get_tag_ids_from_row. now apply fold_assign_keeps.
Qed.

Lemma import_rows_keeps (header : list string) (rows : list (list string))
      (st st' : importing) :
  P (tagging_of st) ->
  import_rows host header st rows = Ok st' ->
  P (tagging_of st').
Proof.
  revert st. induction rows as [|row rows IH]; simpl; intros st HP H.
  - now inversion H; subst.
  - bind_inv H. eapply IH; [|exact H].
    eapply import_row_keeps; eassumption.
Qed.
End ImportFacts.

(** The pieces of a successful import. *)
Lemma import_ok (host : Host) (csv_rows : list (list string))
      (journal journal' : DaylioJournal.t) (hs : list json) (out : list string) :
  import_how_we_feel_csv host csv_rows journal = Ok (hs, journal', out) ->
  exists header rows m first st,
    csv_rows = header :: rows /\
    name_to_id_of (DaylioJournal.tags journal) [] = Ok m /\
    first_tag_id (dict_keys (DaylioJournal.tags journal)) = Ok first /\
    import_rows host header
      (mkImporting (mkTagging (DaylioJournal.tags journal) m first) [] [])
      rows = Ok st /\
    hs = daylio_entries st /\
    DaylioJournal.tags journal' = journal_tags (tagging_of st) /\
    DaylioJournal.moods journal' = DaylioJournal.moods journal /\
    DaylioJournal.entries journal' = DaylioJournal.entries journal /\
    out = stdout st.
Proof.
  unfold import_how_we_feel_csv. destruct csv_rows as [|header rows]; [discriminate|].
  intros H. bind_inv H. bind_inv H. bind_inv H. inversion H; subst; clear H.
  exists header, rows, a, a0, a1. simpl. auto 10.
Qed.

Lemma first_tag_id_ok (ks : list key) (first : Z) :
  first_tag_id ks = Ok first ->
  exists zs, int_keys ks = Some zs /\ first = max_default 0 zs + 1 /\
             Forall (fun z => z < first) zs.
Proof.
  unfold first_tag_id. destruct (int_keys ks) as [zs|]; [|discriminate].
  intros [= <-]. exists zs. repeat split.
  eapply Forall_impl; [|apply (max_default_ge 0 zs)]. simpl. intros; lia.
Qed.

(** C6.  After an import into a journal built from a document, the tag table
    is the table as it was followed by the new tags, whose ids are
    max(existing ids, default 0) + 1, + 2, ... in the order of allocation,
    one per new tag and without gaps; and the ids of the whole table are
    pairwise distinct. *)
Theorem tag_ids_distinct_and_consecutive :
  forall (host : Host) (data : json) (csv_rows : list (list string))
         (journal journal' : DaylioJournal.t) (hs : list json)
         (out : list string),
    DaylioJournal.__init__ data = Ok journal ->
    import_how_we_feel_csv host csv_rows journal = Ok (hs, journal', out) ->
    exists (zs : list Z) (names : list string),
      int_keys (dict_keys (DaylioJournal.tags journal)) = Some zs /\
      DaylioJournal.tags journal' =
        DaylioJournal.tags journal ++ new_tags (max_default 0 zs + 1) names /\
      int_keys (dict_keys (DaylioJournal.tags journal')) =
        Some (zs ++ zseq (max_default 0 zs + 1) (List.length names)) /\
      NoDup (zs ++ zseq (max_default 0 zs + 1) (List.length names)).
Proof.
  intros host data csv_rows journal journal' hs out Hinit Himp.
  apply import_ok in Himp.
  destruct Himp as (header & rows & m & first & st & -> & Hm & Hf & Hrows
                    & _ & Htags & _).
  apply first_tag_id_ok in Hf. destruct Hf as (zs & Hzs & -> & Hlt).
  assert (Hg : grown (DaylioJournal.tags journal) (max_default 0 zs + 1)
                 (tagging_of st)).
  { eapply import_rows_keeps with (P := grown _ _); [| |exact Hrows].
    - intros tg ids name. eapply assign_tag_grown; eassumption.
    - exists []. simpl. unfold new_tags. simpl. rewrite app_nil_r.
      split; [reflexivity|lia]. }
  destruct Hg as (names & Ht & _).
  exists zs, names. rewrite Htags, Ht.
  split; [exact Hzs|]. split; [reflexivity|].
  split; [now apply grown_int_keys|].
  apply NoDup_app.
  - apply init_tags_ok in Hinit. destruct Hinit as [Hd _].
    unfold distinct_keys in Hd. rewrite (int_keys_canon _ Hzs) in Hd.
    now apply NoDup_map_inv in Hd.
  - apply zseq_NoDup.
  - intros z Hz Hz'. apply zseq_bounds in Hz'.
    rewrite Forall_forall in Hlt. apply Hlt in Hz. lia.
Qed.

(** ** Tag references of the imported records *)

Lemma extends_refl (T : DaylioJournal.table) : extends T T.
Proof. now intros k v H. Qed.

Lemma extends_trans (T1 T2 T3 : DaylioJournal.table) :
  extends T1 T2 -> extends T2 T3 -> extends T1 T3.
Proof. intros H1 H2 k v H. auto. Qed.

Lemma tag_record_extends (T T' : DaylioJournal.table) (k : key) (n : string) :
  extends T T' -> tag_record T k n -> tag_record T' k n.
Proof.
  intros He (d & i & ki & H & Hr). exists d, i, ki. split; auto.
Qed.

Lemma resolves_extends (T T' : DaylioJournal.table) (x : json) :
  extends T T' -> resolves T x -> resolves T' x.
Proof.
  intros He (k & n & Hk & Hr & Hn). exists k, n.
  repeat split; auto. eapply tag_record_extends; eauto.
Qed.

Lemma entry_tags_extends (T T' : DaylioJournal.table) (e : json) :
  extends T T' -> entry_tags_resolve T e -> entry_tags_resolve T' e.
Proof.
  intros He H ids Hids. eapply Forall_impl; [|apply H, Hids].
  intros x. now apply resolves_extends.
Qed.

Lemma key_eqb_str (n : string) (k : key) :
  key_eqb (KStr n) k = true -> k = KStr n.
Proof.
  destruct k; simpl; try discriminate. now intros ->%String.eqb_eq.
Qed.

Lemma assign_tag_ok (tg : tagging) (ids : list json) (name : string) :
  tagging_ok tg ->
  Forall (resolves (journal_tags tg)) ids ->
  tagging_ok (fst (assign_tag (tg, ids) name)) /\
  Forall (resolves (journal_tags (fst (assign_tag (tg, ids) name))))
         (snd (assign_tag (tg, ids) name)) /\
  extends (journal_tags tg) (journal_tags (fst (assign_tag (tg, ids) name))).
Proof.
  intros [(zs & Hzs & Hlt) Hnamed] Hids. unfold assign_tag.
  destruct (dict_get key_eqb (KStr (daylio_name name)) (tag_name_to_id tg))
    as [i|] eqn:E; cbn [fst snd].
  - split; [split; eauto|]. split; [|apply extends_refl].
    apply Forall_app. split; auto. constructor; [|constructor].
    exists i, (daylio_name name). repeat split.
    + now destruct i.
    + now apply Hnamed.
    + rewrite (daylio_name_by_char name). apply normalised_is_fixed.
  - set (i := next_tag_id tg).
    set (rec := JObj [("id", JInt i); ("name", JStr (daylio_name name))]).
    assert (Habs : dict_get key_eqb (KInt i) (journal_tags tg) = None)
      by (eapply int_key_absent; eassumption).
    assert (Hext : extends (journal_tags tg)
                     (dict_set key_eqb (KInt i) rec (journal_tags tg))).
    { intros k v Hk. erewrite dict_set_absent by exact Habs.
      now apply dict_get_app_l. }
    assert (Hnew : tag_record (dict_set key_eqb (KInt i) rec (journal_tags tg))
                     (KInt i) (daylio_name name)).
    { exists [("id", JInt i); ("name", JStr (daylio_name name))], (JInt i), (KInt i).
      repeat split.
      - apply dict_get_set_same, key_eqb_refl.
      - apply key_eqb_refl. }
    unfold tagging_ok. cbn [journal_tags tag_name_to_id next_tag_id].
    split; [split|split]; auto.
    + exists (zs ++ [i]). split.
      * erewrite dict_set_absent by exact Habs. unfold dict_keys in *.
        rewrite map_app, int_keys_app, Hzs. reflexivity.
      * apply Forall_app. split.
        -- eapply Forall_impl; [|exact Hlt]. simpl. intros; lia.
        -- constructor; [lia|constructor].
    + intros n j Hj.
      destruct (key_eqb (KStr n) (KStr (daylio_name name))) eqn:En.
      * apply key_eqb_str in En. inversion En; subst.
        rewrite dict_get_set_same in Hj by apply key_eqb_refl.
        inversion Hj; subst. exact Hnew.
      * rewrite dict_get_set_other in Hj;
          [|exact (@key_eqb_join)|exact En].
        eapply tag_record_extends; eauto.
    + apply Forall_app. split.
      * eapply Forall_impl; [|exact Hids]. intros x.
        now apply resolves_extends.
      * constructor; [|constructor].
        exists (KInt i), (daylio_name name). repeat split; auto.
        rewrite (daylio_name_by_char name). apply normalised_is_fixed.
Qed.

Lemma fold_assign_ok (names : list string) (tg : tagging) (ids : list json) :
  tagging_ok tg ->
  Forall (resolves (journal_tags tg)) ids ->
  tagging_ok (fst (fold_left assign_tag names (tg, ids))) /\
  Forall (resolves (journal_tags (fst (fold_left assign_tag names (tg, ids)))))
         (snd (fold_left assign_tag names (tg, ids))) /\
  extends (journal_tags tg)
          (journal_tags (fst (fold_left assign_tag names (tg, ids)))).
Proof.
  revert tg ids. induction names as [|n names IH]; intros tg ids Hok Hids.
  - simpl. auto using extends_refl.
  - cbn [fold_left].
    destruct (assign_tag_ok n Hok Hids) as (Hok' & Hids' & Hext).
    destruct (assign_tag (tg, ids) n) as [tg' ids'] eqn:Ea. cbn [fst snd] in *.
    destruct (IH tg' ids' Hok' Hids') as (H1 & H2 & H3).
    split; [exact H1|]. split; [exact H2|].
    eapply extends_trans; eauto.
Qed.

Lemma getitem_ok (o : json) (k : string) (v : json) :
  getitem o k = Ok v -> exists d, o = JObj d /\ obj_get k d = Some v.
Proof.
  destruct o; simpl; try discriminate.
  destruct (obj_get k d) eqn:E; [|discriminate].
  intros [= <-]. eauto.
Qed.

Lemma to_key_str (a : json) (n : string) : to_key a = Some (KStr n) -> a = JStr n.
Proof.
  destruct a; simpl; intros H; inversion H; reflexivity.
Qed.

Lemma dict_get_in_distinct (V : Type) (d : dict key V) (k : key) (v : V) :
  distinct_keys d -> In (k, v) d -> dict_get key_eqb k d = Some v.
Proof.
  unfold distinct_keys, dict_keys.
  induction d as [|[k' v'] d IH]; cbn [map fst dict_get In]; [tauto|].
  intros Hnd [E|Hin].
  - inversion E; subst. now rewrite key_eqb_refl.
  - inversion Hnd as [|? ? Hk' Hd]; subst.
    destruct (key_eqb k k') eqn:E; [|auto].
    apply key_eqb_canon in E. exfalso. apply Hk'. rewrite <- E.
    apply in_map_iff. exists k. split; auto.
    apply in_map_iff. now exists (k, v).
Qed.

Lemma name_to_id_named (TBL : DaylioJournal.table) :
  distinct_keys TBL -> Forall keyed TBL ->
  forall (items : list (key * json)) (d m : dict key key),
    incl items TBL ->
    (forall n i, dict_get key_eqb (KStr n) d = Some i -> tag_record TBL i n) ->
    name_to_id_of items d = Ok m ->
    forall n i, dict_get key_eqb (KStr n) m = Some i -> tag_record TBL i n.
Proof.
  intros Hnd Hkeyed. induction items as [|[tag_id tag] items IH];
    intros d m Hincl Hd H.
  - simpl in H. now inversion H; subst.
  - cbn [name_to_id_of] in H. bind_inv H.
    destruct (to_key a) as [k|] eqn:Ek; [|discriminate].
    eapply IH; [| |exact H].
    + intros x Hx. apply Hincl. now right.
    + intros n i Hn.
      destruct (key_eqb (KStr n) k) eqn:En.
      * apply key_eqb_str in En. subst k.
        rewrite dict_get_set_same in Hn by apply key_eqb_refl.
        inversion Hn; subst i.
        assert (Hin : In (tag_id, tag) TBL) by (apply Hincl; now left).
        apply getitem_ok in Ha. destruct Ha as (dd & -> & Hname).
        apply to_key_str in Ek. subst a.
        rewrite Forall_forall in Hkeyed.
        destruct (Hkeyed _ Hin) as (x & kx & Hx & Hkx & He).
        cbn [fst snd] in *. apply getitem_ok in Hx.
        destruct Hx as (dd' & Edd & Hid). inversion Edd; subst dd'.
        exists dd, x, kx. repeat split; auto.
        now apply dict_get_in_distinct.
      * rewrite dict_get_set_other in Hn;
          [|exact (@key_eqb_join)|exact En].
        now apply Hd.
Qed.

Lemma import_row_ok (host : Host) (header row : list string)
      (st st' : importing) :
  importing_ok st ->
  import_row host header st row = Ok st' ->
  importing_ok st'.
Proof.
  intros [Htg Hes]. unfold import_row.
  destruct row as [|c row]; [intros [= <-]; now split|].
  destruct (dict_get String.eqb "Date" _) as [date_str|]; [|discriminate].
  destruct (strptime host date_str) as [e|dt]; [intros [= <-]; now split|].
  destruct (DT.sub_ms dt DEFAULT_TIMEZONE_OFFSET_MS) as [u|e];
    cbn [bind]; [|discriminate].
  unfold get_tag_ids_from_row.
  pose proof (@fold_assign_ok
                (set_order host (non_unique_tags (make_row_data header (c :: row))))
                (tagging_of st) [] Htg (Forall_nil _)) as (H1 & H2 & H3).
  destruct (fold_left assign_tag _ (tagging_of st, [])) as [tg ids].
  cbn [fst snd] in *.
  destruct (dict_get String.eqb "Mood" _); [|discriminate].
  intros [= <-]. split; cbn [tagging_of daylio_entries]; auto.
  apply Forall_app. split.
  - eapply Forall_impl; [|exact Hes]. intros x.
    now apply entry_tags_extends.
  - constructor; [|constructor].
    intros ids' Hids'. cbv in Hids'. now inversion Hids'; subst.
Qed.

Lemma import_rows_ok (host : Host) (header : list string)
      (rows : list (list string)) (st st' : importing) :
  importing_ok st ->
  import_rows host header st rows = Ok st' ->
  importing_ok st'.
Proof.
  revert st. induction rows as [|row rows IH]; simpl; intros st Hok H.
  - now inversion H; subst.
  - bind_inv H. eapply IH; [|exact H].
    eapply import_row_ok; eassumption.
Qed.

(** C9.  After the importer returns, every tag id in the 'tags' list of
    every returned record is a key of the journal's tag table, and the
    record stored there carries that id and a normalised name: imported
    records have no dangling tag reference. *)
Theorem imported_tags_resolve :
  forall (host : Host) (data : json) (csv_rows : list (list string))
         (journal journal' : DaylioJournal.t) (hs : list json)
         (out : list string) (e : json) (ids : list json) (x : json),
    DaylioJournal.__init__ data = Ok journal ->
    import_how_we_feel_csv host csv_rows journal = Ok (hs, journal', out) ->
    In e hs ->
    getitem e "tags" = Ok (JList ids) ->
    In x ids ->
    resolves (DaylioJournal.tags journal') x.
Proof.
  intros host data csv_rows journal journal' hs out e ids x Hinit Himp He Hids Hx.
  apply import_ok in Himp.
  destruct Himp as (header & rows & m & first & st & -> & Hm & Hf & Hrows
                    & -> & -> & _).
  apply init_tags_ok in Hinit. destruct Hinit as [Hnd Hkeyed].
  apply first_tag_id_ok in Hf. destruct Hf as (zs & Hzs & _ & Hlt).
  assert (Hok : importing_ok st).
  { eapply import_rows_ok; [|exact Hrows]. split; [|constructor].
    split; cbn [tagging_of journal_tags tag_name_to_id next_tag_id].
    - eauto.
    - eapply name_to_id_named; eauto.
      + apply incl_refl.
      + intros n i Hn. discriminate Hn. }
  destruct Hok as [_ Hes].
  rewrite Forall_forall in Hes. specialize (Hes e He ids Hids).
  rewrite Forall_forall in Hes. now apply Hes.
Qed.

(** ** Renumbering *)

Lemma renumber_spec (start : Z) (l l' : list json) :
  renumber start l = Ok l' ->
  Forall2 renumbered l l' /\ ids_of l' = id_run (start + 1) (List.length l).
Proof.
  revert start l'. induction l as [|e l IH]; intros start l' H; simpl in H.
  - inversion H; subst. split; [constructor|reflexivity].
  - bind_inv H. bind_inv H. inversion H; subst; clear H.
    destruct e; simpl in Ha; try discriminate. inversion Ha; subst; clear Ha.
    destruct (IH _ _ Ha0) as [H1 H2]. split.
    + constructor; auto. now exists d, (start + 1).
    + unfold ids_of, id_run in *. cbn [map List.length zseq getitem].
      rewrite obj_get_set_same, H2. reflexivity.
Qed.

Lemma renumber_in_place (start : Z) (l : list json) :
  ids_of l = id_run (start + 1) (List.length l) ->
  renumber start l = Ok l.
Proof.
  revert start. induction l as [|e l IH]; intros start H; simpl; auto.
  unfold ids_of, id_run in H. cbn [map List.length zseq] in H.
  inversion H as [[He Hl]].
  apply getitem_ok in He. destruct He as (d & -> & Hid).
  cbn [setitem bind]. unfold obj_set.
  erewrite dict_set_same_value by exact Hid.
  rewrite IH by exact Hl. reflexivity.
Qed.

Lemma Forall2_length_eq (A B : Type) (R : A -> B -> Prop) (l : list A) (l' : list B) :
  Forall2 R l l' -> List.length l' = List.length l.
Proof.
  induction 1; simpl; congruence.
Qed.

(** ** The constructor keeps the raw records *)

Lemma entry_init_data (data : json) (e : Entry.t) :
  Entry.__init__ data = Ok e -> Entry._data e = data.
Proof.
  unfold Entry.__init__. intros H.
  do 12 (bind_inv H). now inversion H; subst.
Qed.

Lemma mapM_init_data (es : list json) (ents : list Entry.t) :
  mapM Entry.__init__ es = Ok ents -> map Entry._data ents = es.
Proof.
  revert ents. induction es as [|x es IH]; simpl; intros ents H.
  - now inversion H; subst.
  - destruct (Entry.__init__ x) as [e|] eqn:Ee; [|discriminate].
    destruct (mapM Entry.__init__ es) as [ents'|]; [|discriminate].
    inversion H; subst. simpl.
    now rewrite (entry_init_data _ Ee), (IH _ eq_refl).
Qed.

(** ** Counting the imported rows *)

Lemma import_row_count (host : Host) (header row : list string)
      (st st' : importing) :
  import_row host header st row = Ok st' ->
  List.length (daylio_entries st') =
  (List.length (daylio_entries st)
   + if row_imported host header row then 1 else 0)%nat.
Proof.
  unfold import_row, row_imported.
  destruct row as [|c row]; [intros [= <-]; lia|].
  destruct (dict_get String.eqb "Date" _) as [date_str|]; [|discriminate].
  destruct (strptime host date_str) as [e|dt]; [intros [= <-]; simpl; lia|].
  destruct (DT.sub_ms dt DEFAULT_TIMEZONE_OFFSET_MS) as [u|e];
    cbn [bind]; [|discriminate].
  destruct (get_tag_ids_from_row host _ (tagging_of st)) as [tg ids].
  destruct (dict_get String.eqb "Mood" _); [|discriminate].
  intros [= <-]. cbn [daylio_entries]. now rewrite length_app.
Qed.

Lemma import_rows_count (host : Host) (header : list string)
      (rows : list (list string)) (st st' : importing) :
  import_rows host header st rows = Ok st' ->
  List.length (daylio_entries st') =
  (List.length (daylio_entries st)
   + List.length (filter (row_imported host header) rows))%nat.
Proof.
  revert st. induction rows as [|row rows IH]; simpl; intros st H.
  - inversion H; subst. lia.
  - bind_inv H. apply IH in H. apply import_row_count in Ha.
    rewrite H, Ha. destruct (row_imported host header row); simpl; lia.
Qed.

(** ** merge_journals *)

(** The pieces of a successful merge. *)
Lemma merge_ok (host : Host) (data : json) (csv_rows : list (list string))
      (out : json) :
  merge_journals host data csv_rows = Ok out ->
  exists journal hs journal' diag all d,
    DaylioJournal.__init__ data = Ok journal /\
    import_how_we_feel_csv host csv_rows journal = Ok (hs, journal', diag) /\
    renumber 0 (map Entry._data (DaylioJournal.entries journal) ++ hs) = Ok all /\
    data = JObj d /\
    out = JObj (obj_set "customMoods"
                  (JList (dict_values (DaylioJournal.moods journal)))
                  (obj_set "tags"
                     (JList (dict_values (DaylioJournal.tags journal')))
                     (obj_set "dayEntries" (JList all) d))).
Proof.
  unfold merge_journals. intros H.
  bind_inv H. bind_inv H. destruct a0 as [[hs journal'] diag].
  bind_inv H. bind_inv H. inversion H; subst; clear H.
  destruct data; simpl in Ha2; try discriminate. inversion Ha2; subst.
  pose proof Ha0 as Hi. apply import_ok in Hi.
  destruct Hi as (header & rows & m & first & st & _ & _ & _ & _ & _ & _
                  & Hmoods & Hents & _).
  rewrite Hents, Hmoods in *.
  exists a, hs, journal', diag. do 2 eexists.
  repeat split; try eassumption; reflexivity.
Qed.

(** C3.  After a merge the entry list of the output is the primary records
    (the document's 'dayEntries', in their order) followed by the imported
    records (in the order of their rows), each with only its 'id'
    overwritten; the ids are 1, 2, ..., N, where N is the number of primary
    entries plus the number of secondary rows that were imported. *)
Theorem merged_entries_renumbered :
  forall (host : Host) (data : json) (csv_rows : list (list string))
         (out : json),
    merge_journals host data csv_rows = Ok out ->
    exists (journal journal' : DaylioJournal.t) (diag : list string)
           (header : list string) (rows : list (list string))
           (es hs all : list json),
      DaylioJournal.__init__ data = Ok journal /\
      csv_rows = header :: rows /\
      import_how_we_feel_csv host csv_rows journal = Ok (hs, journal', diag) /\
      (l <- get data "dayEntries" (JList []) ;; iter l) = Ok es /\
      List.length hs = List.length (filter (row_imported host header) rows) /\
      getitem out "dayEntries" = Ok (JList all) /\
      List.length all = (List.length es + List.length hs)%nat /\
      ids_of all = id_run 1 (List.length all) /\
      Forall2 renumbered (es ++ hs) all.
Proof.
  intros host data csv_rows out H.
  apply merge_ok in H.
  destruct H as (journal & hs & journal' & diag & all & d & Hinit & Himp
                 & Hren & -> & ->).
  pose proof Himp as Hi. apply import_ok in Hi.
  destruct Hi as (header & rows & m & first & st & -> & _ & _ & Hrows
                  & -> & _).
  pose proof Hinit as Ht. apply init_tables in Ht.
  destruct Ht as (ms & ts & es & _ & _ & _ & _ & Hes & Hents).
  apply mapM_init_data in Hents. rewrite Hents in Hren.
  apply renumber_spec in Hren. destruct Hren as [HF Hids].
  pose proof (Forall2_length_eq HF) as Hlen. rewrite length_app in Hlen.
  exists journal, journal', diag, header, rows, es, (daylio_entries st), all.
  repeat split; auto.
  - apply import_rows_count in Hrows. simpl in Hrows. exact Hrows.
  - cbn [getitem].
    rewrite !obj_get_set_other, obj_get_set_same by discriminate. reflexivity.
  - rewrite Hids, Hlen, length_app. reflexivity.
Qed.

(** ** The frame of the merge *)

(** C5.  Every top-level field of the output other than 'dayEntries', 'tags'
    and 'customMoods' is the field of the primary document, unchanged, known
    to the program or not, and the output has no other field besides; those
    three fields are the ones that are written. *)
Theorem other_fields_pass_through :
  forall (host : Host) (data : json) (csv_rows : list (list string))
         (out : json),
    merge_journals host data csv_rows = Ok out ->
    exists (d d' : obj) (all ts ms : list json),
      data = JObj d /\ out = JObj d' /\
      other_fields d' = other_fields d /\
      (forall k, written_field k = false -> obj_get k d' = obj_get k d) /\
      obj_get "dayEntries" d' = Some (JList all) /\
      obj_get "tags" d' = Some (JList ts) /\
      obj_get "customMoods" d' = Some (JList ms).
Proof.
  intros host data csv_rows out H.
  apply merge_ok in H.
  destruct H as (journal & hs & journal' & diag & all & d & _ & _ & _ & -> & ->).
  do 5 eexists. split; [reflexivity|]. split; [reflexivity|].
  split; [|split; [|split; [|split]]].
  - unfold other_fields.
    rewrite !(filter_dict_set (fun k => negb (written_field k))); reflexivity.
  - intros k Hk. unfold written_field in Hk.
    apply orb_false_elim in Hk. destruct Hk as [Hk H3].
    apply orb_false_elim in Hk. destruct Hk as [H1 H2].
    apply String.eqb_neq in H1, H2, H3.
    now rewrite !obj_get_set_other by assumption.
  - rewrite !obj_get_set_other, obj_get_set_same by discriminate. reflexivity.
  - rewrite obj_get_set_other, obj_get_set_same by discriminate. reflexivity.
  - apply obj_get_set_same.
Qed.

(** ** A primary document alone *)

Lemma id_keys_length (xs : list json) (ks : list key) :
  id_keys xs = Some ks -> List.length ks = List.length xs.
Proof.
  revert ks. induction xs as [|x xs IH]; simpl; intros ks H.
  - now inversion H.
  - destruct (getitem x "id") as [i|]; [|discriminate].
    destruct (to_key i); [|discriminate].
    destruct (id_keys xs) as [ks'|]; [|discriminate].
    inversion H; subst. simpl. now rewrite (IH _ eq_refl).
Qed.

Lemma by_id_unique (xs : list json) (ks : list key) (d : DaylioJournal.table) :
  id_keys xs = Some ks ->
  NoDup (map canon (dict_keys d ++ ks)) ->
  DaylioJournal.by_id xs d = Ok (d ++ combine ks xs).
Proof.
  revert ks d. induction xs as [|x xs IH]; intros ks d Hk Hnd;
    cbn [id_keys DaylioJournal.by_id] in *.
  - inversion Hk; subst. simpl. now rewrite app_nil_r.
  - destruct (getitem x "id") as [i|]; [|discriminate].
    destruct (to_key i) as [k|] eqn:Ek; [|discriminate].
    destruct (id_keys xs) as [ks'|] eqn:Eks; [|discriminate].
    inversion Hk; subst. cbn [bind combine]. rewrite Ek.
    assert (Habs : dict_get key_eqb k d = None).
    { apply dict_get_none_canon. intros Hin.
      rewrite map_app in Hnd. apply NoDup_remove_2 in Hnd.
      apply Hnd. apply in_or_app. now left. }
    erewrite dict_set_absent by exact Habs.
    rewrite (IH ks' (d ++ [(k, x)]) eq_refl).
    + now rewrite <- app_assoc.
    + unfold dict_keys in *. rewrite (map_app fst), <- app_assoc. exact Hnd.
Qed.

Lemma by_id_values (xs : list json) (tbl : DaylioJournal.table) :
  unique_ids xs ->
  DaylioJournal.by_id xs [] = Ok tbl ->
  dict_values tbl = xs.
Proof.
  intros (ks & Hk & Hnd) H.
  erewrite by_id_unique in H; [|exact Hk|exact Hnd].
  inversion H; subst. simpl. unfold dict_values.
  apply id_keys_length in Hk. clear - Hk.
  revert xs Hk. induction ks as [|k ks IH]; intros [|x xs]; simpl;
    try discriminate; auto.
  intros [= Hk]. now rewrite IH.
Qed.

(** C4.  Merging a primary document with a CSV that has a header row only:
    when the document's tags have pairwise distinct ids and so have its
    moods, the output is the primary document with only its entry list
    replaced by the same records renumbered 1..N; the tag list and the mood
    list are the document's own, and so is every other field.  When the
    ids were 1..N already, the output is the primary document itself. *)
Theorem header_only_round_trip :
  forall (host : Host) (d : obj) (header : list string)
         (es ts ms : list json) (out : json),
    obj_get "dayEntries" d = Some (JList es) ->
    obj_get "tags" d = Some (JList ts) ->
    obj_get "customMoods" d = Some (JList ms) ->
    unique_ids ts ->
    unique_ids ms ->
    merge_journals host (JObj d) [header] = Ok out ->
    exists es' : list json,
      Forall2 renumbered es es' /\
      ids_of es' = id_run 1 (List.length es) /\
      out = JObj (obj_set "dayEntries" (JList es') d) /\
      (ids_of es = id_run 1 (List.length es) -> out = JObj d).
Proof.
  intros host d header es ts ms out Hes Hts Hms Uts Ums H.
  apply merge_ok in H.
  destruct H as (journal & hs & journal' & diag & all & d0 & Hinit & Himp
                 & Hren & Hd & ->).
  inversion Hd; subst d0; clear Hd.
  apply import_ok in Himp.
  destruct Himp as (header' & rows & m & first & st & Hrows & _ & _ & Hst
                    & -> & Htags & _).
  inversion Hrows; subst header' rows; clear Hrows.
  simpl in Hst. inversion Hst; subst st; clear Hst.
  cbn [tagging_of journal_tags daylio_entries] in *.
  rewrite app_nil_r in Hren.
  apply init_tables in Hinit.
  destruct Hinit as (ms' & ts' & es0 & Hm1 & Hm2 & Ht1 & Ht2 & He1 & He2).
  cbn [get bind] in Hm1, Ht1, He1. rewrite Hms in Hm1. rewrite Hts in Ht1.
  rewrite Hes in He1. simpl in Hm1, Ht1, He1.
  inversion Hm1; subst ms'. inversion Ht1; subst ts'. inversion He1; subst es0.
  apply mapM_init_data in He2. rewrite He2 in Hren.
  rewrite Htags, (by_id_values Uts Ht2), (by_id_values Ums Hm2).
  assert (Hout : obj_set "customMoods" (JList ms)
                   (obj_set "tags" (JList ts)
                      (obj_set "dayEntries" (JList all) d)) =
                 obj_set "dayEntries" (JList all) d).
  { unfold obj_set at 1. rewrite dict_set_same_value.
    - unfold obj_set at 1. apply dict_set_same_value.
      fold (obj_get "tags" (obj_set "dayEntries" (JList all) d)).
      now rewrite obj_get_set_other by discriminate.
    - fold (obj_set "tags" (JList ts) (obj_set "dayEntries" (JList all) d)).
      fold (obj_get "customMoods"
              (obj_set "tags" (JList ts) (obj_set "dayEntries" (JList all) d))).
      now rewrite !obj_get_set_other by discriminate. }
  rewrite Hout.
  pose proof (renumber_spec _ _ Hren) as [HF Hids].
  exists all. repeat split; auto.
  intros Hin. apply (renumber_in_place 0) in Hin.
  rewrite Hin in Hren. inversion Hren; subst all.
  unfold obj_set. now rewrite dict_set_same_value.
Qed.

(** ** Name resolution *)

Lemma dict_get_in (V : Type) (k : key) (v : V) (d : dict key V) :
  dict_get key_eqb k d = Some v -> exists k', In (k', v) d.
Proof.
  induction d as [|[k' v'] d IH]; cbn [dict_get]; [discriminate|].
  destruct (key_eqb k k').
  - intros [= ->]. exists k'. now left.
  - intros H. destruct (IH H) as [k0 Hk0]. exists k0. now right.
Qed.

(** The moods of a journal are objects: the constructor read their ids. *)
Lemma init_mood_is_object (data : json) (self : DaylioJournal.t) (k : key) (m : json) :
  DaylioJournal.__init__ data = Ok self ->
  dict_get key_eqb k (DaylioJournal.moods self) = Some m ->
  exists d, m = JObj d.
Proof.
  intros Hinit Hm. apply init_tables in Hinit.
  destruct Hinit as (ms & ts & es & _ & Hmoods & _).
  apply by_id_ok in Hmoods; [|constructor|constructor].
  destruct Hmoods as [_ Hkeyed].
  apply dict_get_in in Hm. destruct Hm as [k' Hin].
  rewrite Forall_forall in Hkeyed.
  destruct (Hkeyed _ Hin) as (x & kx & Hx & _).
  apply getitem_ok in Hx. destruct Hx as (d & Hd & _). now exists d.
Qed.

(** C1, as amended.  For a mood id that is in the mood table of a journal,
    get_mood_name does not raise and returns the custom name if it is
    non-empty, else the name field when the record has one (be it empty),
    else the placeholder "Unknown Mood ID (<id>)". *)
Theorem get_mood_name_of_known_id :
  forall (data : json) (self : DaylioJournal.t) (mood_id : json) (k : key)
         (m : json),
    DaylioJournal.__init__ data = Ok self ->
    to_key mood_id = Some k ->
    dict_get key_eqb k (DaylioJournal.moods self) = Some m ->
    exists d : obj,
      m = JObj d /\
      DaylioJournal.get_mood_name self mood_id = Ok (mood_name_of d k).
Proof.
  intros data self mood_id k m Hinit Hk Hm.
  destruct (@init_mood_is_object data self k m Hinit Hm) as [d ->].
  exists d. split; [reflexivity|].
  unfold DaylioJournal.get_mood_name, mood_name_of.
  rewrite Hk, Hm. cbn [truthy get].
  destruct d as [|kv d']; [reflexivity|].
  cbn [bind]. destruct (obj_get "custom_name" (kv :: d')) as [c|]; cbn [truthy].
  - destruct (truthy c); reflexivity.
  - reflexivity.
Qed.

Lemma get_mood_name_of_known_id_witness :
  exists d,
    JObj [("id", JInt 4); ("custom_name", JStr "")] = JObj d /\
    DaylioJournal.get_mood_name mood_journal_sample (JInt 4) =
      Ok (mood_name_of d (KInt 4)).
Proof.
  exact (@get_mood_name_of_known_id mood_doc_sample mood_journal_sample
           (JInt 4) (KInt 4) (JObj [("id", JInt 4); ("custom_name", JStr "")])
           eq_refl eq_refl eq_refl).
Defined.

(** The specification's placeholder for a record whose two names are empty
    is not what the code returns: it returns the empty name. *)
Lemma get_mood_name_empty_name :
  DaylioJournal.__init__ mood_doc_sample = Ok mood_journal_sample /\
  DaylioJournal.get_mood_name mood_journal_sample (JInt 3) = Ok (JStr "") /\
  resolveMoodName_spec (DaylioJournal.moods mood_journal_sample) (KInt 3) =
    JStr "Unknown Mood ID (3)" /\
  DaylioJournal.get_mood_name mood_journal_sample (JInt 3) <>
    Ok (resolveMoodName_spec (DaylioJournal.moods mood_journal_sample) (KInt 3)).
Proof.
  repeat split. intros H. vm_compute in H. discriminate H.
Qed.

(** An id that is not in the table: [None.get] raises, where the sibling
    [get_tag_name] answers its placeholder. *)
Lemma get_mood_name_absent_raises (self : DaylioJournal.t) (mood_id : json) (k : key) :
  to_key mood_id = Some k ->
  dict_get key_eqb k (DaylioJournal.moods self) = None ->
  DaylioJournal.get_mood_name self mood_id = Raise AttributeError.
Proof.
  intros Hk Hd. unfold DaylioJournal.get_mood_name. now rewrite Hk, Hd.
Qed.

Lemma get_tag_name_absent (self : DaylioJournal.t) (tag_id : json) (k : key) :
  to_key tag_id = Some k ->
  dict_get key_eqb k (DaylioJournal.tags self) = None ->
  DaylioJournal.get_tag_name self tag_id = Ok (JStr (DaylioJournal.unknown_tag k)).
Proof.
  intros Hk Hd. unfold DaylioJournal.get_tag_name. now rewrite Hk, Hd.
Qed.

(** ** Timestamps *)

(** The 'datetime' of a record: the wall-clock reading minus the assumed
    offset, and then minus the offset of the host's own zone. *)
Lemma import_row_datetime (host : Host) (header row : list string)
      (st st' : importing) (date_str : string) (dt : DT.datetime) :
  row <> [] ->
  dict_get String.eqb "Date" (make_row_data header row) = Some date_str ->
  strptime host date_str = inr dt ->
  import_row host header st row = Ok st' ->
  exists e,
    daylio_entries st' = daylio_entries st ++ [e] /\
    getitem e "datetime" =
      Ok (JInt (DT.wall_ms dt - DEFAULT_TIMEZONE_OFFSET_MS
                - local_utcoffset_ms host
                    (DT.wall_ms dt - DEFAULT_TIMEZONE_OFFSET_MS))) /\
    getitem e "timeZoneOffset" = Ok (JInt DEFAULT_TIMEZONE_OFFSET_MS).
Proof.
  intros Hrow Hdate Hparse. unfold import_row.
  destruct row as [|c row]; [congruence|].
  rewrite Hdate, Hparse. unfold DT.sub_ms.
  destruct (_ <? DT.min_ms); cbn [bind]; [discriminate|].
  destruct (get_tag_ids_from_row host _ (tagging_of st)) as [tg ids].
  destruct (dict_get String.eqb "Mood" _); [|discriminate].
  intros [= <-]. eexists. split; [reflexivity|]. split; reflexivity.
Qed.

(** On a host whose local zone is UTC the 'datetime' is the wall-clock time
    minus the assumed offset, read as UTC. *)
Lemma import_row_datetime_utc_host (host : Host) (header row : list string)
      (st st' : importing) (date_str : string) (dt : DT.datetime) :
  (forall w, local_utcoffset_ms host w = 0) ->
  row <> [] ->
  dict_get String.eqb "Date" (make_row_data header row) = Some date_str ->
  strptime host date_str = inr dt ->
  import_row host header st row = Ok st' ->
  exists e,
    daylio_entries st' = daylio_entries st ++ [e] /\
    getitem e "datetime" =
      Ok (JInt (DT.wall_ms dt - DEFAULT_TIMEZONE_OFFSET_MS)).
Proof.
  intros Hutc Hrow Hdate Hparse H.
  destruct (import_row_datetime _ _ _ Hrow Hdate Hparse H) as (e & He & Hd & _).
  exists e. split; [exact He|]. now rewrite Hd, Hutc, Z.sub_0_r.
Qed.

(** C2.  On a host whose local zone is UTC+2, the zone the source assumes,
    the row dated "2025 Sat Oct 4 8:09 PM" gets 'datetime' 1759594140000,
    which is 16:09 UTC: the naive value is read in the host's zone, so two
    more hours are taken off.  The wall-clock time minus two hours read as
    UTC is 1759601340000.  'timeZoneOffset' is 7200000. *)
Theorem datetime_on_cest_host :
  exists e journal' out,
    DaylioJournal.__init__ (JObj []) = Ok empty_journal /\
    import_how_we_feel_csv host_cest
      [["Date"; "Mood"]; ["2025 Sat Oct 4 8:09 PM"; "Calm"]] empty_journal =
      Ok ([e], journal', out) /\
    getitem e "datetime" = Ok (JInt 1759594140000) /\
    DT.wall_ms (DT.mk 2025 10 4 20 9) - DEFAULT_TIMEZONE_OFFSET_MS =
      1759601340000 /\
    getitem e "timeZoneOffset" = Ok (JInt 7200000).
Proof.
  do 3 eexists. split; [reflexivity|].
  split; [vm_compute; reflexivity|].
  repeat split.
Qed.

(** ** The statements at the sample inputs *)

Lemma merged_entries_renumbered_witness :
  exists all,
    getitem sample_merged "dayEntries" = Ok (JList all) /\
    ids_of all = id_run 1 (List.length all).
Proof.
  destruct (@merged_entries_renumbered host_cest sample_doc sample_rows
              sample_merged ltac:(vm_compute; reflexivity))
    as (journal & journal' & diag & header & rows & es & hs & all & _ & _ & _
        & _ & _ & Hget & _ & Hids & _).
  exists all. split; assumption.
Defined.

Lemma other_fields_pass_through_witness :
  exists d d',
    sample_doc = JObj d /\ sample_merged = JObj d' /\
    other_fields d' = other_fields d.
Proof.
  destruct (@other_fields_pass_through host_cest sample_doc sample_rows
              sample_merged ltac:(vm_compute; reflexivity))
    as (d & d' & all & ts & ms & Hd & Hd' & Hother & _).
  exists d, d'. repeat split; assumption.
Defined.

Lemma sample_tags_unique : unique_ids sample_tags.
Proof.
  exists [KInt 3]. split; [reflexivity|].
  simpl. constructor; [simpl; tauto|constructor].
Qed.

Lemma sample_moods_unique : unique_ids sample_moods.
Proof.
  exists [KInt 1; KInt 2]. split; [reflexivity|].
  simpl. constructor; [simpl; intros [H|[]]; discriminate H|].
  constructor; [simpl; tauto|constructor].
Qed.

Lemma header_only_round_trip_witness :
  exists es',
    Forall2 renumbered [sample_entry 7; sample_entry 9] es' /\
    ids_of es' = id_run 1 2 /\
    sample_round_trip = JObj (obj_set "dayEntries" (JList es') sample_fields).
Proof.
  destruct (@header_only_round_trip host_cest sample_fields sample_header
              [sample_entry 7; sample_entry 9] sample_tags sample_moods
              sample_round_trip
              eq_refl eq_refl eq_refl sample_tags_unique sample_moods_unique
              ltac:(vm_compute; reflexivity))
    as (es' & HF & Hids & Hout & _).
  exists es'. repeat split; assumption.
Defined.

Lemma tag_ids_distinct_and_consecutive_witness :
  exists zs names,
    int_keys (dict_keys (DaylioJournal.tags sample_journal)) = Some zs /\
    DaylioJournal.tags sample_journal_after =
      DaylioJournal.tags sample_journal ++ new_tags (max_default 0 zs + 1) names /\
    NoDup (zs ++ zseq (max_default 0 zs + 1) (List.length names)).
Proof.
  destruct (@tag_ids_distinct_and_consecutive host_cest sample_doc sample_rows
              sample_journal sample_journal_after sample_records sample_stdout
              ltac:(vm_compute; reflexivity) ltac:(vm_compute; reflexivity))
    as (zs & names & H1 & H2 & _ & H4).
  exists zs, names. repeat split; assumption.
Defined.

Lemma imported_tags_resolve_witness :
  resolves (DaylioJournal.tags sample_journal_after) (JInt 4).
Proof.
  apply (@imported_tags_resolve host_cest sample_doc sample_rows
           sample_journal sample_journal_after sample_records sample_stdout
           (hd JNull sample_records) [JInt 3; JInt 4; JInt 5] (JInt 4)).
  - vm_compute; reflexivity.
  - vm_compute; reflexivity.
  - left. reflexivity.
  - vm_compute; reflexivity.
  - right. left. reflexivity.
Defined.

(* ================================================================== *)
(** * Further properties of the importer *)

(** ** When an import returns *)




(** ** Rows whose date does not parse *)

(** What the rows print does not depend on what was printed before, and
    what was printed before changes nothing else. *)
Lemma import_rows_stdout (host : Host) (header : list string)
      (rows : list (list string)) (tg : tagging) (es : list json)
      (o : list string) (st' : importing) :
  import_rows host header (mkImporting tg es o) rows = Ok st' ->
  exists o2,
    stdout st' = o ++ o2 /\
    forall o',
      import_rows host header (mkImporting tg es o') rows =
      Ok (mkImporting (tagging_of st') (daylio_entries st') (o' ++ o2)).
Proof.
  revert tg es o. induction rows as [|row rows IH]; intros tg es o H.
  - cbn in H. inversion H; subst. exists []. cbn. split.
    + now rewrite app_nil_r.
    + intros o'. now rewrite app_nil_r.
  - cbn [import_rows] in *. unfold import_row in *.
    destruct row as [|c row].
    { cbn [bind] in *. exact (IH tg es o H). }
    cbn [tagging_of daylio_entries stdout] in *.
    destruct (dict_get String.eqb "Date" _) as [date_str|]; [|discriminate].
    destruct (strptime host date_str) as [e|dt].
    { cbn [bind] in *. destruct (IH _ _ _ H) as (o2 & H1 & H2).
      exists (skip_message date_str e :: o2). split.
      - rewrite H1, <- app_assoc. reflexivity.
      - intros o'. rewrite H2, <- app_assoc. reflexivity. }
    destruct (DT.sub_ms dt DEFAULT_TIMEZONE_OFFSET_MS) as [u|err];
      cbn [bind] in *; [|discriminate].
    destruct (get_tag_ids_from_row host _ tg) as [tg1 ids].
    destruct (dict_get String.eqb "Mood" _); [|discriminate].
    cbn [bind] in *. exact (IH _ _ _ H).
Qed.

(** X2.  A non-empty row whose Date cell does not parse is only reported:
    the import returns the same records and leaves the same journal as
    without the row (so the row allocates no tag, whatever its tag cells),
    and prints the same lines plus the one for this row, at its place. *)
Theorem unparseable_row_only_reported :
  forall (host : Host) (header : list string) (rs1 : list (list string))
         (row : list string) (rs2 : list (list string))
         (journal journal' : DaylioJournal.t) (date_str e : string)
         (hs : list json) (out : list string),
    row <> [] ->
    dict_get String.eqb "Date" (make_row_data header row) = Some date_str ->
    strptime host date_str = inl e ->
    import_how_we_feel_csv host (header :: rs1 ++ row :: rs2) journal =
      Ok (hs, journal', out) ->
    exists out1 out2,
      out = out1 ++ skip_message date_str e :: out2 /\
      import_how_we_feel_csv host (header :: rs1 ++ rs2) journal =
        Ok (hs, journal', out1 ++ out2).
Proof.
  intros host header rs1 row rs2 journal journal' date_str e hs out
         Hrow Hdate Hparse H.
  unfold import_how_we_feel_csv in *.
  destruct (name_to_id_of (DaylioJournal.tags journal) []) as [m|err];
    cbn [bind] in *; [|discriminate].
  destruct (first_tag_id (dict_keys (DaylioJournal.tags journal))) as [n|err];
    cbn [bind] in *; [|discriminate].
  rewrite import_rows_app in *.
  destruct (import_rows host header _ rs1) as [[tg es o]|err];
    cbn [bind] in *; [|discriminate].
  cbn [import_rows] in H. unfold import_row in H.
  destruct row as [|c row]; [congruence|].
  rewrite Hdate, Hparse in H. cbn [bind tagging_of daylio_entries stdout] in H.
  bind_inv H. inversion H; subst; clear H.
  destruct (import_rows_stdout _ _ _ _ _ _ Ha) as (o2 & H1 & H2).
  exists o, o2. split.
  - rewrite H1, <- app_assoc. reflexivity.
  - rewrite (H2 o). reflexivity.
Qed.

(** ** The records of one import *)

Lemma id_run_snoc (start : Z) (n : nat) :
  id_run start (S n) = id_run start n ++ [Ok (JInt (start + Z.of_nat n))].
Proof.
  unfold id_run. now rewrite zseq_snoc, map_app.
Qed.

Lemma import_row_entries (host : Host) (header row : list string)
      (st st' : importing) :
  import_row host header st row = Ok st' ->
  daylio_entries st' = daylio_entries st \/
  exists e,
    daylio_entries st' = daylio_entries st ++ [e] /\
    getitem e "id" = Ok (JInt (1 + Z.of_nat (List.length (daylio_entries st)))) /\
    placeholder_fields e.
Proof.
  unfold import_row.
  destruct row as [|c row]; [intros [= <-]; now left|].
  destruct (dict_get String.eqb "Date" _) as [date_str|]; [|discriminate].
  destruct (strptime host date_str) as [e|dt]; [intros [= <-]; now left|].
  destruct (DT.sub_ms dt DEFAULT_TIMEZONE_OFFSET_MS) as [u|e];
    cbn [bind]; [|discriminate].
  destruct (get_tag_ids_from_row host _ (tagging_of st)) as [tg ids].
  destruct (dict_get String.eqb "Mood" _); [|discriminate].
  intros [= <-]. right. eexists. split; [reflexivity|]. split.
  - rewrite (Z.add_comm 1). reflexivity.
  - repeat split.
Qed.

Lemma import_rows_entries (host : Host) (header : list string)
      (rows : list (list string)) (st st' : importing) :
  import_rows host header st rows = Ok st' ->
  ids_of (daylio_entries st) = id_run 1 (List.length (daylio_entries st)) ->
  Forall placeholder_fields (daylio_entries st) ->
  ids_of (daylio_entries st') = id_run 1 (List.length (daylio_entries st')) /\
  Forall placeholder_fields (daylio_entries st').
Proof.
  revert st. induction rows as [|row rows IH]; cbn [import_rows]; intros st H Hids Hp.
  - inversion H; subst. auto.
  - bind_inv H. apply IH in H; auto.
    + destruct (import_row_entries _ _ _ _ Ha) as [->|(e & -> & He & _)]; auto.
      unfold ids_of in *. rewrite map_app, Hids, length_app, Nat.add_comm.
      cbn [List.length plus map]. rewrite id_run_snoc, He. reflexivity.
    + destruct (import_row_entries _ _ _ _ Ha) as [->|(e & -> & _ & He)]; auto.
      apply Forall_app. split; auto.
Qed.

(** X3.  The records an import returns are numbered 1, 2, ... in the order
    of their rows, rows that yield no record not counting; and each of
    them has mood 1, whatever its Mood cell says, timeZoneOffset 7200000,
    an empty note_title, no assets and isFavorite false. *)
Theorem imported_records_numbered :
  forall (host : Host) (csv_rows : list (list string))
         (journal journal' : DaylioJournal.t) (hs : list json)
         (out : list string),
    import_how_we_feel_csv host csv_rows journal = Ok (hs, journal', out) ->
    ids_of hs = id_run 1 (List.length hs) /\
    Forall placeholder_fields hs.
Proof.
  intros host csv_rows journal journal' hs out H.
  apply import_ok in H.
  destruct H as (header & rows & m & first & st & _ & _ & _ & Hrows & -> & _).
  eapply import_rows_entries in Hrows.
  - exact Hrows.
  - reflexivity.
  - constructor.
Qed.

Lemma imported_records_numbered_witness :
  ids_of sample_records = id_run 1 (List.length sample_records) /\
  Forall placeholder_fields sample_records.
Proof.
  exact (@imported_records_numbered host_cest sample_rows sample_journal
           sample_journal_after sample_records sample_stdout
           ltac:(vm_compute; reflexivity)).
Defined.

Lemma unparseable_row_only_reported_witness :
  exists out1 out2,
    sample_stdout = out1 ++ skip_message "04/10/2025"
      "time data '04/10/2025' does not match format '%Y %a %b %d %I:%M %p'"
      :: out2 /\
    import_how_we_feel_csv host_cest
      (sample_header :: [nth 1 sample_rows []] ++ []) sample_journal =
      Ok (sample_records, sample_journal_after, out1 ++ out2).
Proof.
  apply (@unparseable_row_only_reported host_cest sample_header
           [nth 1 sample_rows []] ["04/10/2025"; "Happy"; ""; ""; ""] []
           sample_journal sample_journal_after "04/10/2025"
           "time data '04/10/2025' does not match format '%Y %a %b %d %I:%M %p'"
           sample_records sample_stdout).
  - discriminate.
  - reflexivity.
  - reflexivity.
  - vm_compute; reflexivity.
Defined.

(** ** The names of the new tags *)

Lemma dict_get_set_keeps (K V : Type) (eqb : K -> K -> bool) (k k' : K) (v : V)
      (d : dict K V) :
  dict_get eqb k d <> None -> dict_get eqb k (dict_set eqb k' v d) <> None.
Proof.
  induction d as [|[k0 v0] d IH]; cbn [dict_get dict_set]; [congruence|].
  destruct (eqb k' k0); cbn [dict_get]; destruct (eqb k k0); auto; discriminate.
Qed.

Lemma name_to_id_of_knows (items : list (key * json)) (d m : dict key key) :
  name_to_id_of items d = Ok m ->
  (forall k, dict_get key_eqb k d <> None -> dict_get key_eqb k m <> None) /\
  (forall k t n, In (k, t) items -> getitem t "name" = Ok (JStr n) ->
                 dict_get key_eqb (KStr n) m <> None).
Proof.
  revert d. induction items as [|[tag_id tag] items IH]; intros d H.
  - cbn in H. inversion H; subst. split; [auto|intros k t n []].
  - cbn [name_to_id_of] in H. bind_inv H.
    destruct (to_key a) as [kn|] eqn:Ek; [|discriminate].
    destruct (IH _ H) as [H1 H2]. split.
    + intros k Hk. apply H1. now apply dict_get_set_keeps.
    + intros k t n [E|Hin] Hn.
      * inversion E; subst. rewrite Ha in Hn. inversion Hn; subst a.
        cbn in Ek. inversion Ek; subst kn.
        apply H1. rewrite dict_get_set_same by apply key_eqb_refl. discriminate.
      * eapply H2; eauto.
Qed.

Lemma assign_tag_fresh_names (T0 : DaylioJournal.table) (zs0 : list Z)
      (first : Z) (tg : tagging) (ids : list json) (name : string) :
  int_keys (dict_keys T0) = Some zs0 ->
  Forall (fun z => z < first) zs0 ->
  fresh_names T0 first tg ->
  fresh_names T0 first (fst (assign_tag (tg, ids) name)).
Proof.
  intros H0 Hlt (names & Ht & Hn & Hnd & Hnorm & Hun & Hdom & Hold).
  unfold assign_tag.
  destruct (dict_get key_eqb (KStr (daylio_name name)) (tag_name_to_id tg))
    eqn:E; cbn [fst].
  - exists names. auto 10.
  - exists (names ++ [daylio_name name]).
    cbn [journal_tags next_tag_id tag_name_to_id].
    rewrite new_tags_snoc, length_app, Ht, Hn, app_assoc. simpl List.length.
    split; [|split; [lia|split; [|split; [|split; [|split]]]]].
    + apply dict_set_absent. eapply int_key_absent.
      * apply grown_int_keys; eassumption.
      * apply Forall_app. split.
        -- eapply Forall_impl; [|exact Hlt]. simpl. intros; lia.
        -- apply Forall_forall. intros z Hz. apply zseq_bounds in Hz. lia.
    + apply NoDup_app; auto.
      * constructor; [intros []|constructor].
      * intros n Hin [<-|[]]. now apply Hdom in Hin.
    + apply Forall_app. split; auto. constructor; [|constructor].
      rewrite (daylio_name_by_char name). apply normalised_is_fixed.
    + apply Forall_app. split; auto. constructor; [|constructor].
      intros k t Hin Hname. now apply (Hold _ _ _ Hin) in Hname.
    + intros n Hin. apply in_app_or in Hin. destruct Hin as [Hin|[<-|[]]].
      * apply dict_get_set_keeps. auto.
      * rewrite dict_get_set_same by apply key_eqb_refl. discriminate.
    + intros k t n Hin Hname. apply dict_get_set_keeps. eauto.
Qed.

(** X4.  The tags an import adds have pairwise distinct names, each of them
    normalised and none of them the name of a tag the journal had before:
    the importer never stores a second tag under a name it knows. *)
Theorem new_tag_names_are_new :
  forall (host : Host) (csv_rows : list (list string))
         (journal journal' : DaylioJournal.t) (hs : list json)
         (out : list string),
    import_how_we_feel_csv host csv_rows journal = Ok (hs, journal', out) ->
    exists (first : Z) (names : list string),
      DaylioJournal.tags journal' =
        DaylioJournal.tags journal ++ new_tags first names /\
      NoDup names /\
      Forall (fun n => daylio_name n = n) names /\
      Forall (unused_name (DaylioJournal.tags journal)) names.
Proof.
  intros host csv_rows journal journal' hs out H.
  apply import_ok in H.
  destruct H as (header & rows & m & first & st & _ & Hm & Hf & Hrows
                 & _ & Htags & _).
  apply first_tag_id_ok in Hf. destruct Hf as (zs & Hzs & _ & Hlt).
  apply name_to_id_of_knows in Hm. destruct Hm as [_ Hm].
  assert (Hinv : fresh_names (DaylioJournal.tags journal) first (tagging_of st)).
  { eapply import_rows_keeps with (P := fresh_names _ _); [| |exact Hrows].
    - intros tg ids name. eapply assign_tag_fresh_names; eassumption.
    - exists []. cbn [tagging_of journal_tags next_tag_id tag_name_to_id].
      unfold new_tags. cbn. rewrite app_nil_r.
      split; [reflexivity|]. split; [lia|].
      split; [constructor|]. split; [constructor|]. split; [constructor|].
      split; [intros n []|exact Hm]. }
  destruct Hinv as (names & Ht & _ & Hnd & Hnorm & Hun & _).
  exists first, names. rewrite Htags. auto.
Qed.

Lemma new_tag_names_are_new_witness :
  exists first names,
    DaylioJournal.tags sample_journal_after =
      DaylioJournal.tags sample_journal ++ new_tags first names /\
    NoDup names.
Proof.
  destruct (@new_tag_names_are_new host_cest sample_rows sample_journal
              sample_journal_after sample_records sample_stdout
              ltac:(vm_compute; reflexivity))
    as (first & names & H1 & H2 & _).
  exists first, names. split; assumption.
Defined.

(** ** Candidate tag names *)

Lemma lstrip_has_char (c : ascii) (s : string) :
  has_char c s = false -> has_char c (lstrip s) = false.
Proof.
  induction s as [|a s IH]; cbn [lstrip has_char]; auto.
  intros H. apply orb_false_elim in H. destruct H as [H1 H2].
  destruct (is_space a); auto. cbn [has_char]. now rewrite H1, H2.
Qed.

Lemma rstrip_has_char (c : ascii) (s : string) :
  has_char c s = false -> has_char c (rstrip s) = false.
Proof.
  induction s as [|a s IH]; cbn [rstrip has_char]; auto.
  intros H. apply orb_false_elim in H. destruct H as [H1 H2].
  specialize (IH H2). destruct (rstrip s) as [|b r].
  - destruct (is_space a); cbn [has_char]; auto. now rewrite H1.
  - cbn [has_char] in *. now rewrite H1, IH.
Qed.

Lemma split_no_sep (sep : ascii) (s : string) :
  Forall (fun p => has_char sep p = false) (split sep s).
Proof.
  induction s as [|a s IH]; cbn [split].
  - constructor; [reflexivity|constructor].
  - destruct (Ascii.eqb a sep) eqn:E.
    + constructor; [reflexivity|exact IH].
    + destruct (split sep s) as [|h t].
      * constructor; [cbn; now rewrite E|constructor].
      * inversion IH; subst. constructor; auto. cbn [has_char].
        now rewrite E.
Qed.

Lemma lstrip_starts (s : string) : starts_space (lstrip s) = false.
Proof.
  induction s as [|a s IH]; cbn [lstrip]; auto.
  destruct (is_space a) eqn:E; auto.
Qed.

Lemma lstrip_fixed (s : string) : starts_space s = false -> lstrip s = s.
Proof.
  destruct s as [|a s]; cbn; auto. now intros ->.
Qed.

Lemma rstrip_starts (s : string) :
  starts_space s = false -> starts_space (rstrip s) = false.
Proof.
  destruct s as [|a s]; cbn [rstrip starts_space]; auto.
  intros H. destruct (rstrip s); [rewrite H|]; cbn; auto.
Qed.

Lemma rstrip_idem (s : string) : rstrip (rstrip s) = rstrip s.
Proof.
  induction s as [|a s IH]; cbn [rstrip]; auto.
  destruct (rstrip s) as [|b r] eqn:E.
  - destruct (is_space a) eqn:Ea; cbn [rstrip]; auto. now rewrite Ea.
  - change (rstrip (String a (String b r))) with
      (match rstrip (String b r) with
       | EmptyString => if is_space a then EmptyString else String a EmptyString
       | String x y => String a (String x y)
       end).
    now rewrite IH.
Qed.

Lemma strip_idem (s : string) : strip (strip s) = strip s.
Proof.
  unfold strip. rewrite (lstrip_fixed (rstrip (lstrip s))).
  - apply rstrip_idem.
  - apply rstrip_starts, lstrip_starts.
Qed.

Lemma column_tags_clean (row_data : row_dict) (col_name : string) :
  In col_name TAG_COLUMNS -> Forall clean_tag (column_tags row_data col_name).
Proof.
  intros Hcol. unfold column_tags.
  destruct (col_name =? "Menstrual")%string.
  - destruct (nonempty (row_get row_data col_name)); constructor; [|constructor].
    repeat split. discriminate.
  - destruct (nonempty (row_get row_data col_name)); [|constructor].
    apply Forall_forall. intros t Ht.
    apply filter_In in Ht. destruct Ht as [Ht Hne].
    apply in_map_iff in Ht. destruct Ht as (p & <- & Hp).
    pose proof (split_no_sep ";" (row_get row_data col_name)) as Hs.
    rewrite Forall_forall in Hs. specialize (Hs p Hp).
    repeat split.
    + intros E. rewrite E in Hne. discriminate.
    + apply strip_idem.
    + unfold strip. now apply rstrip_has_char, lstrip_has_char.
Qed.

(** X5.  Every candidate tag name collected from a row is non-empty, has no
    white space around it and contains no semicolon, whatever the cells
    hold. *)
Theorem candidate_tags_clean :
  forall row_data : row_dict, Forall clean_tag (non_unique_tags row_data).
Proof.
  intros row_data. unfold non_unique_tags.
  apply Forall_forall. intros t Ht.
  apply in_flat_map in Ht. destruct Ht as (col & Hcol & Ht).
  pose proof (@column_tags_clean row_data col Hcol) as H.
  rewrite Forall_forall in H. now apply H.
Qed.

(** ** Header names *)

Lemma import_rows_header (host : Host) (header header' : list string)
      (rows : list (list string)) (st : importing) :
  map strip header = map strip header' ->
  import_rows host header st rows = import_rows host header' st rows.
Proof.
  intros Hh. revert st. induction rows as [|row rows IH]; intros st; cbn; auto.
  unfold import_row, make_row_data. rewrite Hh.
  destruct row as [|c row]; cbn [bind]; auto.
  destruct (dict_get String.eqb "Date" _); auto.
  destruct (strptime host s); cbn [bind]; auto.
  destruct (DT.sub_ms d DEFAULT_TIMEZONE_OFFSET_MS); cbn [bind]; auto.
  destruct (get_tag_ids_from_row host _ (tagging_of st)).
  destruct (dict_get String.eqb "Mood" _); cbn [bind]; auto.
Qed.

(** X6.  White space around the header names does not matter: with the
    header names stripped beforehand the import is the same, in result and
    in failure. *)
Theorem header_padding_irrelevant :
  forall (host : Host) (header : list string) (rows : list (list string))
         (journal : DaylioJournal.t),
    import_how_we_feel_csv host (map strip header :: rows) journal =
    import_how_we_feel_csv host (header :: rows) journal.
Proof.
  intros host header rows journal. unfold import_how_we_feel_csv.
  destruct (name_to_id_of (DaylioJournal.tags journal) []); cbn [bind]; auto.
  destruct (first_tag_id (dict_keys (DaylioJournal.tags journal)));
    cbn [bind]; auto.
  rewrite (import_rows_header host (map strip header) header); auto.
  rewrite map_map. apply map_ext. apply strip_idem.
Qed.

(** ** Looking cells up by name *)

Lemma fold_set_last_cell (k : string) (kvs : list (string * string))
      (d : row_dict) :
  dict_get String.eqb k
    (fold_left (fun d kv => dict_set String.eqb (fst kv) (snd kv) d) kvs d) =
  match last_cell k kvs with
  | Some x => Some x
  | None => dict_get String.eqb k d
  end.
Proof.
  revert d. induction kvs as [|[k' v] kvs IH]; intros d; cbn [fold_left last_cell].
  - reflexivity.
  - rewrite IH. cbn [fst snd]. destruct (last_cell k kvs); auto.
    destruct (String.eqb_spec k k') as [->|Hne].
    + apply dict_get_set_same, String.eqb_refl.
    + apply dict_get_set_other; [apply string_eqb_join|now apply String.eqb_neq].
Qed.

(** X7.  A cell is found under the stripped name of its column; of several
    columns with one name the last one that the row reaches counts, and
    the cells beyond the last header name are dropped. *)
Theorem row_lookup_last_column :
  forall (header row : list string) (k : string),
    dict_get String.eqb k (make_row_data header row) =
    last_cell k (combine (map strip header) row).
Proof.
  intros header row k. unfold make_row_data, dict_of_pairs.
  rewrite fold_set_last_cell. cbn [dict_get].
  now destruct (last_cell k (combine (map strip header) row)).
Qed.

(** ** What the importer reads of a row *)

Lemma flat_map_ext_in (A B : Type) (f g : A -> list B) (l : list A) :
  (forall a, In a l -> f a = g a) -> flat_map f l = flat_map g l.
Proof.
  induction l as [|a l IH]; cbn [flat_map]; intros H; auto.
  rewrite (H a), IH; auto.
  - intros b Hb. apply H. now right.
  - now left.
Qed.

Lemma non_unique_tags_same (rd rd' : row_dict) :
  same_cells rd rd' -> non_unique_tags rd = non_unique_tags rd'.
Proof.
  intros [Hc _]. unfold non_unique_tags. apply flat_map_ext_in.
  intros col Hcol. unfold column_tags, row_get.
  rewrite (Hc col); auto. unfold read_columns. now do 2 right.
Qed.

Lemma import_row_same (host : Host) (header header' row row' : list string)
      (st : importing) :
  same_row header header' row row' ->
  import_row host header st row = import_row host header' st row'.
Proof.
  intros [Hempty Hcells]. unfold import_row.
  destruct row as [|c row], row' as [|c' row']; auto.
  - destruct Hempty as [H _]. specialize (H eq_refl). discriminate.
  - destruct Hempty as [_ H]. specialize (H eq_refl). discriminate.
  - pose proof Hcells as [Hc Hm].
    rewrite (Hc "Date") by (now left).
    destruct (dict_get String.eqb "Date" _) as [date_str|]; auto.
    destruct (strptime host date_str) as [e|dt]; auto.
    destruct (DT.sub_ms dt DEFAULT_TIMEZONE_OFFSET_MS) as [u|e]; cbn [bind]; auto.
    unfold get_tag_ids_from_row.
    rewrite (non_unique_tags_same Hcells).
    destruct (fold_left assign_tag _ (tagging_of st, [])) as [tg ids].
    unfold row_get. rewrite (Hc "Notes") by (right; now left).
    destruct (dict_get String.eqb "Mood" (make_row_data header (c :: row)))
      eqn:E1,
      (dict_get String.eqb "Mood" (make_row_data header' (c' :: row')))
      eqn:E2; auto.
    + destruct Hm as [_ H]. specialize (H eq_refl). discriminate.
    + destruct Hm as [H _]. specialize (H eq_refl). discriminate.
Qed.

(** X8.  The importer reads of a row only whether it is empty, its cells
    under Date, Notes and the nine tag columns, and whether it has a Mood
    cell: two CSVs that agree on these, row by row, are imported alike,
    whatever the text of the Mood cells and whatever other columns they
    have. *)
Theorem import_reads_named_cells :
  forall (host : Host) (header header' : list string)
         (rows rows' : list (list string)) (journal : DaylioJournal.t),
    Forall2 (same_row header header') rows rows' ->
    import_how_we_feel_csv host (header :: rows) journal =
    import_how_we_feel_csv host (header' :: rows') journal.
Proof.
  intros host header header' rows rows' journal HF.
  unfold import_how_we_feel_csv.
  destruct (name_to_id_of (DaylioJournal.tags journal) []); cbn [bind]; auto.
  destruct (first_tag_id (dict_keys (DaylioJournal.tags journal)));
    cbn [bind]; auto.
  f_equal.
  generalize (mkImporting (mkTagging (DaylioJournal.tags journal) a a0) [] []).
  induction HF as [|row row' rows rows' Hrow HF IH]; intros st; cbn [import_rows].
  - reflexivity.
  - rewrite (import_row_same host st Hrow).
    destruct (import_row host header' st row'); cbn [bind]; auto.
Qed.

(** ** Column order *)

Lemma fold_set_distinct (kvs d : row_dict) :
  NoDup (map fst (d ++ kvs)) ->
  fold_left (fun d kv => dict_set String.eqb (fst kv) (snd kv) d) kvs d =
  d ++ kvs.
Proof.
  revert d. induction kvs as [|[k v] kvs IH]; intros d Hnd; cbn [fold_left].
  - now rewrite app_nil_r.
  - cbn [fst snd]. rewrite dict_set_absent.
    + rewrite IH; rewrite <- app_assoc; auto.
    + apply dict_get_none_keys. apply Forall_forall. intros k' Hk'.
      apply String.eqb_neq. intros ->.
      rewrite map_app in Hnd. apply NoDup_remove_2 in Hnd.
      apply Hnd. apply in_or_app. now left.
Qed.

Lemma dict_get_in_string (d : row_dict) (k v : string) :
  NoDup (map fst d) ->
  (dict_get String.eqb k d = Some v <-> In (k, v) d).
Proof.
  induction d as [|[k' v'] d IH]; cbn [dict_get map fst In]; intros Hnd.
  - split; [discriminate|tauto].
  - inversion Hnd as [|? ? Hk' Hd]; subst.
    destruct (String.eqb_spec k k') as [->|Hne].
    + split.
      * intros [= ->]. now left.
      * intros [E|Hin]; [now inversion E|].
        exfalso. apply Hk'. apply in_map_iff. now exists (k', v).
    + rewrite (IH Hd). split; [tauto|].
      intros [E|Hin]; [inversion E; congruence|exact Hin].
Qed.

Lemma reordered_same_row (header header' row row' : list string) :
  reordered header header' row row' -> same_row header header' row row'.
Proof.
  intros (Hempty & Hnd & Hperm). split; [exact Hempty|].
  assert (Hnd' : NoDup (map fst (combine (map strip header') row'))).
  { eapply Permutation_NoDup; [|exact Hnd]. now apply Permutation_map. }
  assert (Hget : forall k,
             dict_get String.eqb k (make_row_data header row) =
             dict_get String.eqb k (make_row_data header' row')).
  { intros k. unfold make_row_data, dict_of_pairs.
    rewrite !fold_set_distinct by assumption. cbn [app].
    destruct (dict_get String.eqb k (combine (map strip header) row)) as [v|] eqn:E.
    - apply dict_get_in_string in E; auto.
      symmetry. apply dict_get_in_string; auto.
      eapply Permutation_in; eassumption.
    - destruct (dict_get String.eqb k (combine (map strip header') row'))
        as [v'|] eqn:E'; auto.
      apply dict_get_in_string in E'; auto.
      apply Permutation_sym in Hperm.
      eapply Permutation_in in E'; [|exact Hperm].
      apply dict_get_in_string in E'; auto. congruence. }
  split.
  - intros k _. apply Hget.
  - now rewrite Hget.
Qed.

(** X9.  The order of the columns does not matter: when the column names
    are distinct, a CSV whose columns are permuted, header and rows alike,
    is imported with the same result. *)
Theorem column_order_irrelevant :
  forall (host : Host) (header header' : list string)
         (rows rows' : list (list string)) (journal : DaylioJournal.t),
    Forall2 (reordered header header') rows rows' ->
    import_how_we_feel_csv host (header :: rows) journal =
    import_how_we_feel_csv host (header' :: rows') journal.
Proof.
  intros host header header' rows rows' journal HF.
  unfold import_how_we_feel_csv.
  destruct (name_to_id_of (DaylioJournal.tags journal) []); cbn [bind]; auto.
  destruct (first_tag_id (dict_keys (DaylioJournal.tags journal)));
    cbn [bind]; auto.
  f_equal.
  generalize (mkImporting (mkTagging (DaylioJournal.tags journal) a a0) [] []).
  induction HF as [|row row' rows rows' Hrow HF IH]; intros st; cbn [import_rows].
  - reflexivity.
  - apply reordered_same_row in Hrow.
    rewrite (import_row_same host st Hrow).
    destruct (import_row host header' st row'); cbn [bind]; auto.
Qed.

(** ** Every candidate gets its tag *)

Lemma names_tag_extends (T T' : DaylioJournal.table) (c : string) (x : json) :
  extends T T' -> names_tag T c x -> names_tag T' c x.
Proof.
  intros He (k & Hk & Hr). exists k. split; auto.
  eapply tag_record_extends; eauto.
Qed.

Lemma assign_tag_last (tg : tagging) (ids : list json) (name : string) :
  tagging_ok tg ->
  exists x,
    snd (assign_tag (tg, ids) name) = ids ++ [x] /\
    names_tag (journal_tags (fst (assign_tag (tg, ids) name))) name x.
Proof.
  intros [(zs & Hzs & Hlt) Hnamed]. unfold assign_tag.
  destruct (dict_get key_eqb (KStr (daylio_name name)) (tag_name_to_id tg))
    as [i|] eqn:E; cbn [fst snd journal_tags].
  - exists (of_key i). split; [reflexivity|].
    exists i. split; [now destruct i|now apply Hnamed].
  - exists (JInt (next_tag_id tg)). split; [reflexivity|].
    exists (KInt (next_tag_id tg)). split; [reflexivity|].
    eexists _, (JInt (next_tag_id tg)), (KInt (next_tag_id tg)).
    split; [apply dict_get_set_same, key_eqb_refl|].
    split; [reflexivity|]. split; [reflexivity|].
    split; [apply key_eqb_refl|reflexivity].
Qed.

Lemma assign_tag_fst (tg : tagging) (ids ids' : list json) (name : string) :
  fst (assign_tag (tg, ids) name) = fst (assign_tag (tg, ids') name).
Proof.
  unfold assign_tag.
  now destruct (dict_get key_eqb (KStr (daylio_name name)) (tag_name_to_id tg)).
Qed.

Lemma fold_assign_named (names : list string) (tg : tagging) (ids : list json) :
  tagging_ok tg ->
  exists new,
    snd (fold_left assign_tag names (tg, ids)) = ids ++ new /\
    Forall2 (names_tag (journal_tags (fst (fold_left assign_tag names (tg, ids)))))
            names new /\
    tagging_ok (fst (fold_left assign_tag names (tg, ids))) /\
    extends (journal_tags tg)
            (journal_tags (fst (fold_left assign_tag names (tg, ids)))).
Proof.
  revert tg ids. induction names as [|n names IH]; intros tg ids Hok.
  - exists []. cbn. split; [now rewrite app_nil_r|].
    split; [constructor|]. split; [exact Hok|apply extends_refl].
  - cbn [fold_left].
    destruct (@assign_tag_last tg ids n Hok) as (x & Hx & Hn).
    destruct (@assign_tag_ok tg [] n Hok (Forall_nil _)) as (Hok1 & _ & Hext1).
    rewrite (assign_tag_fst tg [] ids n) in Hok1, Hext1.
    destruct (assign_tag (tg, ids) n) as [tg1 ids1]. cbn [fst snd] in *. subst ids1.
    destruct (IH tg1 (ids ++ [x]) Hok1) as (new & Hnew & HF & Hok' & Hext').
    exists (x :: new). split; [rewrite Hnew, <- app_assoc; reflexivity|].
    split; [|split; [exact Hok'|eapply extends_trans; eassumption]].
    constructor; auto. eapply names_tag_extends; eassumption.
Qed.

Lemma tags_of_row_extends (host : Host) (T T' : DaylioJournal.table)
      (header row : list string) (e : json) :
  extends T T' -> tags_of_row host T header row e -> tags_of_row host T' header row e.
Proof.
  intros He (ids & Hids & HF). exists ids. split; auto.
  eapply Forall2_impl; [|exact HF]. intros c x. now apply names_tag_extends.
Qed.

Lemma import_row_tags (host : Host) (header row : list string)
      (st st' : importing) :
  tagging_ok (tagging_of st) ->
  import_row host header st row = Ok st' ->
  tagging_ok (tagging_of st') /\
  extends (journal_tags (tagging_of st)) (journal_tags (tagging_of st')) /\
  if row_imported host header row
  then exists e,
         daylio_entries st' = daylio_entries st ++ [e] /\
         tags_of_row host (journal_tags (tagging_of st')) header row e
  else daylio_entries st' = daylio_entries st.
Proof.
  intros Hok. unfold import_row, row_imported.
  destruct row as [|c row];
    [intros [= <-]; auto using extends_refl|].
  destruct (dict_get String.eqb "Date" _) as [date_str|]; [|discriminate].
  destruct (strptime host date_str) as [e|dt];
    [intros [= <-]; auto using extends_refl|].
  destruct (DT.sub_ms dt DEFAULT_TIMEZONE_OFFSET_MS) as [u|e];
    cbn [bind]; [|discriminate].
  unfold get_tag_ids_from_row.
  destruct (@fold_assign_named
              (set_order host (non_unique_tags (make_row_data header (c :: row))))
              (tagging_of st) [] Hok) as (new & Hnew & HF & Hok' & Hext).
  destruct (fold_left assign_tag _ (tagging_of st, [])) as [tg ids].
  cbn [fst snd app] in *. subst ids.
  destruct (dict_get String.eqb "Mood" _); [|discriminate].
  intros [= <-]. cbn [tagging_of daylio_entries].
  split; [exact Hok'|]. split; [exact Hext|].
  eexists. split; [reflexivity|].
  exists new. split; [reflexivity|exact HF].
Qed.

Lemma import_rows_tags (host : Host) (header : list string)
      (rows : list (list string)) (st st' : importing) :
  tagging_ok (tagging_of st) ->
  import_rows host header st rows = Ok st' ->
  exists new,
    daylio_entries st' = daylio_entries st ++ new /\
    Forall2 (tags_of_row host (journal_tags (tagging_of st')) header)
            (filter (row_imported host header) rows) new /\
    extends (journal_tags (tagging_of st)) (journal_tags (tagging_of st')).
Proof.
  revert st. induction rows as [|row rows IH]; cbn [import_rows filter];
    intros st Hok H.
  - inversion H; subst. exists []. rewrite app_nil_r.
    split; [reflexivity|]. split; [constructor|apply extends_refl].
  - bind_inv H.
    destruct (@import_row_tags host header row st a Hok Ha) as (Hok1 & Hext1 & Hrow).
    destruct (IH a Hok1 H) as (new & Hnew & HF & Hext).
    destruct (row_imported host header row).
    + destruct Hrow as (e & He & Ht). exists (e :: new).
      split; [rewrite Hnew, He, <- app_assoc; reflexivity|].
      split; [|eapply extends_trans; eassumption].
      constructor; auto. eapply tags_of_row_extends; eassumption.
    + exists new. rewrite Hnew, Hrow.
      split; [reflexivity|]. split; [exact HF|].
      eapply extends_trans; eassumption.
Qed.

(** X10.  The records an import returns match, one for one and in order,
    the data rows that are not empty and whose date parses; and the 'tags'
    list of each record holds, for every candidate tag name of its row (in
    the order the set of candidates is enumerated), a reference to the tag
    that bears the normalised name of the candidate. *)
Theorem every_candidate_tagged :
  forall (host : Host) (data : json) (header : list string)
         (rows : list (list string)) (journal journal' : DaylioJournal.t)
         (hs : list json) (out : list string),
    DaylioJournal.__init__ data = Ok journal ->
    import_how_we_feel_csv host (header :: rows) journal = Ok (hs, journal', out) ->
    Forall2 (tags_of_row host (DaylioJournal.tags journal') header)
            (filter (row_imported host header) rows) hs.
Proof.
  intros host data header rows journal journal' hs out Hinit Himp.
  apply import_ok in Himp.
  destruct Himp as (header' & rows' & m & first & st & E & Hm & Hf & Hrows
                    & -> & -> & _).
  inversion E; subst header' rows'; clear E.
  apply init_tags_ok in Hinit. destruct Hinit as [Hnd Hkeyed].
  apply first_tag_id_ok in Hf. destruct Hf as (zs & Hzs & _ & Hlt).
  apply import_rows_tags in Hrows.
  - destruct Hrows as (new & Hnew & HF & _). cbn in Hnew. now subst new.
  - split; cbn [tagging_of journal_tags tag_name_to_id next_tag_id].
    + eauto.
    + eapply name_to_id_named; eauto.
      * apply incl_refl.
      * intros n i Hn. discriminate Hn.
Qed.

Lemma every_candidate_tagged_witness :
  Forall2 (tags_of_row host_cest (DaylioJournal.tags sample_journal_after)
             sample_header)
          (filter (row_imported host_cest sample_header) (tl sample_rows))
          sample_records.
Proof.
  exact (@every_candidate_tagged host_cest sample_doc sample_header
           (tl sample_rows) sample_journal sample_journal_after sample_records
           sample_stdout ltac:(vm_compute; reflexivity)
           ltac:(vm_compute; reflexivity)).
Defined.

Lemma import_reads_named_cells_witness :
  import_how_we_feel_csv host_cest
    [["Date"; "Mood"]; ["2025 Sat Oct 4 8:09 PM"; "Calm"]] sample_journal =
  import_how_we_feel_csv host_cest
    [["Date"; "Mood"; "Heart rate"]; ["2025 Sat Oct 4 8:09 PM"; "Angry"; "61"]]
    sample_journal.
Proof.
  apply (@import_reads_named_cells host_cest ["Date"; "Mood"]
           ["Date"; "Mood"; "Heart rate"]
           [["2025 Sat Oct 4 8:09 PM"; "Calm"]]
           [["2025 Sat Oct 4 8:09 PM"; "Angry"; "61"]] sample_journal).
  constructor; [|constructor].
  split; [split; discriminate|]. split.
  - intros k Hk. unfold read_columns, TAG_COLUMNS in Hk.
    repeat (destruct Hk as [<-|Hk]; [reflexivity|]). destruct Hk.
  - split; discriminate.
Defined.

Lemma column_order_irrelevant_witness :
  import_how_we_feel_csv host_cest
    [["Date"; "Mood"; "Notes"]; ["2025 Sat Oct 4 8:09 PM"; "Calm"; "tea"]]
    sample_journal =
  import_how_we_feel_csv host_cest
    [["Notes"; "Date"; "Mood"]; ["tea"; "2025 Sat Oct 4 8:09 PM"; "Calm"]]
    sample_journal.
Proof.
  apply (@column_order_irrelevant host_cest ["Date"; "Mood"; "Notes"]
           ["Notes"; "Date"; "Mood"]
           [["2025 Sat Oct 4 8:09 PM"; "Calm"; "tea"]]
           [["tea"; "2025 Sat Oct 4 8:09 PM"; "Calm"]] sample_journal).
  constructor; [|constructor].
  split; [split; discriminate|]. split.
  - cbn. repeat constructor; cbn; intuition discriminate.
  - cbn. apply Permutation_sym.
    apply (Permutation_cons_append
             [("Date", "2025 Sat Oct 4 8:09 PM"); ("Mood", "Calm")]
             ("Notes", "tea")).
Defined.

(* ================================================================== *)
(** * Further properties of the journal *)

(** ** Resolving tag names *)

Lemma init_tag_is_object (data : json) (self : DaylioJournal.t) (k : key) (m : json) :
  DaylioJournal.__init__ data = Ok self ->
  dict_get key_eqb k (DaylioJournal.tags self) = Some m ->
  exists kv d, m = JObj (kv :: d).
Proof.
  intros Hinit Hm. apply init_tags_ok in Hinit. destruct Hinit as [_ Hkeyed].
  apply dict_get_in in Hm. destruct Hm as [k' Hin].
  rewrite Forall_forall in Hkeyed.
  destruct (Hkeyed _ Hin) as (x & kx & Hx & _).
  apply getitem_ok in Hx. destruct Hx as ([|kv d] & Hd & Hid).
  - discriminate Hid.
  - cbn in Hd. now exists kv, d.
Qed.

Lemma get_tag_name_resolves (data : json) (self : DaylioJournal.t) (tag_id : json) :
  DaylioJournal.__init__ data = Ok self ->
  DaylioJournal.get_tag_name self tag_id =
  resolve_tag (DaylioJournal.tags self) tag_id.
Proof.
  intros Hinit. unfold DaylioJournal.get_tag_name, resolve_tag, tag_name_of.
  destruct (to_key tag_id) as [k|]; [|reflexivity].
  destruct (dict_get key_eqb k (DaylioJournal.tags self)) as [m|] eqn:E;
    [|reflexivity].
  destruct (@init_tag_is_object data self k m Hinit E) as (kv & d & ->).
  reflexivity.
Qed.

Lemma mapM_ext (A B : Type) (f g : A -> result B) (l : list A) :
  (forall a, f a = g a) -> mapM f l = mapM g l.
Proof.
  intros H. induction l as [|a l IH]; cbn [mapM]; auto. now rewrite H, IH.
Qed.

(** X11.  In a journal built from a document, a tag reference never makes
    name resolution fail for being unknown: [get_tag_name] answers the
    name field of the record under a hashable id, and the placeholder
    "Unknown Tag ID (<id>)" when the record has no name or there is no
    record; only an unhashable reference raises (TypeError).  The tag
    names of an entry are these answers, reference by reference. *)
Theorem tag_names_resolve :
  forall (data : json) (self : DaylioJournal.t),
    DaylioJournal.__init__ data = Ok self ->
    (forall tag_id,
        DaylioJournal.get_tag_name self tag_id =
        resolve_tag (DaylioJournal.tags self) tag_id) /\
    (forall e tag_ids,
        iter (Entry.tags e) = Ok tag_ids ->
        tag_names self e = mapM (resolve_tag (DaylioJournal.tags self)) tag_ids).
Proof.
  intros data self Hinit. split.
  - intros tag_id. now apply (@get_tag_name_resolves data self tag_id Hinit).
  - intros e tag_ids Hit. unfold tag_names. rewrite Hit. cbn [bind].
    apply mapM_ext. intros x. now apply (@get_tag_name_resolves data self x Hinit).
Qed.

Lemma tag_names_resolve_witness :
  (forall tag_id,
      DaylioJournal.get_tag_name sample_journal tag_id =
      resolve_tag (DaylioJournal.tags sample_journal) tag_id) /\
  (forall e tag_ids,
      iter (Entry.tags e) = Ok tag_ids ->
      tag_names sample_journal e =
      mapM (resolve_tag (DaylioJournal.tags sample_journal)) tag_ids).
Proof.
  exact (@tag_names_resolve sample_doc sample_journal eq_refl).
Defined.

(** ** Queries over the entries *)

Lemma filterM_raise_inv (A : Type) (p : A -> result bool) (l : list A) (e : exn) :
  filterM p l = Raise e -> exists a, In a l /\ p a = Raise e.
Proof.
  induction l as [|a l IH]; cbn [filterM]; [discriminate|].
  destruct (p a) as [b|e'] eqn:Ea.
  - destruct (filterM p l) as [r|e'']; [discriminate|].
    intros [= <-]. destruct (IH eq_refl) as (x & Hx & Hp).
    exists x. split; [now right|exact Hp].
  - intros [= <-]. exists a. split; [now left|exact Ea].
Qed.

Lemma filterM_raises (A : Type) (p : A -> result bool) (l : list A) (a : A)
      (e : exn) :
  In a l -> p a = Raise e -> exists e', filterM p l = Raise e'.
Proof.
  induction l as [|x l IH]; cbn [filterM In]; [tauto|].
  intros [->|Hin] Hp.
  - rewrite Hp. eauto.
  - destruct (p x); [|eauto].
    destruct (IH Hin Hp) as [e' ->]. eauto.
Qed.

Lemma filterM_pure (A : Type) (p : A -> result bool) (f : A -> bool) (l : list A) :
  (forall a, In a l -> p a = Ok (f a)) -> filterM p l = Ok (filter f l).
Proof.
  induction l as [|a l IH]; cbn [filterM filter]; intros H; auto.
  rewrite (H a) by (now left). rewrite IH; auto.
  intros x Hx. apply H. now right.
Qed.

Lemma get_raises (o : json) (k : string) (default : json) (e : exn) :
  get o k default = Raise e -> e = AttributeError.
Proof.
  destruct o; cbn; congruence.
Qed.

Lemma get_mood_name_errors (self : DaylioJournal.t) (mood_id : json) (e : exn) :
  DaylioJournal.get_mood_name self mood_id = Raise e -> lookup_error e.
Proof.
  unfold DaylioJournal.get_mood_name, lookup_error.
  destruct (to_key mood_id) as [k|]; [|intros [= <-]; now right].
  set (mood := match dict_get key_eqb k (DaylioJournal.moods self) with
               | Some v => v
               | None => JNull
               end).
  destruct (truthy mood).
  - destruct (get mood "custom_name" JNull) as [c|e'] eqn:Ec; cbn [bind].
    + destruct (truthy c).
      * discriminate.
      * intros H. apply get_raises in H. now left.
    + intros [= <-]. apply get_raises in Ec. now left.
  - cbn [bind]. intros H. apply get_raises in H. now left.
Qed.

(** X12.  One entry whose mood id is not in the mood table makes every
    query by mood name fail, whatever name is asked for: the call raises
    (AttributeError or TypeError) instead of returning the other entries. *)
Theorem unknown_mood_breaks_mood_query :
  forall (self : DaylioJournal.t) (mood_name_arg : string) (e : Entry.t)
         (k : key),
    In e (DaylioJournal.entries self) ->
    to_key (Entry.mood_id e) = Some k ->
    dict_get key_eqb k (DaylioJournal.moods self) = None ->
    exists err,
      get_entries_by_mood self mood_name_arg = Raise err /\ lookup_error err.
Proof.
  intros self mood_name_arg e k Hin Hk Habs. unfold get_entries_by_mood.
  destruct (@filterM_raises _
              (fun e0 => n <- mood_name self e0 ;; s <- lower_of n ;;
                         Ok (s =? lower mood_name_arg)%string)
              (DaylioJournal.entries self) e AttributeError Hin) as [err Herr].
  - unfold mood_name. now rewrite (get_mood_name_absent_raises self _ Hk Habs).
  - exists err. split; [exact Herr|].
    apply filterM_raise_inv in Herr. destruct Herr as (x & _ & Hx).
    destruct (mood_name self x) as [n|e1] eqn:En; cbn [bind] in Hx.
    + destruct n; cbn in Hx; inversion Hx; now left.
    + inversion Hx; subst. now apply get_mood_name_errors in En.
Qed.

(** X13.  When the mood of every entry resolves to a string, the query by
    mood name returns the entries whose mood name equals the name asked
    for, letter case aside, in the order of the journal. *)
Theorem mood_query_filters :
  forall (self : DaylioJournal.t) (mood_name_arg : string)
         (name_of : Entry.t -> string),
    (forall e, In e (DaylioJournal.entries self) ->
               mood_name self e = Ok (JStr (name_of e))) ->
    get_entries_by_mood self mood_name_arg =
    Ok (filter (fun e => (lower (name_of e) =? lower mood_name_arg)%string)
               (DaylioJournal.entries self)).
Proof.
  intros self mood_name_arg name_of H. unfold get_entries_by_mood.
  apply filterM_pure. intros e He. now rewrite (H e He).
Qed.

(** X14.  When the tags of every entry resolve to strings, the query by tag
    name returns the entries one of whose tag names equals the name asked
    for, letter case aside, in the order of the journal. *)
Theorem tag_query_filters :
  forall (self : DaylioJournal.t) (tag_name : string)
         (names_of : Entry.t -> list string),
    (forall e, In e (DaylioJournal.entries self) ->
               tag_names self e = Ok (map JStr (names_of e))) ->
    get_entries_by_tag self tag_name =
    Ok (filter (fun e => existsb (String.eqb (lower tag_name))
                                 (map lower (names_of e)))
               (DaylioJournal.entries self)).
Proof.
  intros self tag_name names_of H. unfold get_entries_by_tag.
  apply filterM_pure. intros e He. rewrite (H e He). cbn [bind].
  assert (Hl : forall l, mapM lower_of (map JStr l) = Ok (map lower l)).
  { induction l as [|x l IH]; cbn [mapM map lower_of]; auto. now rewrite IH. }
  now rewrite Hl.
Qed.

Lemma unknown_mood_breaks_mood_query_witness :
  exists err,
    get_entries_by_mood stray_mood_journal "rad" = Raise err /\ lookup_error err.
Proof.
  apply (@unknown_mood_breaks_mood_query stray_mood_journal "rad"
           (hd (Entry.mk JNull JNull JNull JNull JNull JNull JNull JNull
                  EmptyString EmptyString JNull JNull JNull)
               (DaylioJournal.entries stray_mood_journal))
           (KInt 2)).
  - left. reflexivity.
  - reflexivity.
  - reflexivity.
Defined.

Lemma mood_query_filters_witness :
  get_entries_by_mood sample_journal "GOOD" =
  Ok (filter (fun e => (lower "good" =? lower "GOOD")%string)
             (DaylioJournal.entries sample_journal)).
Proof.
  apply (@mood_query_filters sample_journal "GOOD" (fun _ => "good")).
  intros e [<-|[<-|[]]]; reflexivity.
Defined.

Lemma tag_query_filters_witness :
  get_entries_by_tag sample_journal "Friend-A" =
  Ok (filter (fun e => existsb (String.eqb (lower "Friend-A"))
                               (map lower ["friend-a"]))
             (DaylioJournal.entries sample_journal)).
Proof.
  apply (@tag_query_filters sample_journal "Friend-A" (fun _ => ["friend-a"])).
  intros e [<-|[<-|[]]]; reflexivity.
Defined.

(** ** Listing the names *)

Lemma mapM_raise_inv (A B : Type) (f : A -> result B) (l : list A) (e : exn) :
  mapM f l = Raise e -> exists a, In a l /\ f a = Raise e.
Proof.
  induction l as [|a l IH]; cbn [mapM]; [discriminate|].
  destruct (f a) as [b|e'] eqn:Ea.
  - destruct (mapM f l) as [r|e'']; [discriminate|].
    intros [= <-]. destruct (IH eq_refl) as (x & Hx & Hp).
    exists x. split; [now right|exact Hp].
  - intros [= <-]. exists a. split; [now left|exact Ea].
Qed.

Lemma dict_get_of_key (V : Type) (k : key) (d : dict key V) :
  In k (dict_keys d) -> exists v, dict_get key_eqb k d = Some v.
Proof.
  unfold dict_keys.
  induction d as [|[k' v'] d IH]; cbn [map fst In dict_get]; [tauto|].
  intros [->|Hin].
  - rewrite key_eqb_refl. eauto.
  - destruct (key_eqb k k'); eauto.
Qed.

Lemma to_key_of_key (k : key) : to_key (of_key k) = Some k.
Proof. now destruct k. Qed.

Lemma get_mood_name_known (data : json) (self : DaylioJournal.t) (k : key)
      (m : json) :
  DaylioJournal.__init__ data = Ok self ->
  dict_get key_eqb k (DaylioJournal.moods self) = Some m ->
  exists n, DaylioJournal.get_mood_name self (of_key k) = Ok n.
Proof.
  intros Hinit Hm.
  destruct (@init_mood_is_object data self k m Hinit Hm) as [d ->].
  unfold DaylioJournal.get_mood_name. rewrite to_key_of_key, Hm.
  cbn [truthy get]. destruct d as [|kv d']; [cbn; eauto|].
  cbn [bind].
  destruct (truthy match obj_get "custom_name" (kv :: d') with
                   | Some v => v
                   | None => JNull
                   end); eauto.
Qed.

Lemma hashed_raises (x : json) (e : exn) : hashed x = Raise e -> e = TypeError.
Proof.
  unfold hashed. destruct (to_key x); congruence.
Qed.

(** X15.  In a journal built from a document, listing the mood names or
    the tag names never fails on a lookup: the only exception either call
    can raise is the TypeError of a name that is not hashable. *)
Theorem listing_names_raises_only_type_error :
  forall (order : list key -> list key) (data : json)
         (self : DaylioJournal.t) (e : exn),
    DaylioJournal.__init__ data = Ok self ->
    (list_moods order self = Raise e -> e = TypeError) /\
    (list_tags order self = Raise e -> e = TypeError).
Proof.
  intros order data self e Hinit. split.
  - unfold list_moods. intros H.
    destruct (mapM _ (dict_keys (DaylioJournal.moods self))) as [names|e'] eqn:E;
      cbn [bind] in H; [discriminate|].
    inversion H; subst e'; clear H.
    apply mapM_raise_inv in E. destruct E as (k & Hk & Hf).
    apply dict_get_of_key in Hk. destruct Hk as [m Hm].
    destruct (@get_mood_name_known data self k m Hinit Hm) as [n Hn].
    rewrite Hn in Hf. cbn [bind] in Hf. now apply hashed_raises in Hf.
  - unfold list_tags. intros H.
    destruct (mapM _ (dict_keys (DaylioJournal.tags self))) as [names|e'] eqn:E;
      cbn [bind] in H; [discriminate|].
    inversion H; subst e'; clear H.
    apply mapM_raise_inv in E. destruct E as (k & _ & Hf).
    rewrite (@get_tag_name_resolves data self (of_key k) Hinit) in Hf.
    unfold resolve_tag in Hf. rewrite to_key_of_key in Hf. cbn [bind] in Hf.
    now apply hashed_raises in Hf.
Qed.

Lemma listing_names_raises_only_type_error_witness :
  (list_moods (fun l => l) sample_journal = Raise TypeError -> TypeError = TypeError) /\
  (list_tags (fun l => l) sample_journal = Raise TypeError -> TypeError = TypeError).
Proof.
  exact (@listing_names_raises_only_type_error (fun l => l) sample_doc
           sample_journal TypeError eq_refl).
Defined.

(** ** Which raw records become entries *)

(** X16.  [Entry.__init__] accepts exactly the objects that have the fields
    id, minute, hour, day, month, year and mood and whose note and
    note_title, if present, are strings; any other value makes it raise. *)
Theorem entry_init_accepts :
  forall data : json,
    (exists e, Entry.__init__ data = Ok e) <->
    (exists d, data = JObj d /\ entry_accepted d = true).
Proof.
  intros data. split.
  - intros [e H]. destruct data as [| | | | |d]; try discriminate H.
    exists d. split; [reflexivity|].
    unfold Entry.__init__, Entry.get_stripped, getitem, get in H.
    unfold entry_accepted, has_field, text_or_absent.
    destruct (obj_get "id" d); [|discriminate H].
    destruct (obj_get "minute" d); [|discriminate H].
    destruct (obj_get "hour" d); [|discriminate H].
    destruct (obj_get "day" d); [|discriminate H].
    destruct (obj_get "month" d); [|discriminate H].
    destruct (obj_get "year" d); [|discriminate H].
    destruct (obj_get "mood" d); [|discriminate H].
    cbn [bind andb] in *.
    destruct (obj_get "note" d) as [[]|]; try discriminate H;
      destruct (obj_get "note_title" d) as [[]|]; try discriminate H;
      reflexivity.
  - intros (d & -> & H).
    unfold entry_accepted, has_field, text_or_absent in H.
    unfold Entry.__init__, Entry.get_stripped, getitem, get.
    destruct (obj_get "id" d); [|discriminate H].
    destruct (obj_get "minute" d); [|discriminate H].
    destruct (obj_get "hour" d); [|discriminate H].
    destruct (obj_get "day" d); [|discriminate H].
    destruct (obj_get "month" d); [|discriminate H].
    destruct (obj_get "year" d); [|discriminate H].
    destruct (obj_get "mood" d); [|discriminate H].
    cbn [bind andb] in *.
    destruct (obj_get "note" d) as [[]|]; try discriminate H;
      destruct (obj_get "note_title" d) as [[]|]; try discriminate H;
      cbn [bind]; eauto.
Qed.

(** ** Notes *)

Lemma bracketed_not_empty (t rest : string) :
  ("[" ++ t ++ rest)%string <> EmptyString.
Proof. discriminate. Qed.

(** X17.  An entry has a note exactly when the stripped 'note' or the
    stripped 'note_title' of its raw record is not empty, and exactly then
    its note text is not empty. *)
Theorem has_note_iff_text :
  forall (d : obj) (e : Entry.t),
    Entry.__init__ (JObj d) = Ok e ->
    has_note e =
      (nonempty (strip (text_field d "note"))
       || nonempty (strip (text_field d "note_title")))%bool /\
    (get_note_text e = EmptyString <-> has_note e = false).
Proof.
  intros d e H. split.
  - unfold Entry.__init__, Entry.get_stripped, getitem, get in H.
    unfold text_field.
    destruct (obj_get "id" d); [|discriminate H].
    destruct (obj_get "minute" d); [|discriminate H].
    destruct (obj_get "hour" d); [|discriminate H].
    destruct (obj_get "day" d); [|discriminate H].
    destruct (obj_get "month" d); [|discriminate H].
    destruct (obj_get "year" d); [|discriminate H].
    destruct (obj_get "mood" d); [|discriminate H].
    cbn [bind] in H.
    destruct (obj_get "note" d) as [[]|]; try discriminate H;
      destruct (obj_get "note_title" d) as [[]|]; try discriminate H;
      cbn [bind] in H; inversion H; subst; reflexivity.
  - unfold get_note_text, has_note, nonempty.
    destruct (Entry.note_title e) as [|a t]; destruct (Entry.note e) as [|b n];
      cbn; split; intros E; try reflexivity; discriminate E.
Qed.

Lemma has_note_iff_text_witness :
  exists e,
    Entry.__init__ (sample_entry 7) = Ok e /\
    has_note e = true /\ get_note_text e = "walk".
Proof.
  destruct (Entry.__init__ (sample_entry 7)) as [e|] eqn:E; [|discriminate E].
  exists e. split; [reflexivity|].
  destruct (@has_note_iff_text
              [("id", JInt 7); ("minute", JInt 30); ("hour", JInt 7);
               ("day", JInt 1); ("month", JInt 8); ("year", JInt 2025);
               ("datetime", JInt 1756704600000); ("timeZoneOffset", JInt 7200000);
               ("mood", JInt 2); ("note", JStr "walk"); ("tags", JList [JInt 3])]
              e E) as [H1 _].
  split; [rewrite H1; reflexivity|].
  vm_compute in E. inversion E; subst. reflexivity.
Defined.

(** ** Looking records up by id *)

Lemma dict_get_set_eq (V : Type) (k k' : key) (v : V) (d : dict key V) :
  key_eqb k k' = true ->
  dict_get key_eqb k (dict_set key_eqb k' v d) = Some v.
Proof.
  intros E. induction d as [|[k0 v0] d IH]; cbn [dict_set dict_get].
  - now rewrite E.
  - destruct (key_eqb k' k0) eqn:E0; cbn [dict_get].
    + now rewrite (key_eqb_trans _ _ _ E E0).
    + destruct (key_eqb k k0) eqn:E1; auto.
      rewrite key_eqb_sym in E.
      now rewrite (key_eqb_trans _ _ _ E E1) in E0.
Qed.

Lemma by_id_lookup (xs : list json) (d tbl : DaylioJournal.table) (k : key) :
  DaylioJournal.by_id xs d = Ok tbl ->
  dict_get key_eqb k tbl =
  match last_with_id k xs with
  | Some y => Some y
  | None => dict_get key_eqb k d
  end.
Proof.
  revert d. induction xs as [|x xs IH]; intros d H;
    cbn [DaylioJournal.by_id last_with_id] in *.
  - now inversion H; subst.
  - bind_inv H. unfold id_key. rewrite Ha.
    destruct (to_key a) as [k'|]; [|discriminate].
    rewrite (IH _ H). destruct (last_with_id k xs); auto.
    destruct (key_eqb k k') eqn:E.
    + now apply dict_get_set_eq.
    + apply dict_get_set_other; [exact (@key_eqb_join)|exact E].
Qed.

(** X18.  The tag table and the mood table of a journal answer, for an id,
    the last record of the document's list that carries an equal id: a
    later record replaces an earlier one with the same id, and an id no
    record carries is not in the table. *)
Theorem tables_hold_last_record :
  forall (data : json) (self : DaylioJournal.t) (ts ms : list json) (k : key),
    DaylioJournal.__init__ data = Ok self ->
    (l <- get data "tags" (JList []) ;; iter l) = Ok ts ->
    (l <- get data "customMoods" (JList []) ;; iter l) = Ok ms ->
    dict_get key_eqb k (DaylioJournal.tags self) = last_with_id k ts /\
    dict_get key_eqb k (DaylioJournal.moods self) = last_with_id k ms.
Proof.
  intros data self ts ms k Hinit Hts Hms.
  apply init_tables in Hinit.
  destruct Hinit as (ms' & ts' & es & Hm1 & Hm2 & Ht1 & Ht2 & _).
  rewrite Hts in Ht1. rewrite Hms in Hm1.
  inversion Ht1; subst ts'. inversion Hm1; subst ms'.
  rewrite (@by_id_lookup ts [] _ k Ht2), (@by_id_lookup ms [] _ k Hm2).
  cbn [dict_get].
  now destruct (last_with_id k ts), (last_with_id k ms).
Qed.

Lemma tables_hold_last_record_witness :
  dict_get key_eqb (KInt 3) (DaylioJournal.tags sample_journal) =
    last_with_id (KInt 3) sample_tags /\
  dict_get key_eqb (KInt 3) (DaylioJournal.moods sample_journal) =
    last_with_id (KInt 3) sample_moods.
Proof.
  exact (@tables_hold_last_record sample_doc sample_journal sample_tags
           sample_moods (KInt 3) eq_refl eq_refl eq_refl).
Defined.

(* ================================================================== *)
(** * Further properties of the merge *)

(** ** Tags and moods of the output *)

Lemma import_appends (host : Host) (csv_rows : list (list string))
      (journal journal' : DaylioJournal.t) (hs : list json) (out : list string) :
  import_how_we_feel_csv host csv_rows journal = Ok (hs, journal', out) ->
  exists first names,
    DaylioJournal.tags journal' =
    DaylioJournal.tags journal ++ new_tags first names.
Proof.
  intros H. apply import_ok in H.
  destruct H as (header & rows & m & first & st & _ & _ & Hf & Hrows
                 & _ & Htags & _).
  apply first_tag_id_ok in Hf. destruct Hf as (zs & Hzs & _ & Hlt).
  assert (Hg : grown (DaylioJournal.tags journal) first (tagging_of st)).
  { eapply import_rows_keeps with (P := grown _ _); [| |exact Hrows].
    - intros tg ids name. eapply assign_tag_grown; eassumption.
    - exists []. cbn. unfold new_tags. cbn. rewrite app_nil_r.
      split; [reflexivity|lia]. }
  destruct Hg as (names & Ht & _). exists first, names. now rewrite Htags.
Qed.

(** X19.  Whatever the CSV, a merge keeps the moods and the tags of a
    primary document whose mood ids, and tag ids, are pairwise distinct:
    the mood list of the output is the document's, and its tag list is the
    document's followed by the records of the new tags. *)
Theorem merge_keeps_tags_and_moods :
  forall (host : Host) (d : obj) (csv_rows : list (list string))
         (ts ms : list json) (out : json),
    obj_get "tags" d = Some (JList ts) ->
    obj_get "customMoods" d = Some (JList ms) ->
    unique_ids ts ->
    unique_ids ms ->
    merge_journals host (JObj d) csv_rows = Ok out ->
    exists (first : Z) (names : list string),
      getitem out "customMoods" = Ok (JList ms) /\
      getitem out "tags" =
        Ok (JList (ts ++ dict_values (new_tags first names))).
Proof.
  intros host d csv_rows ts ms out Hts Hms Uts Ums H.
  apply merge_ok in H.
  destruct H as (journal & hs & journal' & diag & all & d0 & Hinit & Himp
                 & _ & Hd & ->).
  inversion Hd; subst d0; clear Hd.
  apply import_appends in Himp. destruct Himp as (first & names & Htags).
  apply init_tables in Hinit.
  destruct Hinit as (ms' & ts' & es0 & Hm1 & Hm2 & Ht1 & Ht2 & _).
  cbn [get bind] in Hm1, Ht1. rewrite Hms in Hm1. rewrite Hts in Ht1.
  cbn in Hm1, Ht1. inversion Hm1; subst ms'. inversion Ht1; subst ts'.
  exists first, names. cbn [getitem]. split.
  - rewrite obj_get_set_same. now rewrite (by_id_values Ums Hm2).
  - rewrite obj_get_set_other, obj_get_set_same by discriminate.
    rewrite Htags. unfold dict_values at 1. rewrite map_app.
    fold (dict_values (DaylioJournal.tags journal)).
    now rewrite (by_id_values Uts Ht2).
Qed.

Lemma merge_keeps_tags_and_moods_witness :
  exists first names,
    getitem sample_merged "customMoods" = Ok (JList sample_moods) /\
    getitem sample_merged "tags" =
      Ok (JList (sample_tags ++ dict_values (new_tags first names))).
Proof.
  exact (@merge_keeps_tags_and_moods host_cest sample_fields sample_rows
           sample_tags sample_moods sample_merged eq_refl eq_refl
           sample_tags_unique sample_moods_unique
           ltac:(vm_compute; reflexivity)).
Defined.

(** ** Loading the output again *)

Ltac entry_fields d H :=
  destruct (obj_get "id" d); [|discriminate H];
  destruct (obj_get "minute" d); [|discriminate H];
  destruct (obj_get "hour" d); [|discriminate H];
  destruct (obj_get "day" d); [|discriminate H];
  destruct (obj_get "month" d); [|discriminate H];
  destruct (obj_get "year" d); [|discriminate H];
  destruct (obj_get "mood" d); [|discriminate H].

Lemma init_entry_accepted (x : json) (e : Entry.t) :
  Entry.__init__ x = Ok e -> exists d, x = JObj d /\ entry_accepted d = true.
Proof.
  intros H. destruct x as [| | | | |d]; try discriminate H.
  exists d. split; [reflexivity|].
  unfold Entry.__init__, Entry.get_stripped, getitem, get in H.
  unfold entry_accepted, has_field, text_or_absent.
  entry_fields d H. cbn [bind andb] in *.
  destruct (obj_get "note" d) as [[]|]; try discriminate H;
    destruct (obj_get "note_title" d) as [[]|]; try discriminate H;
    reflexivity.
Qed.

Lemma accepted_entry_init (d : obj) :
  entry_accepted d = true -> exists e, Entry.__init__ (JObj d) = Ok e.
Proof.
  intros H. unfold entry_accepted, has_field, text_or_absent in H.
  unfold Entry.__init__, Entry.get_stripped, getitem, get.
  entry_fields d H. cbn [bind andb] in *.
  destruct (obj_get "note" d) as [[]|]; try discriminate H;
    destruct (obj_get "note_title" d) as [[]|]; try discriminate H;
    cbn [bind]; eauto.
Qed.

Lemma accepted_after_renumbering (d : obj) (v : json) :
  entry_accepted d = true -> entry_accepted (obj_set "id" v d) = true.
Proof.
  unfold entry_accepted, has_field, text_or_absent.
  rewrite obj_get_set_same, !obj_get_set_other by discriminate.
  destruct (obj_get "id" d); [auto|discriminate].
Qed.

Lemma renumbered_loads (l l' : list json) :
  Forall2 renumbered l l' ->
  Forall (fun x => exists e, Entry.__init__ x = Ok e) l ->
  Forall (fun x => exists e, Entry.__init__ x = Ok e) l'.
Proof.
  induction 1 as [|x y l l' (d & i & -> & ->) HF IH]; intros Hl; constructor.
  - inversion Hl as [|? ? [e He] _]; subst.
    apply init_entry_accepted in He. destruct He as (d' & Hd & Hacc).
    inversion Hd; subst d'.
    apply accepted_entry_init. now apply accepted_after_renumbering.
  - apply IH. now inversion Hl.
Qed.

Lemma mapM_init_each (es : list json) (ents : list Entry.t) :
  mapM Entry.__init__ es = Ok ents ->
  Forall (fun x => exists e, Entry.__init__ x = Ok e) es.
Proof.
  revert ents. induction es as [|x es IH]; cbn [mapM]; intros ents H.
  - constructor.
  - destruct (Entry.__init__ x) as [e|] eqn:Ee; [|discriminate].
    destruct (mapM Entry.__init__ es) as [ents'|]; [|discriminate].
    constructor; eauto.
Qed.

Lemma each_init_mapM (es : list json) :
  Forall (fun x => exists e, Entry.__init__ x = Ok e) es ->
  exists ents, mapM Entry.__init__ es = Ok ents.
Proof.
  induction 1 as [|x es [e He] _ [ents IH]]; cbn [mapM].
  - eauto.
  - rewrite He, IH. eauto.
Qed.

Lemma import_row_loads (host : Host) (header row : list string)
      (st st' : importing) :
  import_row host header st row = Ok st' ->
  Forall (fun x => exists e, Entry.__init__ x = Ok e) (daylio_entries st) ->
  Forall (fun x => exists e, Entry.__init__ x = Ok e) (daylio_entries st').
Proof.
  unfold import_row.
  destruct row as [|c row]; [now intros [= <-]|].
  destruct (dict_get String.eqb "Date" _) as [date_str|]; [|discriminate].
  destruct (strptime host date_str) as [e|dt]; [now intros [= <-]|].
  destruct (DT.sub_ms dt DEFAULT_TIMEZONE_OFFSET_MS) as [u|e];
    cbn [bind]; [|discriminate].
  destruct (get_tag_ids_from_row host _ (tagging_of st)) as [tg ids].
  destruct (dict_get String.eqb "Mood" _); [|discriminate].
  intros [= <-] Hl. cbn [daylio_entries].
  apply Forall_app. split; [exact Hl|].
  constructor; [|constructor]. eexists. reflexivity.
Qed.

Lemma import_rows_loads (host : Host) (header : list string)
      (rows : list (list string)) (st st' : importing) :
  import_rows host header st rows = Ok st' ->
  Forall (fun x => exists e, Entry.__init__ x = Ok e) (daylio_entries st) ->
  Forall (fun x => exists e, Entry.__init__ x = Ok e) (daylio_entries st').
Proof.
  revert st. induction rows as [|row rows IH]; cbn [import_rows]; intros st H Hl.
  - now inversion H; subst.
  - bind_inv H. eapply IH; [exact H|].
    eapply import_row_loads; eassumption.
Qed.

Lemma keyed_id_key (kv : key * json) : keyed kv -> id_key (snd kv) <> None.
Proof.
  intros (x & kx & Hx & Hk & _). unfold id_key. rewrite Hx, Hk. discriminate.
Qed.

Lemma by_id_total (xs : list json) (d : DaylioJournal.table) :
  Forall (fun x => id_key x <> None) xs ->
  exists tbl, DaylioJournal.by_id xs d = Ok tbl.
Proof.
  intros H. revert d. induction H as [|x xs Hx _ IH]; intros d;
    cbn [DaylioJournal.by_id].
  - eauto.
  - unfold id_key in Hx. destruct (getitem x "id") as [i|]; [|congruence].
    cbn [bind]. destruct (to_key i); [|congruence]. apply IH.
Qed.

Lemma keyed_values (tbl : DaylioJournal.table) :
  Forall keyed tbl -> Forall (fun x => id_key x <> None) (dict_values tbl).
Proof.
  unfold dict_values. induction 1 as [|kv tbl Hkv _ IH]; cbn [map]; constructor; auto.
  now apply keyed_id_key.
Qed.

Lemma new_tags_keyed (first : Z) (names : list string) :
  Forall keyed (new_tags first names).
Proof.
  unfold new_tags. apply Forall_forall. intros kv Hkv.
  apply in_map_iff in Hkv. destruct Hkv as ([i n] & <- & _).
  exists (JInt i), (KInt i). cbn. repeat split. apply Z.eqb_refl.
Qed.

(** X20.  The document a merge produces is one the program can load: the
    journal constructor accepts it, and the entries of the journal it
    builds are the records of the output's entry list, in order. *)
Theorem merged_document_loads :
  forall (host : Host) (data : json) (csv_rows : list (list string))
         (out : json),
    merge_journals host data csv_rows = Ok out ->
    exists (again : DaylioJournal.t) (all : list json),
      DaylioJournal.__init__ out = Ok again /\
      getitem out "dayEntries" = Ok (JList all) /\
      map Entry._data (DaylioJournal.entries again) = all.
Proof.
  intros host data csv_rows out H.
  apply merge_ok in H.
  destruct H as (journal & hs & journal' & diag & all & d & Hinit & Himp
                 & Hren & -> & ->).
  pose proof (@init_tags_ok (JObj d) journal Hinit) as [_ Hkt].
  pose proof Hinit as Htab. apply init_tables in Htab.
  destruct Htab as (ms & ts & es & _ & Hmoods & _ & _ & _ & Hents).
  apply by_id_ok in Hmoods; [|constructor|constructor].
  destruct Hmoods as [_ Hkm].
  pose proof Himp as Happ. apply import_appends in Happ.
  destruct Happ as (first & names & Htags).
  apply import_ok in Himp.
  destruct Himp as (header & rows & m & f & st & _ & _ & _ & Hrows & -> & _).
  apply import_rows_loads in Hrows; [|constructor]. cbn [daylio_entries] in Hrows.
  pose proof (@mapM_init_each es _ Hents) as Hprim.
  apply mapM_init_data in Hents. rewrite Hents in Hren.
  apply renumber_spec in Hren. destruct Hren as [HF _].
  assert (Hall : Forall (fun x => exists e, Entry.__init__ x = Ok e) all).
  { eapply renumbered_loads; [exact HF|]. apply Forall_app. now split. }
  apply each_init_mapM in Hall. destruct Hall as [ents Hents2].
  destruct (@by_id_total (dict_values (DaylioJournal.moods journal)) [])
    as [moods2 Hm2]; [now apply keyed_values|].
  destruct (@by_id_total (dict_values (DaylioJournal.tags journal')) [])
    as [tags2 Ht2].
  { apply keyed_values. rewrite Htags. apply Forall_app. split; auto.
    apply new_tags_keyed. }
  eexists. exists all. split; [|split].
  - unfold DaylioJournal.__init__. cbn [get bind].
    rewrite obj_get_set_same. cbn [iter bind]. rewrite Hm2. cbn [bind].
    rewrite obj_get_set_other, obj_get_set_same by discriminate.
    cbn [iter bind]. rewrite Ht2. cbn [bind].
    rewrite !obj_get_set_other, obj_get_set_same by discriminate.
    cbn [iter bind]. rewrite Hents2. cbn [bind]. reflexivity.
  - cbn [getitem].
    rewrite !obj_get_set_other, obj_get_set_same by discriminate. reflexivity.
  - cbn [DaylioJournal.entries]. now apply mapM_init_data.
Qed.

Lemma merged_document_loads_witness :
  exists again all,
    DaylioJournal.__init__ sample_merged = Ok again /\
    getitem sample_merged "dayEntries" = Ok (JList all) /\
    map Entry._data (DaylioJournal.entries again) = all.
Proof.
  exact (@merged_document_loads host_cest sample_doc sample_rows sample_merged
           ltac:(vm_compute; reflexivity)).
Defined.

(** ** Tag references in the output *)

Lemma resolves_listed (tbl : DaylioJournal.table) (x : json) :
  resolves tbl x -> listed_tag (dict_values tbl) x.
Proof.
  intros (k & n & Hk & (d & i & ki & Hget & Hid & Hki & He & Hname) & Hn).
  exists k, d, i, ki, n. repeat split; auto.
  apply dict_get_in in Hget. destruct Hget as [k' Hin].
  unfold dict_values. apply in_map_iff. now exists (k', JObj d).
Qed.

Lemma Forall2_transfer (A B : Type) (R : A -> B -> Prop) (P : A -> Prop)
      (Q : B -> Prop) (l : list A) (l' : list B) :
  (forall a b, R a b -> P a -> Q b) ->
  Forall2 R l l' -> Forall P l -> Forall Q l'.
Proof.
  intros H. induction 1 as [|a b l l' Hab _ IH]; intros Hl; constructor.
  - inversion Hl; subst. eauto.
  - apply IH. now inversion Hl.
Qed.

(** X21.  In the document a merge produces, the entry list is the
    renumbered primary records followed by the imported ones, and every
    tag reference of an imported record is the id of a record of the
    output's own tag list, which carries a normalised name: what is
    written has no dangling reference among the imported entries. *)
Theorem merged_imports_refer_to_listed_tags :
  forall (host : Host) (data : json) (csv_rows : list (list string))
         (out : json),
    merge_journals host data csv_rows = Ok out ->
    exists (es prim imp ts : list json),
      (l <- get data "dayEntries" (JList []) ;; iter l) = Ok es /\
      getitem out "dayEntries" = Ok (JList (prim ++ imp)) /\
      List.length prim = List.length es /\
      getitem out "tags" = Ok (JList ts) /\
      Forall (fun e => forall ids x,
                  getitem e "tags" = Ok (JList ids) -> In x ids ->
                  listed_tag ts x) imp.
Proof.
  intros host data csv_rows out H.
  apply merge_ok in H.
  destruct H as (journal & hs & journal' & diag & all & d & Hinit & Himp
                 & Hren & -> & ->).
  pose proof (@init_tags_ok (JObj d) journal Hinit) as [Hnd Hkeyed].
  pose proof Hinit as Htab. apply init_tables in Htab.
  destruct Htab as (ms & ts & es & _ & _ & _ & _ & Hes & Hents).
  apply mapM_init_data in Hents. rewrite Hents in Hren.
  apply renumber_spec in Hren. destruct Hren as [HF _].
  apply Forall2_app_inv_l in HF.
  destruct HF as (prim & imp & HFp & HFi & ->).
  apply import_ok in Himp.
  destruct Himp as (header & rows & m & first & st & _ & Hm & Hf & Hrows
                    & -> & Htags & _).
  apply first_tag_id_ok in Hf. destruct Hf as (zs & Hzs & _ & Hlt).
  assert (Hok : importing_ok st).
  { eapply import_rows_ok; [|exact Hrows]. split; [|constructor].
    split; cbn [tagging_of journal_tags tag_name_to_id next_tag_id].
    - eauto.
    - eapply name_to_id_named; eauto.
      + apply incl_refl.
      + intros n i Hn. discriminate Hn. }
  destruct Hok as [_ Hres].
  exists es, prim, imp, (dict_values (DaylioJournal.tags journal')).
  split; [exact Hes|]. split; [|split; [|split]].
  - cbn [getitem].
    rewrite !obj_get_set_other, obj_get_set_same by discriminate. reflexivity.
  - now apply Forall2_length_eq in HFp.
  - cbn [getitem].
    rewrite obj_get_set_other, obj_get_set_same by discriminate. reflexivity.
  - eapply Forall2_transfer; [|exact HFi|exact Hres].
    intros h e (dd & i & -> & ->) Hh ids x Hids Hx.
    rewrite Htags. apply resolves_listed.
    assert (Hsame : getitem (JObj dd) "tags" = Ok (JList ids)).
    { cbn [getitem] in *. now rewrite obj_get_set_other in Hids by discriminate. }
    specialize (Hh ids Hsame). rewrite Forall_forall in Hh. now apply Hh.
Qed.

Lemma merged_imports_refer_to_listed_tags_witness :
  exists es prim imp ts,
    (l <- get sample_doc "dayEntries" (JList []) ;; iter l) = Ok es /\
    getitem sample_merged "dayEntries" = Ok (JList (prim ++ imp)) /\
    List.length prim = List.length es /\
    getitem sample_merged "tags" = Ok (JList ts).
Proof.
  destruct (@merged_imports_refer_to_listed_tags host_cest sample_doc
              sample_rows sample_merged ltac:(vm_compute; reflexivity))
    as (es & prim & imp & ts & H1 & H2 & H3 & H4 & _).
  exists es, prim, imp, ts. repeat split; assumption.
Defined.

(** ** When a merge returns *)

Lemma renumber_total (start : Z) (l : list json) :
  Forall (fun x => exists e, Entry.__init__ x = Ok e) l ->
  exists l', renumber start l = Ok l'.
Proof.
  intros H. revert start. induction H as [|x l [e He] _ IH]; intros start;
    cbn [renumber].
  - eauto.
  - apply init_entry_accepted in He. destruct He as (d & -> & _).
    cbn [setitem bind]. destruct (IH (start + 1)) as [l' ->]. cbn [bind]. eauto.
Qed.

(** X22.  A merge returns a document exactly when the journal constructor
    accepts the primary document and the import into that journal
    returns: renumbering the entries and assembling the output never
    fail. *)
Theorem merge_returns_iff :
  forall (host : Host) (data : json) (csv_rows : list (list string)),
    (exists out, merge_journals host data csv_rows = Ok out) <->
    (exists journal r,
        DaylioJournal.__init__ data = Ok journal /\
        import_how_we_feel_csv host csv_rows journal = Ok r).
Proof.
  intros host data csv_rows. split.
  - intros [out H]. apply merge_ok in H.
    destruct H as (journal & hs & journal' & diag & all & d & Hinit & Himp & _).
    eauto.
  - intros (journal & [[hs journal'] diag] & Hinit & Himp).
    unfold merge_journals. rewrite Hinit. cbn [bind]. rewrite Himp. cbn [bind].
    pose proof Hinit as Htab. apply init_tables in Htab.
    destruct Htab as (ms & ts & es & _ & _ & _ & _ & _ & Hents).
    pose proof (@mapM_init_each es _ Hents) as Hprim.
    apply mapM_init_data in Hents.
    pose proof Himp as Hi. apply import_ok in Hi.
    destruct Hi as (header & rows & m & f & st & _ & _ & _ & Hrows & -> & _
                    & _ & He' & _).
    apply import_rows_loads in Hrows; [|constructor].
    cbn [daylio_entries] in Hrows.
    rewrite He', Hents.
    destruct (@renumber_total 0 (es ++ daylio_entries st)) as [all Hall];
      [apply Forall_app; now split|].
    rewrite Hall. cbn [bind].
    destruct data as [| | | | |d]; try discriminate Hinit.
    cbn. eauto.
Qed.

(* ================================================================== *)
(** * Importing in parts *)

Lemma name_to_id_of_app (a b : list (key * json)) (d : dict key key) :
  name_to_id_of (a ++ b) d = (m <- name_to_id_of a d ;; name_to_id_of b m).
Proof.
  revert d. induction a as [|[k t] a IH]; intros d; cbn [app name_to_id_of bind].
  - reflexivity.
  - destruct (getitem t "name") as [n|]; cbn [bind]; auto.
    destruct (to_key n); auto.
Qed.

Lemma fold_max_snoc (y z : Z) (zs : list Z) :
  Forall (fun x => x < z) zs -> y < z ->
  fold_right Z.max y (zs ++ [z]) = z.
Proof.
  induction 1 as [|a zs Ha _ IH]; intros Hy; cbn [app fold_right].
  - lia.
  - rewrite IH by exact Hy. lia.
Qed.

Lemma max_default_snoc (z : Z) (zs : list Z) :
  Forall (fun x => x < z) zs -> max_default 0 (zs ++ [z]) = z.
Proof.
  intros H. destruct zs as [|y zs]; cbn [app max_default fold_right].
  - reflexivity.
  - inversion H; subst. now apply fold_max_snoc.
Qed.

Lemma assign_tag_canonical (tg : tagging) (ids : list json) (name : string) :
  tagging_canonical tg ->
  tagging_canonical (fst (assign_tag (tg, ids) name)).
Proof.
  intros [Hm Hf]. unfold assign_tag.
  destruct (dict_get key_eqb (KStr (daylio_name name)) (tag_name_to_id tg));
    cbn [fst]; [now split|].
  pose proof Hf as Hf'. apply first_tag_id_ok in Hf'.
  destruct Hf' as (zs & Hzs & _ & Hlt).
  unfold tagging_canonical. cbn [journal_tags tag_name_to_id next_tag_id].
  erewrite dict_set_absent by (eapply int_key_absent; eassumption).
  split.
  - rewrite name_to_id_of_app, Hm. reflexivity.
  - unfold first_tag_id, dict_keys in *. rewrite map_app, int_keys_app, Hzs.
    cbn. now rewrite max_default_snoc.
Qed.

Lemma import_row_shift (host : Host) (header row : list string) (tg : tagging)
      (ea ea' es : list json) (oa o : list string) (sta : importing) :
  Forall2 renumbered ea ea' ->
  import_row host header (mkImporting tg ea oa) row = Ok sta ->
  exists eb',
    import_row host header (mkImporting tg (es ++ ea') (o ++ oa)) row =
      Ok (mkImporting (tagging_of sta) (es ++ eb') (o ++ stdout sta)) /\
    Forall2 renumbered (daylio_entries sta) eb'.
Proof.
  intros HF. unfold import_row.
  destruct row as [|c row].
  { intros [= <-]. exists ea'. split; [reflexivity|exact HF]. }
  cbn [tagging_of daylio_entries stdout].
  destruct (dict_get String.eqb "Date" _) as [date_str|]; [|discriminate].
  destruct (strptime host date_str) as [e|dt].
  { intros [= <-]. exists ea'. cbn [tagging_of daylio_entries stdout].
    rewrite <- app_assoc. split; [reflexivity|exact HF]. }
  destruct (DT.sub_ms dt DEFAULT_TIMEZONE_OFFSET_MS) as [u|e];
    cbn [bind]; [|discriminate].
  destruct (get_tag_ids_from_row host _ tg) as [tg1 ids].
  destruct (dict_get String.eqb "Mood" _); [|discriminate].
  intros [= <-]. cbn [tagging_of daylio_entries stdout].
  eexists (ea' ++ [_]). rewrite <- app_assoc. split; [reflexivity|].
  apply Forall2_app; [exact HF|]. constructor; [|constructor].
  eexists _, (Z.of_nat (List.length (es ++ ea')) + 1). split; reflexivity.
Qed.

Lemma import_rows_shift (host : Host) (header : list string)
      (rows : list (list string)) (tg : tagging)
      (ea ea' es : list json) (oa o : list string) (sta : importing) :
  Forall2 renumbered ea ea' ->
  import_rows host header (mkImporting tg ea oa) rows = Ok sta ->
  exists eb',
    import_rows host header (mkImporting tg (es ++ ea') (o ++ oa)) rows =
      Ok (mkImporting (tagging_of sta) (es ++ eb') (o ++ stdout sta)) /\
    Forall2 renumbered (daylio_entries sta) eb'.
Proof.
  revert tg ea ea' oa. induction rows as [|row rows IH];
    intros tg ea ea' oa HF H; cbn [import_rows] in *.
  - inversion H; subst. exists ea'. split; [reflexivity|exact HF].
  - bind_inv H. destruct a as [tg1 e1 o1].
    destruct (@import_row_shift host header row tg ea ea' es oa o _ HF Ha)
      as (eb1 & H1 & HF1).
    rewrite H1. cbn [bind tagging_of daylio_entries stdout] in *.
    exact (IH tg1 e1 eb1 o1 HF1 H).
Qed.

(** X23.  Importing a CSV in two parts, the second part into the journal
    the first part left, comes to the same as importing it at once: the
    journal at the end is the same, the lines printed are those of the
    first part followed by those of the second, and the records are those
    of the first part followed by those of the second, the latter with
    only their 'id' numbered on. *)
Theorem import_in_two_parts :
  forall (host : Host) (header : list string) (rs1 rs2 : list (list string))
         (journal journal1 journal2 : DaylioJournal.t)
         (hs1 hs2 : list json) (out1 out2 : list string),
    import_how_we_feel_csv host (header :: rs1) journal = Ok (hs1, journal1, out1) ->
    import_how_we_feel_csv host (header :: rs2) journal1 = Ok (hs2, journal2, out2) ->
    exists hs2',
      import_how_we_feel_csv host (header :: rs1 ++ rs2) journal =
        Ok (hs1 ++ hs2', journal2, out1 ++ out2) /\
      Forall2 renumbered hs2 hs2'.
Proof.
  intros host header rs1 rs2 journal journal1 journal2 hs1 hs2 out1 out2 H1 H2.
  unfold import_how_we_feel_csv in *.
  destruct (name_to_id_of (DaylioJournal.tags journal) []) as [m|] eqn:Hm;
    cbn [bind] in *; [|discriminate].
  destruct (first_tag_id (dict_keys (DaylioJournal.tags journal))) as [f|] eqn:Hf;
    cbn [bind] in *; [|discriminate].
  destruct (import_rows host header _ rs1) as [st1|] eqn:Hrows1;
    cbn [bind] in *; [|discriminate].
  inversion H1; subst hs1 journal1 out1; clear H1.
  cbn [DaylioJournal.tags DaylioJournal.version DaylioJournal.is_reminder_on
       DaylioJournal.moods DaylioJournal.entries] in H2.
  assert (Hcan : tagging_canonical (tagging_of st1)).
  { eapply import_rows_keeps with (P := tagging_canonical); [| |exact Hrows1].
    - intros tg ids name. apply assign_tag_canonical.
    - split; assumption. }
  destruct Hcan as [Hm1 Hf1]. rewrite Hm1, Hf1 in H2. cbn [bind] in H2.
  destruct st1 as [[tbl1 m1 n1] es1 o1].
  cbn [tagging_of journal_tags tag_name_to_id next_tag_id daylio_entries stdout] in *.
  destruct (import_rows host header _ rs2) as [st2|] eqn:Hrows2;
    cbn [bind] in H2; [|discriminate].
  inversion H2; subst hs2 journal2 out2; clear H2.
  rewrite import_rows_app, Hrows1. cbn [bind].
  destruct (@import_rows_shift host header rs2 (mkTagging tbl1 m1 n1) [] [] es1
              [] o1 st2 (Forall2_nil _) Hrows2) as (eb' & Hshift & HF).
  rewrite !app_nil_r in Hshift. rewrite Hshift. cbn [bind].
  exists eb'. split; [reflexivity|exact HF].
Qed.

Lemma import_in_two_parts_witness :
  exists hs2',
    import_how_we_feel_csv host_cest
      (sample_header :: [nth 1 sample_rows []] ++ [nth 1 sample_rows []])
      sample_journal =
    Ok (sample_records ++ hs2', sample_journal_after,
        [] ++ []) /\
    Forall2 renumbered sample_records hs2'.
Proof.
  apply (@import_in_two_parts host_cest sample_header
           [nth 1 sample_rows []] [nth 1 sample_rows []]
           sample_journal sample_journal_after sample_journal_after
           sample_records sample_records [] []).
  - vm_compute; reflexivity.
  - vm_compute; reflexivity.
Defined.

(* ================================================================== *)
(** * Importing again *)

Lemma lookup_le_refl (m : dict key key) : lookup_le m m.
Proof. now intros n i H. Qed.

Lemma lookup_le_trans (a b c : dict key key) :
  lookup_le a b -> lookup_le b c -> lookup_le a c.
Proof. intros H1 H2 n i H. auto. Qed.

(** One turn of the tag loop: the id it appends is the one the reverse
    lookup holds for the name afterwards, and the lookup only grows. *)
Lemma assign_tag_records (tg : tagging) (ids : list json) (name : string) :
  exists i,
    snd (assign_tag (tg, ids) name) = ids ++ [of_key i] /\
    dict_get key_eqb (KStr (daylio_name name))
      (tag_name_to_id (fst (assign_tag (tg, ids) name))) = Some i /\
    lookup_le (tag_name_to_id tg)
              (tag_name_to_id (fst (assign_tag (tg, ids) name))).
Proof.
  unfold assign_tag.
  destruct (dict_get key_eqb (KStr (daylio_name name)) (tag_name_to_id tg))
    as [i|] eqn:E; cbn [fst snd tag_name_to_id].
  - exists i. split; [reflexivity|]. split; [exact E|apply lookup_le_refl].
  - exists (KInt (next_tag_id tg)). split; [reflexivity|]. split.
    + apply dict_get_set_same, key_eqb_refl.
    + intros n i Hn.
      destruct (key_eqb (KStr n) (KStr (daylio_name name))) eqn:En.
      * apply key_eqb_str in En. inversion En; subst. congruence.
      * rewrite dict_get_set_other; [exact Hn|exact (@key_eqb_join)|exact En].
Qed.

Lemma fold_assign_grows (names : list string) (acc : tagging * list json) :
  lookup_le (tag_name_to_id (fst acc))
            (tag_name_to_id (fst (fold_left assign_tag names acc))).
Proof.
  revert acc. induction names as [|n names IH]; intros [tg ids]; cbn [fold_left].
  - apply lookup_le_refl.
  - destruct (assign_tag_records tg ids n) as (i & _ & _ & Hle).
    eapply lookup_le_trans; [exact Hle|]. apply IH.
Qed.

Lemma assign_tag_known (tg : tagging) (ids : list json) (name : string) (i : key) :
  dict_get key_eqb (KStr (daylio_name name)) (tag_name_to_id tg) = Some i ->
  assign_tag (tg, ids) name = (tg, ids ++ [of_key i]).
Proof.
  intros H. unfold assign_tag. now rewrite H.
Qed.

(** With a reverse lookup that holds what the first run ends with, the tag
    loop changes nothing and collects the same ids. *)
Lemma fold_assign_again (names : list string) (tg tgF : tagging)
      (ids : list json) :
  lookup_le (tag_name_to_id (fst (fold_left assign_tag names (tg, ids))))
            (tag_name_to_id tgF) ->
  fold_left assign_tag names (tgF, ids) =
  (tgF, snd (fold_left assign_tag names (tg, ids))).
Proof.
  revert tg ids. induction names as [|n names IH]; intros tg ids Hle;
    cbn [fold_left] in *.
  - reflexivity.
  - destruct (assign_tag_records tg ids n) as (i & Hids & Hi & _).
    destruct (assign_tag (tg, ids) n) as [tg1 ids1] eqn:E1.
    cbn [fst snd] in *. subst ids1.
    rewrite (@assign_tag_known tgF ids n i).
    + now apply IH.
    + apply Hle.
      now apply (fold_assign_grows names (tg1, ids ++ [of_key i])).
Qed.

Lemma import_row_grows (host : Host) (header row : list string)
      (st st' : importing) :
  import_row host header st row = Ok st' ->
  lookup_le (tag_name_to_id (tagging_of st)) (tag_name_to_id (tagging_of st')).
Proof.
  unfold import_row.
  destruct row as [|c row]; [intros [= <-]; apply lookup_le_refl|].
  destruct (dict_get String.eqb "Date" _) as [date_str|]; [|discriminate].
  destruct (strptime host date_str) as [e|dt];
    [intros [= <-]; apply lookup_le_refl|].
  destruct (DT.sub_ms dt DEFAULT_TIMEZONE_OFFSET_MS) as [u|e];
    cbn [bind]; [|discriminate].
  unfold get_tag_ids_from_row.
  pose proof (fold_assign_grows
                (set_order host (non_unique_tags (make_row_data header (c :: row))))
                (tagging_of st, [])) as Hle.
  destruct (fold_left assign_tag _ (tagging_of st, [])) as [tg ids].
  destruct (dict_get String.eqb "Mood" _); [|discriminate].
  intros [= <-]. exact Hle.
Qed.

Lemma import_rows_grows (host : Host) (header : list string)
      (rows : list (list string)) (st st' : importing) :
  import_rows host header st rows = Ok st' ->
  lookup_le (tag_name_to_id (tagging_of st)) (tag_name_to_id (tagging_of st')).
Proof.
  revert st. induction rows as [|row rows IH]; cbn [import_rows]; intros st H.
  - inversion H; subst. apply lookup_le_refl.
  - bind_inv H. eapply lookup_le_trans.
    + eapply import_row_grows; eassumption.
    + now apply IH.
Qed.

Lemma import_row_again (host : Host) (header row : list string)
      (st st' : importing) (tgF : tagging) :
  import_row host header st row = Ok st' ->
  lookup_le (tag_name_to_id (tagging_of st')) (tag_name_to_id tgF) ->
  import_row host header (mkImporting tgF (daylio_entries st) (stdout st)) row =
  Ok (mkImporting tgF (daylio_entries st') (stdout st')).
Proof.
  unfold import_row.
  destruct row as [|c row]; [now intros [= <-]|].
  cbn [tagging_of daylio_entries stdout].
  destruct (dict_get String.eqb "Date" _) as [date_str|]; [|discriminate].
  destruct (strptime host date_str) as [e|dt]; [now intros [= <-]|].
  destruct (DT.sub_ms dt DEFAULT_TIMEZONE_OFFSET_MS) as [u|e];
    cbn [bind]; [|discriminate].
  unfold get_tag_ids_from_row.
  pose proof (@fold_assign_again
                (set_order host (non_unique_tags (make_row_data header (c :: row))))
                (tagging_of st) tgF []) as Hagain.
  destruct (fold_left assign_tag _ (tagging_of st, [])) as [tg ids].
  cbn [fst snd] in Hagain.
  destruct (dict_get String.eqb "Mood" _); [|discriminate].
  intros [= <-] Hle. cbn [tagging_of daylio_entries stdout] in *.
  now rewrite (Hagain Hle).
Qed.

Lemma import_rows_again (host : Host) (header : list string)
      (rows : list (list string)) (st st' : importing) (tgF : tagging) :
  import_rows host header st rows = Ok st' ->
  lookup_le (tag_name_to_id (tagging_of st')) (tag_name_to_id tgF) ->
  import_rows host header (mkImporting tgF (daylio_entries st) (stdout st)) rows =
  Ok (mkImporting tgF (daylio_entries st') (stdout st')).
Proof.
  revert st. induction rows as [|row rows IH]; cbn [import_rows]; intros st H Hle.
  - now inversion H; subst.
  - bind_inv H.
    rewrite (@import_row_again host header row st a tgF Ha).
    + cbn [bind]. now apply IH.
    + eapply lookup_le_trans; [|exact Hle].
      eapply import_rows_grows; eassumption.
Qed.

(** X24.  Importing the same CSV again, into the journal the first import
    left, changes nothing: it returns the same records with the same tag
    ids, prints the same lines and adds no tag to the journal. *)
Theorem reimport_changes_nothing :
  forall (host : Host) (csv_rows : list (list string))
         (journal journal1 : DaylioJournal.t) (hs : list json)
         (out : list string),
    import_how_we_feel_csv host csv_rows journal = Ok (hs, journal1, out) ->
    import_how_we_feel_csv host csv_rows journal1 = Ok (hs, journal1, out).
Proof.
  intros host csv_rows journal journal1 hs out H.
  unfold import_how_we_feel_csv in *.
  destruct csv_rows as [|header rows]; [discriminate|].
  destruct (name_to_id_of (DaylioJournal.tags journal) []) as [m|] eqn:Hm;
    cbn [bind] in *; [|discriminate].
  destruct (first_tag_id (dict_keys (DaylioJournal.tags journal))) as [f|] eqn:Hf;
    cbn [bind] in *; [|discriminate].
  destruct (import_rows host header _ rows) as [st1|] eqn:Hrows;
    cbn [bind] in *; [|discriminate].
  inversion H; subst hs journal1 out; clear H.
  cbn [DaylioJournal.tags DaylioJournal.version DaylioJournal.is_reminder_on
       DaylioJournal.moods DaylioJournal.entries].
  assert (Hcan : tagging_canonical (tagging_of st1)).
  { eapply import_rows_keeps with (P := tagging_canonical); [| |exact Hrows].
    - intros tg ids name. apply assign_tag_canonical.
    - split; assumption. }
  destruct Hcan as [Hm1 Hf1]. rewrite Hm1, Hf1. cbn [bind].
  pose proof (@import_rows_again host header rows _ st1 (tagging_of st1) Hrows
                (lookup_le_refl _)) as Hagain.
  cbn [daylio_entries stdout] in Hagain.
  destruct (tagging_of st1) as [tbl1 m1 n1] eqn:Etg.
  cbn [journal_tags tag_name_to_id next_tag_id] in *.
  rewrite Hagain. cbn [bind tagging_of journal_tags daylio_entries stdout].
  reflexivity.
Qed.

Lemma reimport_changes_nothing_witness :
  import_how_we_feel_csv host_cest sample_rows sample_journal_after =
  Ok (sample_records, sample_journal_after, sample_stdout).
Proof.
  exact (@reimport_changes_nothing host_cest sample_rows sample_journal
           sample_journal_after sample_records sample_stdout
           ltac:(vm_compute; reflexivity)).
Defined.

(* ================================================================== *)
(** * Merging the output again *)

Lemma assign_tag_table_ok (tg : tagging) (ids : list json) (name : string) :
  distinct_keys (journal_tags tg) /\ Forall keyed (journal_tags tg) ->
  distinct_keys (journal_tags (fst (assign_tag (tg, ids) name))) /\
  Forall keyed (journal_tags (fst (assign_tag (tg, ids) name))).
Proof.
  intros [Hd Hk]. unfold assign_tag.
  destruct (dict_get key_eqb (KStr (daylio_name name)) (tag_name_to_id tg));
    cbn [fst journal_tags]; [now split|].
  split.
  - now apply distinct_keys_set.
  - apply keyed_set; auto.
    exists (JInt (next_tag_id tg)), (KInt (next_tag_id tg)).
    cbn. repeat split. apply Z.eqb_refl.
Qed.

Lemma keyed_id_keys (tbl : DaylioJournal.table) :
  Forall keyed tbl ->
  exists ks,
    id_keys (dict_values tbl) = Some ks /\
    map canon ks = map canon (dict_keys tbl).
Proof.
  unfold dict_values, dict_keys.
  induction 1 as [|[k x] tbl (i & ki & Hi & Hki & He) _ (ks & Hks & Hc)];
    cbn [map id_keys fst snd] in *.
  - exists []. split; reflexivity.
  - exists (ki :: ks). rewrite Hi, Hki, Hks. split; [reflexivity|].
    cbn [map]. rewrite Hc. f_equal. now apply key_eqb_canon.
Qed.

Lemma table_values_unique (tbl : DaylioJournal.table) :
  distinct_keys tbl -> Forall keyed tbl -> unique_ids (dict_values tbl).
Proof.
  intros Hd Hk. destruct (keyed_id_keys Hk) as (ks & Hks & Hc).
  exists ks. split; [exact Hks|]. now rewrite Hc.
Qed.

Lemma key_int_canon (k : key) : key_int (canon k) = key_int k.
Proof. now destruct k as [|[]| |]. Qed.

Lemma int_keys_by_canon (a b : list key) :
  map canon a = map canon b -> int_keys a = int_keys b.
Proof.
  revert b. induction a as [|x a IH]; intros [|y b] H; cbn [map] in H;
    try discriminate; auto.
  inversion H as [[Hx Ha]]. cbn [int_keys].
  rewrite <- (key_int_canon x), <- (key_int_canon y), Hx, (IH b Ha).
  reflexivity.
Qed.

Lemma name_to_id_of_by_values (tbl tbl' : list (key * json)) (d d' m : dict key key) :
  name_to_id_of tbl d = Ok m ->
  dict_values tbl' = dict_values tbl ->
  exists m', name_to_id_of tbl' d' = Ok m'.
Proof.
  unfold dict_values.
  revert tbl' d d'. induction tbl as [|[k t] tbl IH]; intros [|[k' t'] tbl'] d d' H Hv;
    cbn [map snd] in Hv; try discriminate; cbn [name_to_id_of] in *.
  - eauto.
  - inversion Hv as [[Ht Hrest]]. subst t'.
    bind_inv H. rewrite Ha. cbn [bind].
    destruct (to_key a) as [kn|]; [|discriminate].
    eapply IH; eassumption.
Qed.

(** X25.  The document a merge produces is a fixed point of merging with a
    CSV that has a header row only: merged once more, it comes out as it
    is, entry ids, tag list and mood list included. *)
Theorem merged_output_is_stable :
  forall (host : Host) (data : json) (csv_rows : list (list string))
         (header : list string) (out : json),
    merge_journals host data csv_rows = Ok out ->
    merge_journals host out [header] = Ok out.
Proof.
  intros host data csv_rows header out H.
  apply merge_ok in H.
  destruct H as (journal & hs & journal' & diag & all & d & Hinit & Himp
                 & Hren & -> & ->).
  (* the tables of the first merge *)
  pose proof (@init_tags_ok (JObj d) journal Hinit) as [Hdt Hkt].
  pose proof Hinit as Htab. apply init_tables in Htab.
  destruct Htab as (ms & ts & es & _ & Hmoods & _ & _ & _ & Hents).
  apply by_id_ok in Hmoods; [|constructor|constructor].
  destruct Hmoods as [Hdm Hkm].
  pose proof Himp as Hi. apply import_ok in Hi.
  destruct Hi as (header0 & rows & m & f & st & _ & Hm & Hf & Hrows & -> & Htags
                  & _).
  assert (Hcan : tagging_canonical (tagging_of st)).
  { eapply import_rows_keeps with (P := tagging_canonical); [| |exact Hrows].
    - intros tg ids name. apply assign_tag_canonical.
    - split; assumption. }
  assert (Htok : distinct_keys (journal_tags (tagging_of st)) /\
                 Forall keyed (journal_tags (tagging_of st))).
  { eapply import_rows_keeps
      with (P := fun tg => distinct_keys (journal_tags tg) /\
                           Forall keyed (journal_tags tg)); [| |exact Hrows].
    - intros tg ids name. apply assign_tag_table_ok.
    - split; assumption. }
  destruct Hcan as [Hm1 Hf1]. destruct Htok as [Hdt' Hkt'].
  rewrite <- Htags in Hm1, Hf1, Hdt', Hkt'.
  (* the entries *)
  pose proof (@mapM_init_each es _ Hents) as Hprim.
  apply import_rows_loads in Hrows; [|constructor].
  cbn [daylio_entries] in Hrows.
  apply mapM_init_data in Hents. rewrite Hents in Hren.
  apply renumber_spec in Hren. destruct Hren as [HF Hids].
  rewrite <- (Forall2_length_eq HF) in Hids.
  assert (Hall : Forall (fun x => exists e, Entry.__init__ x = Ok e) all).
  { eapply renumbered_loads; [exact HF|]. apply Forall_app. now split. }
  apply each_init_mapM in Hall. destruct Hall as [ents Hents2].
  (* the tables of the second merge *)
  destruct (keyed_id_keys Hkm) as (ksm & Hksm & Hcm).
  destruct (keyed_id_keys Hkt') as (kst & Hkst & Hct).
  pose proof (@by_id_unique _ ksm [] Hksm) as Hbm.
  pose proof (@by_id_unique _ kst [] Hkst) as Hbt.
  cbn [dict_keys map app] in Hbm, Hbt.
  rewrite Hcm in Hbm. rewrite Hct in Hbt.
  specialize (Hbm Hdm). specialize (Hbt Hdt').
  assert (Hvm : dict_values (combine ksm (dict_values (DaylioJournal.moods journal)))
                = dict_values (DaylioJournal.moods journal)).
  { apply by_id_values; [now apply table_values_unique|exact Hbm]. }
  assert (Hvt : dict_values (combine kst (dict_values (DaylioJournal.tags journal')))
                = dict_values (DaylioJournal.tags journal')).
  { apply by_id_values; [now apply table_values_unique|exact Hbt]. }
  destruct (@name_to_id_of_by_values (DaylioJournal.tags journal')
              (combine kst (dict_values (DaylioJournal.tags journal'))) [] [] _
              Hm1 Hvt) as [m2 Hm2].
  assert (Hf2 : exists f2,
             first_tag_id
               (dict_keys (combine kst (dict_values (DaylioJournal.tags journal'))))
             = Ok f2).
  { unfold first_tag_id in *.
    rewrite (@int_keys_by_canon _ (dict_keys (DaylioJournal.tags journal'))).
    - destruct (int_keys (dict_keys (DaylioJournal.tags journal')));
        [eauto|discriminate].
    - rewrite <- Hct. f_equal. unfold dict_keys.
      rewrite map_fst_combine, firstn_all2; auto.
      unfold dict_values. rewrite length_map.
      apply id_keys_length in Hkst. unfold dict_values in Hkst.
      rewrite length_map in Hkst. lia. }
  destruct Hf2 as [f2 Hf2].
  (* running the second merge *)
  unfold merge_journals, DaylioJournal.__init__. cbn [get bind].
  rewrite obj_get_set_same. cbn [iter bind]. rewrite Hbm. cbn [bind].
  rewrite obj_get_set_other, obj_get_set_same by discriminate.
  cbn [iter bind]. rewrite Hbt. cbn [bind].
  rewrite !obj_get_set_other, obj_get_set_same by discriminate.
  cbn [iter bind]. rewrite Hents2. cbn [bind].
  unfold import_how_we_feel_csv.
  cbn [DaylioJournal.tags DaylioJournal.moods DaylioJournal.entries
       DaylioJournal.version DaylioJournal.is_reminder_on app].
  rewrite Hm2. cbn [bind]. rewrite Hf2.
  cbn [bind import_rows daylio_entries tagging_of journal_tags
       DaylioJournal.tags DaylioJournal.moods DaylioJournal.entries].
  rewrite app_nil_r, (mapM_init_data _ Hents2).
  rewrite (renumber_in_place 0 all Hids). cbn [bind copy].
  rewrite Hvm, Hvt.
  do 2 f_equal. unfold obj_set.
  rewrite (@dict_set_same_value _ _ String.eqb "dayEntries" (JList all)).
  2:{ fold (obj_get "dayEntries"
              (dict_set String.eqb "customMoods"
                 (JList (dict_values (DaylioJournal.moods journal)))
                 (dict_set String.eqb "tags"
                    (JList (dict_values (DaylioJournal.tags journal')))
                    (dict_set String.eqb "dayEntries" (JList all) d)))).
      fold (obj_set "dayEntries" (JList all) d).
      fold (obj_set "tags" (JList (dict_values (DaylioJournal.tags journal')))
              (obj_set "dayEntries" (JList all) d)).
      fold (obj_set "customMoods"
              (JList (dict_values (DaylioJournal.moods journal)))
              (obj_set "tags" (JList (dict_values (DaylioJournal.tags journal')))
                 (obj_set "dayEntries" (JList all) d))).
      rewrite !obj_get_set_other, obj_get_set_same by discriminate.
      reflexivity. }
  rewrite (@dict_set_same_value _ _ String.eqb "tags"
             (JList (dict_values (DaylioJournal.tags journal')))).
  2:{ fold (obj_set "dayEntries" (JList all) d).
      fold (obj_set "tags" (JList (dict_values (DaylioJournal.tags journal')))
              (obj_set "dayEntries" (JList all) d)).
      fold (obj_set "customMoods"
              (JList (dict_values (DaylioJournal.moods journal)))
              (obj_set "tags" (JList (dict_values (DaylioJournal.tags journal')))
                 (obj_set "dayEntries" (JList all) d))).
      fold (obj_get "tags"
              (obj_set "customMoods"
                 (JList (dict_values (DaylioJournal.moods journal)))
                 (obj_set "tags" (JList (dict_values (DaylioJournal.tags journal')))
                    (obj_set "dayEntries" (JList all) d)))).
      rewrite obj_get_set_other, obj_get_set_same by discriminate.
      reflexivity. }
  apply dict_set_same_value.
  fold (obj_set "dayEntries" (JList all) d).
  fold (obj_set "tags" (JList (dict_values (DaylioJournal.tags journal')))
          (obj_set "dayEntries" (JList all) d)).
  fold (obj_set "customMoods"
          (JList (dict_values (DaylioJournal.moods journal)))
          (obj_set "tags" (JList (dict_values (DaylioJournal.tags journal')))
             (obj_set "dayEntries" (JList all) d))).
  fold (obj_get "customMoods"
          (obj_set "customMoods"
             (JList (dict_values (DaylioJournal.moods journal)))
             (obj_set "tags" (JList (dict_values (DaylioJournal.tags journal')))
                (obj_set "dayEntries" (JList all) d)))).
  apply obj_get_set_same.
Qed.

Lemma merged_output_is_stable_witness :
  merge_journals host_cest sample_merged [sample_header] = Ok sample_merged.
Proof.
  exact (@merged_output_is_stable host_cest sample_doc sample_rows sample_header
           sample_merged ltac:(vm_compute; reflexivity)).
Defined.
